(** * StarTrader: the backtest simulation and performance-metrics engine

    A shallow embedding of the [POST /api/backtests/run] handler and of
    [generateSimulatedBars] (server/routes.ts), together with the parts of
    the in-memory store (server/storage.ts) and of the request schema
    (shared/schema.ts) that the handler touches.

    JavaScript numbers are kept abstract behind the class [Number].  The
    theorems are proved for every instance of the class, hence for
    IEEE-754 binary64 ([float], the kernel's primitive floats: the
    arithmetic the program performs), on which the concrete runs are
    evaluated.  Exact rationals ([Q]) are a second instance, to compare
    with.  [Math.random] is an explicit entropy source, a sequence of
    draws consumed in program order. *)

From Stdlib Require Import ZArith QArith Qround Qabs Lqa Lia List Bool String.
From Stdlib Require Import Floats Uint63 DecimalString ZifyNat.
From Stdlib Require Import Ascii Sorted Permutation.
From Equations Require Import Equations.
From stdpp Require Import gmap strings.
Import ListNotations.

Set Default Proof Using "Type".
Local Open Scope Z_scope.

(* ===================================================================== *)
(** * 1. Numbers *)
(* ===================================================================== *)

(** The operations on JavaScript numbers the engine uses.  [lit q] is the
    number a decimal literal of value [q] denotes; [floor] is [Math.floor]
    read as an integer; [toFixed5 x] is the integer [n] such that
    [x.toFixed(5)] prints [n / 10^5] (the sign of a zero result is not
    kept). *)
Class Number (T : Type) : Type := {
  lit : Q -> T;
  add : T -> T -> T;
  sub : T -> T -> T;
  mul : T -> T -> T;
  div : T -> T -> T;
  neg : T -> T;
  Math_abs : T -> T;
  Math_max : T -> T -> T;
  Math_min : T -> T -> T;
  Math_floor : T -> Z;
  num_lt : T -> T -> bool;
  num_ge : T -> T -> bool;
  toFixed5 : T -> Z
}.

Declare Scope js_scope.
Delimit Scope js_scope with js.
Infix "+" := add : js_scope.
Infix "-" := sub : js_scope.
Infix "*" := mul : js_scope.
Infix "/" := div : js_scope.
Notation "- x" := (neg x) : js_scope.
Infix "<?" := num_lt : js_scope.
Notation "x >? y" := (num_lt y x) : js_scope.
Infix ">=?" := num_ge (at level 70) : js_scope.

(** An integer-valued number, such as a loop index used in arithmetic. *)
Definition ofInt {T} `{Number T} (n : Z) : T := lit (inject_Z n).

(** ** Exact rationals *)

(** Arithmetic without rounding.  It is not the arithmetic of the
    program; a run over [Q] is there to set beside the binary64 run. *)

Definition Q_toFixed5 (x : Q) : Z :=
  if QMicromega.Qlt_bool x 0
  then - Qfloor (Qplus (Qmult (Qopp x) 100000) 0.5)
  else Qfloor (Qplus (Qmult x 100000) 0.5).

#[export] Instance Q_Number : Number Q := {
  lit q := q;
  add := Qplus;
  sub := Qminus;
  mul := Qmult;
  div := Qdiv;
  neg := Qopp;
  Math_abs := Qabs;
  Math_max a b := if QMicromega.Qlt_bool a b then b else a;
  Math_min a b := if QMicromega.Qlt_bool b a then b else a;
  Math_floor := Qfloor;
  num_lt := QMicromega.Qlt_bool;
  num_ge a b := Qle_bool b a;
  toFixed5 := Q_toFixed5
}.

(** ** IEEE-754 binary64 *)

Module F64.

(** An integer as a double (exact below 2^53 in magnitude). *)
Definition of_Z (z : Z) : float :=
  match z with
  | Z0 => PrimFloat.zero
  | Zpos _ => PrimFloat.of_uint63 (Uint63.of_Z z)
  | Zneg p => PrimFloat.opp (PrimFloat.of_uint63 (Uint63.of_Z (Zpos p)))
  end.

(** A decimal literal denotes the double nearest to its value; for the
    literals of this program numerator and denominator are exact doubles,
    so the correctly rounded quotient is that double. *)
Definition lit (q : Q) : float :=
  PrimFloat.div (of_Z (Qnum q)) (of_Z (Zpos (Qden q))).

(** [Math.floor] of a finite double, as an integer. *)
Definition floor (x : float) : Z :=
  match Prim2SF x with
  | S754_finite s m e =>
      let v := if s then Zneg m else Zpos m in
      if 0 <=? e then v * 2 ^ e else v / 2 ^ (- e)
  | _ => 0
  end.

(** [x.toFixed(5)]: the integer [n] with [n / 10^5] nearest to the exact
    value of [|x|], the larger one on a tie, with the sign of [x]. *)
Definition toFixed5 (x : float) : Z :=
  match Prim2SF x with
  | S754_finite s m e =>
      let a := Zpos m * 100000 in
      let n := if 0 <=? e then a * 2 ^ e
               else (2 * a + 2 ^ (- e)) / 2 ^ (- e + 1) in
      if s then - n else n
  | _ => 0
  end.

Definition max (a b : float) : float :=
  if is_nan a || is_nan b then nan
  else if PrimFloat.ltb a b then b
  else if PrimFloat.ltb b a then a
  else if PrimFloat.is_zero a && get_sign a then b else a.

Definition min (a b : float) : float :=
  if is_nan a || is_nan b then nan
  else if PrimFloat.ltb b a then b
  else if PrimFloat.ltb a b then a
  else if PrimFloat.is_zero a && negb (get_sign a) then b else a.

End F64.

#[export] Instance F64_Number : Number float := {
  lit := F64.lit;
  add := PrimFloat.add;
  sub := PrimFloat.sub;
  mul := PrimFloat.mul;
  div := PrimFloat.div;
  neg := PrimFloat.opp;
  Math_abs := PrimFloat.abs;
  Math_max := F64.max;
  Math_min := F64.min;
  Math_floor := F64.floor;
  num_lt := PrimFloat.ltb;
  num_ge a b := PrimFloat.leb b a;
  toFixed5 := F64.toFixed5
}.

(* ===================================================================== *)
(** * 2. Data model (shared/schema.ts) *)
(* ===================================================================== *)

(** Time values are milliseconds since the epoch; an ISO-8601 string
    produced by [toISOString] is represented by the time value it prints. *)

Module Strategy.
Record t (T : Type) : Type := mk {
  id : string;
  name : string;
  description : string;
  filename : string;
  content : string;
  isActive : bool;
  createdAt : string;
  lastRun : option string;
  totalTrades : Z;
  winRate : T;
  totalProfit : T
}.
Arguments mk {T}.
Arguments name {T}.
End Strategy.

Inductive Side : Type := BUY | SELL.

Module BacktestTrade.
Record t (T : Type) : Type := mk {
  id : string;
  symbol : string;
  type : Side;
  openPrice : T;
  closePrice : T;
  volume : T;
  profit : T;
  openTime : Z;
  closeTime : Z
}.
Arguments mk {T}.
Arguments id {T}.
Arguments symbol {T}.
Arguments type {T}.
Arguments openPrice {T}.
Arguments closePrice {T}.
Arguments volume {T}.
Arguments profit {T}.
Arguments openTime {T}.
Arguments closeTime {T}.
End BacktestTrade.

Module BacktestResult.
Record t (T : Type) : Type := mk {
  id : string;
  strategyId : string;
  strategyName : string;
  symbol : string;
  timeframe : string;
  startDate : string;
  endDate : string;
  initialBalance : T;
  finalBalance : T;
  totalTrades : Z;
  winningTrades : Z;
  losingTrades : Z;
  winRate : T;
  totalProfit : T;
  maxDrawdown : T;
  sharpeRatio : T;
  profitFactor : T;
  equityCurve : list T;
  trades : list (BacktestTrade.t T);
  createdAt : Z
}.
Arguments mk {T}.
Arguments id {T}.
Arguments strategyId {T}.
Arguments strategyName {T}.
Arguments symbol {T}.
Arguments timeframe {T}.
Arguments startDate {T}.
Arguments endDate {T}.
Arguments initialBalance {T}.
Arguments finalBalance {T}.
Arguments totalTrades {T}.
Arguments winningTrades {T}.
Arguments losingTrades {T}.
Arguments winRate {T}.
Arguments totalProfit {T}.
Arguments maxDrawdown {T}.
Arguments sharpeRatio {T}.
Arguments profitFactor {T}.
Arguments equityCurve {T}.
Arguments trades {T}.
Arguments createdAt {T}.
End BacktestResult.

Module RunBacktestInput.
Record t (T : Type) : Type := mk {
  strategyId : string;
  symbol : string;
  timeframe : string;
  startDate : string;
  endDate : string;
  initialBalance : T
}.
Arguments mk {T}.
Arguments strategyId {T}.
Arguments symbol {T}.
Arguments timeframe {T}.
Arguments startDate {T}.
Arguments endDate {T}.
Arguments initialBalance {T}.
End RunBacktestInput.

(** A bar as [generateSimulatedBars] pushes it: the four prices are the
    [toFixed(5)] renderings, kept as integers in units of 10^-5. *)
Module Bar.
Record t : Type := mk {
  time : Z;
  open : Z;
  high : Z;
  low : Z;
  close : Z;
  tick_volume : Z;
  spread : Z;
  real_volume : Z
}.
End Bar.

(* ===================================================================== *)
(** * 3. Program state and effects *)
(* ===================================================================== *)

(** What a run can observe or change: the position in the entropy
    sequence, the two maps of [MemStorage] the handler uses, the contents
    of [storage/backtests/latest_bars.csv] (its rows, [None] while the
    file does not exist) and the number of identifiers handed out by
    [randomUUID]. *)
Record State (T : Type) : Type := mkState {
  drawn : nat;
  strategies : gmap string (Strategy.t T);
  backtestResults : gmap string (BacktestResult.t T);
  latest_bars_csv : option (list Bar.t);
  uuids : nat
}.
Arguments mkState {T}.
Arguments drawn {T}.
Arguments strategies {T}.
Arguments backtestResults {T}.
Arguments latest_bars_csv {T}.
Arguments uuids {T}.

(** The exceptions a handler can meet: a RangeError of the engine
    ([toISOString] on an invalid date, a string that is too long) and an
    error of the file system. *)
Inductive JsError : Type := RangeError | SystemError.

Inductive completion (A : Type) : Type :=
| Normal (a : A)
| Throw (e : JsError).
Arguments Normal {A}.
Arguments Throw {A}.

(** A statement sequence: it may change the state and either completes
    with a value or throws; the state reached when it throws is kept, as
    a [catch] block would find it. *)
Definition M (T A : Type) : Type := State T -> completion A * State T.

Definition ret {T A} (a : A) : M T A := fun s => (Normal a, s).

Definition throw {T A} (e : JsError) : M T A := fun s => (Throw e, s).

Definition bind {T A B} (c : M T A) (k : A -> M T B) : M T B :=
  fun s => match c s with
           | (Normal a, s') => k a s'
           | (Throw e, s') => (Throw e, s')
           end.

Notation "x <- c ;; k" := (bind c (fun x => k))
  (at level 100, c at next level, right associativity).

(** [for (let i = from; i < from + count; i++) body]. *)
Fixpoint forLoop {T A} (count from : nat) (body : nat -> A -> M T A) (a : A)
  : M T A :=
  match count with
  | O => ret a
  | S count' => a' <- body from a ;; forLoop count' (S from) body a'
  end.

(** The HTTP response of the handler. *)
Inductive Response (T : Type) : Type :=
| Json (result : BacktestResult.t T) (barsSaved : nat) (barsPath : string)
| Status (code : Z) (error : string).
Arguments Json {T}.
Arguments Status {T}.

(** What the process finds around it: [process.cwd()] (on a POSIX system,
    an absolute normalised path: the root ["/"] or a path that does not
    end in a slash), whether the process can make the directory
    [storage/backtests] there and write a file in it, the text of
    [new Date(t).toISOString()], the text of the [toFixed(5)] price a bar
    holds, and the length of the longest string the engine builds. *)
Module Host.
Record t : Type := mk {
  cwd : string;
  writable : bool;
  Date_text : Z -> string;
  fixed5Text : Z -> string;
  maxStringLength : Z
}.
End Host.

(** ** The text of the bar file *)

Definition newline : ascii := "010"%char.

(** [`${n}`] for an integer below 1e21 in magnitude. *)
Definition intText (n : Z) : string := NilZero.string_of_int (Z.to_int n).

Definition csvHeader : string :=
  String.append "time,open,high,low,close,tick_volume,spread,real_volume"
                (String newline EmptyString).

Section BarFile.

Variable Date_text : Z -> string.
Variable fixed5Text : Z -> string.

(** One row of the file: the template literal over the bar's fields. *)
Definition csvRow (bar : Bar.t) : string :=
  String.concat ","
    [Date_text (Bar.time bar); fixed5Text (Bar.open bar);
     fixed5Text (Bar.high bar); fixed5Text (Bar.low bar);
     fixed5Text (Bar.close bar); intText (Bar.tick_volume bar);
     intText (Bar.spread bar); intText (Bar.real_volume bar)].

(** [csvHeader + barsData.map(...).join("\n")]. *)
Definition csvContent (rows : list Bar.t) : string :=
  String.append csvHeader
                (String.concat (String newline EmptyString) (map csvRow rows)).

End BarFile.

(* ===================================================================== *)
(** * 4. The engine (server/routes.ts, server/storage.ts) *)
(* ===================================================================== *)

Section Engine.

Context {T : Type} `{Number T}.

(** [Math.random()]: the values it returns, in the order of the calls. *)
Variable entropy : nat -> T.

(** The time value [new Date(s)] parses from a date string ([None]: the
    string is not a date and the time value is NaN). *)
Variable Date_parse : string -> option Z.

(** [randomUUID()], by the number of identifiers handed out before, and
    the wall clock read by [createBacktestResult]. *)
Variable randomUUID : nat -> string.
Variable Date_now : Z.

Variable host : Host.t.

Definition Math_random : M T T :=
  fun s => (Normal (entropy (drawn s)),
            mkState (S (drawn s)) (strategies s) (backtestResults s)
                    (latest_bars_csv s) (uuids s)).

(** ** Dates *)

(** A Date holds a time value of at most 8.64e15 ms in magnitude, or NaN. *)
Definition maxTimeValue : Z := 8640000000000000.

Definition TimeClip (t : Z) : option Z :=
  if Z.abs t <=? maxTimeValue then Some t else None.

(** [new Date(s).getTime()]. *)
Definition getTime (s : string) : option Z :=
  match Date_parse s with
  | Some t => TimeClip t
  | None => None
  end.

(** [new Date(tv).toISOString()] for a number [tv] ([None] is NaN): a
    RangeError when the date is invalid. *)
Definition toISOString (tv : option Z) : M T Z :=
  match tv with
  | Some t => match TimeClip t with
              | Some t' => ret t'
              | None => throw RangeError
              end
  | None => throw RangeError
  end.

(** [s.includes(sub)]. *)
Definition includes (s sub : string) : bool :=
  match String.index 0 sub s with
  | Some _ => true
  | None => false
  end.

(** ** generateSimulatedBars *)

Definition interval : Z := 5 * 60 * 1000.

(** The body of the [for] loop of [generateSimulatedBars]: the bar pushed
    at [time] and the next value of [price]. *)
Definition barStep (volatility : T) (time : Z) (price : T) : M T (Bar.t * T) :=
  r <- Math_random ;;
  let change := ((r - lit 0.5) * lit 2 * volatility)%js in
  let open := price in
  let close := (price + change)%js in
  r <- Math_random ;;
  let high := (Math_max open close + r * volatility)%js in
  r <- Math_random ;;
  let low := (Math_min open close - r * volatility)%js in
  iso <- toISOString (Some time) ;;
  r <- Math_random ;;
  let tick_volume := Math_floor (r * lit 1000)%js + 100 in
  r <- Math_random ;;
  let spread := Math_floor (r * lit 20)%js + 5 in
  ret (Bar.mk iso (toFixed5 open) (toFixed5 high) (toFixed5 low)
              (toFixed5 close) tick_volume spread 0,
       close).

(** [for (let time = start; time < end; time += interval) { ... }],
    with the bars pushed so far. *)
Equations? barsLoop (volatility : T) (end_ time : Z) (price : T)
  (bars : list Bar.t) (s : State T) : completion (list Bar.t) * State T
  by wf (Z.to_nat ((end_ - time + (interval - 1)) / interval)) lt :=
  barsLoop volatility end_ time price bars s with Z_lt_dec time end_ => {
    | right _ => (Normal bars, s)
    | left _ with barStep volatility time price s => {
        | (Throw e, s') => (Throw e, s')
        | (Normal (bar, close), s') =>
            barsLoop volatility end_ (time + interval) close (bars ++ [bar]) s'
      }
  }.
Proof.
  unfold interval. apply Z2Nat.inj_lt.
  - apply Z.div_pos; lia.
  - apply Z.div_pos; lia.
  - replace (end_ - time + (5 * 60 * 1000 - 1))
      with ((end_ - (time + 5 * 60 * 1000) + (5 * 60 * 1000 - 1)) + 1 * (5 * 60 * 1000))
      by ring.
    rewrite Z.div_add by lia. lia.
Qed.

(** With an invalid date the time value is NaN, the test [time < end] is
    false at once and the loop body never runs. *)
Definition generateSimulatedBars (startDate endDate symbol : string)
  : M T (list Bar.t) :=
  fun s =>
    let start := getTime startDate in
    let end_ := getTime endDate in
    let price := if includes symbol "JPY" then lit 150.0 else lit 1.1000 in
    let volatility := if includes symbol "JPY" then lit 0.5 else lit 0.0005 in
    match start, end_ with
    | Some start, Some end_ => barsLoop volatility end_ start price [] s
    | _, _ => (Normal [], s)
    end.

(** ** The store (MemStorage) and the file system *)

Definition storage_getStrategy (id : string) : M T (option (Strategy.t T)) :=
  fun s => (Normal (strategies s !! id), s).

(** [createBacktestResult(result)]: [result] still lacks its [id] and
    [createdAt], which the store assigns. *)
Definition storage_createBacktestResult
  (result : string -> Z -> BacktestResult.t T) : M T (BacktestResult.t T) :=
  fun s =>
    let id := randomUUID (uuids s) in
    let newResult := result id Date_now in
    (Normal newResult,
     mkState (drawn s) (strategies s) (<[id := newResult]> (backtestResults s))
             (latest_bars_csv s) (S (uuids s))).

(** [path.join(process.cwd(), "storage", "backtests", "latest_bars.csv")],
    with the separator of a POSIX system. *)
Definition csvPath : string :=
  if String.eqb (Host.cwd host) "/" then "/storage/backtests/latest_bars.csv"
  else (Host.cwd host ++ "/storage/backtests/latest_bars.csv")%string.

(** [csvHeader + csvRows], as the handler builds it: a string longer than
    the engine allows is a RangeError ("Invalid string length"), thrown
    by [join] or by the concatenation. *)
Definition csvText (rows : list Bar.t) : M T string :=
  let text := csvContent (Host.Date_text host) (Host.fixed5Text host) rows in
  if Z.of_nat (String.length text) <=? Host.maxStringLength host then ret text
  else throw RangeError.

(** [fs.mkdirSync(barsDir, { recursive: true })]: it throws where the
    directory cannot be made. *)
Definition fs_mkdirSync : M T unit :=
  if Host.writable host then ret tt else throw SystemError.

(** [fs.writeFileSync(csvPath, csvHeader + csvRows)]: the file now holds
    one row per bar; where the file cannot be written the call throws and
    the file is as it was. *)
Definition fs_writeFileSync (rows : list Bar.t) : M T unit :=
  fun s =>
    if Host.writable host
    then (Normal tt,
          mkState (drawn s) (strategies s) (backtestResults s) (Some rows)
                  (uuids s))
    else (Throw SystemError, s).

(** ** runBacktestSchema *)

Definition min1 (message : string) (s : string) : list string :=
  if String.eqb s "" then [message] else [].

(** The issues [runBacktestSchema.safeParse] reports on a body whose
    fields have the right types; the parse succeeds when there are none. *)
Definition runBacktestSchema (body : RunBacktestInput.t T) : list string :=
  min1 "Strategy is required" (RunBacktestInput.strategyId body)
  ++ min1 "Symbol is required" (RunBacktestInput.symbol body)
  ++ min1 "Timeframe is required" (RunBacktestInput.timeframe body)
  ++ min1 "Start date is required" (RunBacktestInput.startDate body)
  ++ min1 "End date is required" (RunBacktestInput.endDate body)
  ++ (if (RunBacktestInput.initialBalance body >=? lit 100)%js then []
      else ["Minimum balance is 100"]).

(** ** POST /api/backtests/run *)

(** The variables the trade loop updates. *)
Record Ledger : Type := mkLedger {
  equity : T;
  equityCurve : list T;
  trades : list (BacktestTrade.t T)
}.

Definition tradeId (i : nat) : string :=
  "trade-" ++ NilEmpty.string_of_uint (Nat.to_uint i).

(** [new Date(new Date(startDate).getTime() + k * 3600000 * 4)]'s time
    value, before it is clipped. *)
Definition tradeTime (startDate : string) (k : nat) : option Z :=
  match getTime startDate with
  | Some t => Some (t + Z.of_nat k * 3600000 * 4)
  | None => None
  end.

(** The body of the trade loop at index [i]. *)
Definition tradeStep (symbol startDate : string) (winningTrades : Z)
  (i : nat) (l : Ledger) : M T Ledger :=
  let isWin := Z.of_nat i <? winningTrades in
  profit <- (if isWin
             then r <- Math_random ;; ret (r * lit 200 + lit 50)%js
             else r <- Math_random ;; ret (- (r * lit 150 + lit 30))%js) ;;
  let equity' := (equity l + profit)%js in
  r <- Math_random ;;
  let type := if (r >? lit 0.5)%js then BUY else SELL in
  r <- Math_random ;;
  let openPrice := (lit 1.0 + r * lit 0.1)%js in
  r <- Math_random ;;
  let closePrice := (lit 1.0 + r * lit 0.1)%js in
  r <- Math_random ;;
  let volume := (lit 0.1 + r * lit 0.4)%js in
  openTime <- toISOString (tradeTime startDate i) ;;
  closeTime <- toISOString (tradeTime startDate (i + 1)) ;;
  let trades' :=
    trades l ++ [BacktestTrade.mk (tradeId i) symbol type openPrice closePrice
                                  volume profit openTime closeTime] in
  let equityCurve' :=
    if Z.of_nat i mod 3 =? 0 then equityCurve l ++ [equity']
    else equityCurve l in
  ret (mkLedger equity' equityCurve' trades').

(** [ts.reduce((sum, t) => sum + t.profit, 0)]. *)
Definition sumProfit (ts : list (BacktestTrade.t T)) : T :=
  fold_left (fun sum t => (sum + BacktestTrade.profit t)%js) ts (lit 0).

(** The handler's [try] block.  The body arrives typed; the message of a
    400 stands for [parsed.error.message] and lists the issues. *)
Definition handler (body : RunBacktestInput.t T) : M T (Response T) :=
  match runBacktestSchema body with
  | issue :: issues => ret (Status 400 (String.concat "; " (issue :: issues)))
  | [] =>
    let strategyId := RunBacktestInput.strategyId body in
    let symbol := RunBacktestInput.symbol body in
    let timeframe := RunBacktestInput.timeframe body in
    let startDate := RunBacktestInput.startDate body in
    let endDate := RunBacktestInput.endDate body in
    let initialBalance := RunBacktestInput.initialBalance body in
    strategy <- storage_getStrategy strategyId ;;
    match strategy with
    | None => ret (Status 404 "Strategy not found")
    | Some strategy =>
      r <- Math_random ;;
      let totalTrades := Math_floor (r * lit 50)%js + 20 in
      r <- Math_random ;;
      let winRate := (lit 45 + r * lit 25)%js in
      let winningTrades :=
        Math_floor (winRate / lit 100 * ofInt totalTrades)%js in
      let losingTrades := totalTrades - winningTrades in
      l <- forLoop (Z.to_nat totalTrades) 0
             (tradeStep symbol startDate winningTrades)
             (mkLedger initialBalance [initialBalance] []) ;;
      let totalProfit := sumProfit (trades l) in
      r <- Math_random ;;
      let maxDrawdown := (r * lit 15 + lit 5)%js in
      let profitFactor :=
        Math_abs
          (sumProfit (List.filter (fun t => (BacktestTrade.profit t >? lit 0)%js)
                                  (trades l))
           / Math_max (lit 1)
               (Math_abs
                  (sumProfit
                     (List.filter
                        (fun t => (BacktestTrade.profit t <? lit 0)%js)
                        (trades l)))))%js in
      barsData <- generateSimulatedBars startDate endDate symbol ;;
      _ <- fs_mkdirSync ;;
      _ <- csvText barsData ;;
      _ <- fs_writeFileSync barsData ;;
      r <- Math_random ;;
      let sharpeRatio := (lit 0.5 + r * lit 1.5)%js in
      result <- storage_createBacktestResult
                  (fun id createdAt =>
                     BacktestResult.mk id strategyId (Strategy.name strategy)
                       symbol timeframe startDate endDate initialBalance
                       (equity l) totalTrades winningTrades losingTrades
                       winRate totalProfit maxDrawdown sharpeRatio
                       profitFactor (equityCurve l) (trades l) createdAt) ;;
      ret (Json result (length barsData) csvPath)
    end
  end.

(** The handler with its [catch]: any exception becomes a 500. *)
Definition runBacktest (body : RunBacktestInput.t T) (s : State T)
  : Response T * State T :=
  match handler body s with
  | (Normal response, s') => (response, s')
  | (Throw _, s') => (Status 500 "Failed to run backtest", s')
  end.

End Engine.

(* ===================================================================== *)
(** * 5. Closed forms and properties used in the statements *)
(* ===================================================================== *)

Section ClosedForms.

Context {T : Type} `{Number T}.
Variable entropy : nat -> T.
Variable Date_parse : string -> option Z.

(** The state after [k] more calls of [Math.random]. *)
Definition advance (k : nat) (s : State T) : State T :=
  mkState (drawn s + k) (strategies s) (backtestResults s)
          (latest_bars_csv s) (uuids s).

(** The trade loop starts at position [d] of the entropy sequence and each
    iteration consumes five draws: trade [i] reads positions
    [d + 5 i .. d + 5 i + 4]. *)
Definition profitAt (d : nat) (winningTrades : Z) (i : nat) : T :=
  if Z.of_nat i <? winningTrades
  then (entropy (d + 5 * i) * lit 200 + lit 50)%js
  else (- (entropy (d + 5 * i) * lit 150 + lit 30))%js.

Definition startTime (startDate : string) : Z :=
  match getTime Date_parse startDate with
  | Some t => t
  | None => 0
  end.

Definition tradeAt (symbol startDate : string) (d : nat) (winningTrades : Z)
  (i : nat) : BacktestTrade.t T :=
  BacktestTrade.mk (tradeId i) symbol
    (if (entropy (d + 5 * i + 1) >? lit 0.5)%js then BUY else SELL)
    (lit 1.0 + entropy (d + 5 * i + 2) * lit 0.1)%js
    (lit 1.0 + entropy (d + 5 * i + 3) * lit 0.1)%js
    (lit 0.1 + entropy (d + 5 * i + 4) * lit 0.4)%js
    (profitAt d winningTrades i)
    (startTime startDate + Z.of_nat i * 3600000 * 4)
    (startTime startDate + Z.of_nat (i + 1) * 3600000 * 4).

(** The running balance after the first [j] trades. *)
Definition balanceAfter (initialBalance : T) (d : nat) (winningTrades : Z)
  (j : nat) : T :=
  fold_left add (map (profitAt d winningTrades) (seq 0 j)) initialBalance.

(** The number of indices [i < n] with [i mod 3 = 0]. *)
Definition ceil3 (n : nat) : nat := (n + 2) / 3.

(** The ledger the trade loop holds when it is about to run index [n]. *)
Definition ledgerAt (symbol startDate : string) (initialBalance : T)
  (d : nat) (winningTrades : Z) (n : nat) : Ledger :=
  mkLedger (balanceAfter initialBalance d winningTrades n)
           (initialBalance ::
              map (fun k => balanceAfter initialBalance d winningTrades (3 * k + 1))
                  (seq 0 (ceil3 n)))
           (map (tradeAt symbol startDate d winningTrades) (seq 0 n)).

(** The bar pushed by an iteration of the bar loop that starts at
    position [k], and the price it leaves. *)
Definition closeAt (volatility price : T) (k : nat) : T :=
  (price + (entropy k - lit 0.5) * lit 2 * volatility)%js.

Definition barAt (volatility : T) (time : Z) (price : T) (k : nat) : Bar.t :=
  let close := closeAt volatility price k in
  Bar.mk time (toFixed5 price)
    (toFixed5 (Math_max price close + entropy (k + 1) * volatility)%js)
    (toFixed5 (Math_min price close - entropy (k + 2) * volatility)%js)
    (toFixed5 close)
    (Math_floor (entropy (k + 3) * lit 1000)%js + 100)
    (Math_floor (entropy (k + 4) * lit 20)%js + 5)
    0.

(** The volatility [generateSimulatedBars] picks for a symbol. *)
Definition volatilityOf (symbol : string) : T :=
  if includes symbol "JPY" then lit 0.5 else lit 0.0005.

(** What the handler draws first, when it starts at position [d]. *)
Definition drawnTotalTrades (d : nat) : Z :=
  Math_floor (entropy d * lit 50)%js + 20.

Definition drawnWinRate (d : nat) : T :=
  (lit 45 + entropy (d + 1) * lit 25)%js.

Definition derivedWinningTrades (d : nat) : Z :=
  Math_floor (drawnWinRate d / lit 100 * ofInt (drawnTotalTrades d))%js.

(** The ledger at the end of the trade loop of a run on [body] that starts
    at position [d]. *)
Definition runLedger (body : RunBacktestInput.t T) (d : nat) : Ledger :=
  ledgerAt (RunBacktestInput.symbol body) (RunBacktestInput.startDate body)
    (RunBacktestInput.initialBalance body) (d + 2) (derivedWinningTrades d)
    (Z.to_nat (drawnTotalTrades d)).

End ClosedForms.

(** ** Properties named in the statements *)

Section Properties.

Context {T : Type} `{Number T}.

(** The sign of a number: 1, -1 or 0. *)
Definition sgn (x : T) : Z :=
  if (x >? lit 0)%js then 1 else if (x <? lit 0)%js then -1 else 0.

(** The price move in the trade's favour: [closePrice - openPrice] for a
    BUY, the opposite for a SELL. *)
Definition favourableMove (t : BacktestTrade.t T) : T :=
  match BacktestTrade.type t with
  | BUY => (BacktestTrade.closePrice t - BacktestTrade.openPrice t)%js
  | SELL => (BacktestTrade.openPrice t - BacktestTrade.closePrice t)%js
  end.

(** The sign of [profit] is the sign of the favourable move. *)
Definition profitMatchesDirection (t : BacktestTrade.t T) : bool :=
  sgn (BacktestTrade.profit t) =? sgn (favourableMove t).

(** [winningTrades / totalTrades * 100] when [totalTrades > 0], else 0. *)
Definition realisedWinRate (r : BacktestResult.t T) : T :=
  if 0 <? BacktestResult.totalTrades r
  then (ofInt (BacktestResult.winningTrades r)
        / ofInt (BacktestResult.totalTrades r) * lit 100)%js
  else lit 0.

(** [lo <= x < hi]. *)
Definition inRange (lo hi x : T) : bool :=
  (x >=? lo)%js && (x <? hi)%js.

(** [|a - b| <= 1e-6]. *)
Definition withinTolerance (a b : T) : bool :=
  (lit 0.000001 >=? Math_abs (a - b))%js.

End Properties.

(* ===================================================================== *)
(** * 6. Sample inputs *)
(* ===================================================================== *)

Module Sample.

(** The dates of the sample runs, as [Date] parses them (UTC). *)
Definition Date_parse (s : string) : option Z :=
  if String.eqb s "2024-01-01" then Some 1704067200000
  else if String.eqb s "2024-01-01T00:00:00.000Z" then Some 1704067200000
  else if String.eqb s "2024-01-01T00:01:00.000Z" then Some 1704067260000
  else if String.eqb s "2024-02-01" then Some 1706745600000
  else None.

Definition randomUUID (n : nat) : string :=
  "uuid-" ++ NilEmpty.string_of_uint (Nat.to_uint n).

Definition Date_now : Z := 1717200000000.

(** A process started in [/home/runner/workspace] that may write there,
    on an engine whose strings hold up to 2^29 - 24 characters; a time
    and a price are written as the integer the model holds. *)
Definition host : Host.t :=
  Host.mk "/home/runner/workspace" true intText intText 536870888.

(** The same process on a file system it may not write to. *)
Definition readOnly : Host.t :=
  Host.mk "/home/runner/workspace" false intText intText 536870888.

Definition strategy {T} `{Number T} : Strategy.t T :=
  Strategy.mk "s1" "SMA Crossover" "" "sma.py" "def run(): pass" false
              "2024-01-01T00:00:00.000Z" None 0 (lit 0) (lit 0).

(** A store holding the one strategy ["s1"], before any run. *)
Definition store {T} `{Number T} : State T :=
  mkState 0 (<["s1"%string := strategy]> ∅) ∅ None 0.

Definition request {T} `{Number T} (strategyId startDate endDate : string)
  (initialBalance : T) : RunBacktestInput.t T :=
  RunBacktestInput.mk strategyId "EURUSD" "H1" startDate endDate
                      initialBalance.

(** Entropy sources: every draw 1/2; every draw 0; every draw 3/10; every
    draw 1/3; every draw 1/2 except the side draw (3/4) and the
    close-price draw (1/4) of trade 0. *)
Definition halves {T} `{Number T} (k : nat) : T := lit 0.5.

Definition zeros {T} `{Number T} (k : nat) : T := lit 0.

Definition tenths {T} `{Number T} (k : nat) : T := lit 0.3.

Definition thirds {T} `{Number T} (k : nat) : T := lit (1 # 3).

Definition mixed {T} `{Number T} (k : nat) : T :=
  match k with
  | 3%nat => lit 0.75
  | 5%nat => lit 0.25
  | _ => lit 0.5
  end.

(** The result a response carries, if it carries one. *)
Definition resultOf {T} (response : Response T * State T)
  : option (BacktestResult.t T) :=
  match response with
  | (Json result _ _, _) => Some result
  | (Status _ _, _) => None
  end.

Definition minuteLater : string := "2024-01-01T00:01:00.000Z".

(** A run of the handler on the store: strategy ["s1"], from 2024-01-01
    to one minute later. *)
Definition run {T} `{Number T} (entropy : nat -> T) (initialBalance : T)
  : Response T * State T :=
  runBacktest entropy Date_parse randomUUID Date_now host
    (request "s1" "2024-01-01" minuteLater initialBalance) store.

(** What the sample statements read off a result and off a trade, with
    numbers rendered by [toFixed5] (units of 10^-5). *)
Definition rates {T} `{Number T} (r : BacktestResult.t T) : Z * Z * Z * Z :=
  (BacktestResult.totalTrades r, BacktestResult.winningTrades r,
   toFixed5 (BacktestResult.winRate r), toFixed5 (realisedWinRate r)).

Definition tradeView {T} `{Number T} (t : BacktestTrade.t T)
  : Side * Z * Z * Z :=
  (BacktestTrade.type t, toFixed5 (BacktestTrade.profit t),
   toFixed5 (BacktestTrade.openPrice t), toFixed5 (BacktestTrade.closePrice t)).

Definition tradeOf {T} (i : nat) (response : Response T * State T)
  : option (BacktestTrade.t T) :=
  match resultOf response with
  | Some r => nth_error (BacktestResult.trades r) i
  | None => None
  end.

(** A call of the bar synthesizer on EURUSD, from 2024-01-01. *)
Definition bars {T} `{Number T} (entropy : nat -> T) (endDate : string)
  : completion (list Bar.t) * State T :=
  generateSimulatedBars entropy Date_parse "2024-01-01" endDate "EURUSD"
                        store.

End Sample.

(* ===================================================================== *)
(** * 6b. The rest of the server: data model *)
(* ===================================================================== *)

(** The records of shared/schema.ts the other routes store.  A date field
    that only ever holds a [toISOString] rendering is kept as its time
    value, as before.  The [type] of a live trade is the string the
    request carried: the route stores it unchecked. *)

Inductive TradeStatus : Type := OPEN | CLOSED | PENDING.

Module Trade.
Record t (T : Type) : Type := mk {
  id : string;
  ticket : Z;
  symbol : string;
  type : string;
  volume : T;
  openPrice : T;
  currentPrice : T;
  stopLoss : T;
  takeProfit : T;
  profit : T;
  openTime : Z;
  closeTime : option Z;
  status : TradeStatus;
  strategyId : string;
  strategyName : string
}.
Arguments mk {T}.
Arguments id {T}.
Arguments ticket {T}.
Arguments symbol {T}.
Arguments type {T}.
Arguments volume {T}.
Arguments openPrice {T}.
Arguments currentPrice {T}.
Arguments stopLoss {T}.
Arguments takeProfit {T}.
Arguments profit {T}.
Arguments openTime {T}.
Arguments closeTime {T}.
Arguments status {T}.
Arguments strategyId {T}.
Arguments strategyName {T}.
End Trade.

Inductive JournalType : Type := TRADE | INSIGHT | NOTE | ALERT.

Module JournalEntry.
Record t (T : Type) : Type := mk {
  id : string;
  tradeId : option string;
  type : JournalType;
  title : string;
  content : string;
  symbol : option string;
  profit : option T;
  tags : list string;
  createdAt : Z
}.
Arguments mk {T}.
Arguments id {T}.
Arguments tradeId {T}.
Arguments type {T}.
Arguments title {T}.
Arguments content {T}.
Arguments symbol {T}.
Arguments profit {T}.
Arguments tags {T}.
Arguments createdAt {T}.
End JournalEntry.

(** [InsertJournalEntry], after the schema's defaults: an absent or null
    [tradeId], [symbol] or [profit] is [None]. *)
Module InsertJournalEntry.
Record t (T : Type) : Type := mk {
  tradeId : option string;
  type : JournalType;
  title : string;
  content : string;
  symbol : option string;
  profit : option T;
  tags : list string
}.
Arguments mk {T}.
Arguments tradeId {T}.
Arguments type {T}.
Arguments title {T}.
Arguments content {T}.
Arguments symbol {T}.
Arguments profit {T}.
Arguments tags {T}.
End InsertJournalEntry.

Module MT5Config.
Record t (T : Type) : Type := mk {
  id : string;
  login : string;
  password : string;
  server : string;
  connected : bool;
  accountBalance : T;
  accountEquity : T;
  accountProfit : T;
  lastConnected : option Z
}.
Arguments mk {T}.
Arguments id {T}.
Arguments login {T}.
Arguments password {T}.
Arguments server {T}.
Arguments connected {T}.
Arguments accountBalance {T}.
Arguments accountEquity {T}.
Arguments accountProfit {T}.
Arguments lastConnected {T}.
End MT5Config.

Module InsertMT5Config.
Record t : Type := mk {
  login : string;
  password : string;
  server : string
}.
End InsertMT5Config.

Module TradingStatus.
Record t : Type := mk {
  isActive : bool;
  activeStrategies : list string;
  lastUpdate : Z;
  pendingOrders : Z;
  openPositions : Z
}.
End TradingStatus.

Module DashboardStats.
Record t (T : Type) : Type := mk {
  totalProfit : T;
  winRate : T;
  activeStrategies : nat;
  currentDrawdown : T;
  totalTrades : nat;
  openPositions : nat;
  accountBalance : T;
  accountEquity : T
}.
Arguments mk {T}.
Arguments totalProfit {T}.
Arguments winRate {T}.
Arguments activeStrategies {T}.
Arguments currentDrawdown {T}.
Arguments totalTrades {T}.
Arguments openPositions {T}.
Arguments accountBalance {T}.
Arguments accountEquity {T}.
End DashboardStats.

(** [InsertStrategy] as a request carries it: [description] may be
    absent. *)
Module InsertStrategy.
Record t : Type := mk {
  name : string;
  description : option string;
  filename : string;
  content : string
}.
End InsertStrategy.

(** [Partial<Strategy>]: the fields an update carries. *)
Module StrategyUpdate.
Record t (T : Type) : Type := mk {
  id : option string;
  name : option string;
  description : option string;
  filename : option string;
  content : option string;
  isActive : option bool;
  createdAt : option string;
  lastRun : option (option string);
  totalTrades : option Z;
  winRate : option T;
  totalProfit : option T
}.
Arguments mk {T}.
Arguments id {T}.
Arguments name {T}.
Arguments description {T}.
Arguments filename {T}.
Arguments content {T}.
Arguments isActive {T}.
Arguments createdAt {T}.
Arguments lastRun {T}.
Arguments totalTrades {T}.
Arguments winRate {T}.
Arguments totalProfit {T}.
End StrategyUpdate.

(** ** A JavaScript [Map] whose order of insertion is observed *)

Module JsMap.

Definition t (V : Type) : Type := list (string * V).

Fixpoint get {V} (k : string) (m : t V) : option V :=
  match m with
  | [] => None
  | (k', v) :: m' => if String.eqb k' k then Some v else get k m'
  end.

(** [m.set(k, v)]: a key already present keeps its place. *)
Fixpoint set {V} (k : string) (v : V) (m : t V) : t V :=
  match m with
  | [] => [(k, v)]
  | (k', v') :: m' =>
      if String.eqb k' k then (k, v) :: m' else (k', v') :: set k v m'
  end.

(** [Array.from(m.values())]. *)
Definition values {V} (m : t V) : list V := map snd m.

End JsMap.

(** ** [Array.prototype.sort] and [slice] *)

Section Arrays.

Context {A : Type}.

(** Places [x], which stood before every element of [l], in the sorted
    [l]: after the elements [y] with [cmp x y > 0]. *)
Fixpoint insertStable (cmp : A -> A -> Z) (x : A) (l : list A) : list A :=
  match l with
  | [] => [x]
  | y :: l' =>
      if 0 <? cmp x y then y :: insertStable cmp x l' else x :: y :: l'
  end.

(** [l.sort(cmp)].  The sort is stable, so for a consistent comparator
    its result is the one computed here. *)
Definition Array_sort (cmp : A -> A -> Z) (l : list A) : list A :=
  fold_right (insertStable cmp) [] l.

(** The comparator [(a, b) => time(b) - time(a)] of the listings, newest
    first; the sort reads a NaN difference as 0. *)
Definition newestFirst (time : A -> option Z) (a b : A) : Z :=
  match time b, time a with
  | Some tb, Some ta => tb - ta
  | _, _ => 0
  end.

(** Whether [p] lists each position of a list of [n] elements once. *)
Definition arrangement (n : nat) (p : list nat) : bool :=
  (length p =? n)%nat && forallb (fun i => existsb (Nat.eqb i) p) (seq 0 n).

(** The elements of [l] in the order [p] of their positions ([l] itself
    where [p] is not an order of its positions). *)
Definition arrange (p : list nat) (l : list A) : list A :=
  if arrangement (length l) p then omap (nth_error l) p else l.

Definition dated (time : A -> option Z) (a : A) : bool :=
  match time a with
  | Some _ => true
  | None => false
  end.

(** [l.sort((a, b) => time(b) - time(a))].  Where every time value is a
    number the comparator is consistent and the stable sort has one
    result, the one [Array_sort] computes.  Where a time value is NaN,
    its difference with any other is NaN and reads as 0: the comparator
    is not consistent and the order of the result is left to the
    engine.  The result is then the rearrangement of [l] that the
    engine's sort makes on these time values, [engineOrder]. *)
Definition sortNewestFirst (engineOrder : list (option Z) -> list nat)
  (time : A -> option Z) (l : list A) : list A :=
  if forallb (dated time) l then Array_sort (newestFirst time) l
  else arrange (engineOrder (map time l)) l.

(** [l.slice(0, limit)] for an integer [limit]: a negative one counts
    from the end. *)
Definition slice0 (limit : Z) (l : list A) : list A :=
  if limit <? 0 then firstn (Z.to_nat (Z.of_nat (length l) + limit)) l
  else firstn (Z.to_nat limit) l.

(** [l.slice(-n)]: the last [n] elements. *)
Definition lastN (n : nat) (l : list A) : list A :=
  skipn (length l - n) l.

End Arrays.

(** ** Strings: [split], [trim] *)

(** [s.split(sep)] for a one-character separator. *)
Fixpoint String_split (sep : ascii) (s : string) : list string :=
  match s with
  | EmptyString => [EmptyString]
  | String c s' =>
      if Ascii.eqb c sep then EmptyString :: String_split sep s'
      else match String_split sep s' with
           | piece :: pieces => String c piece :: pieces
           | [] => [String c EmptyString]
           end
  end.

(** The white space [trim] removes, among the ASCII characters. *)
Definition isWhiteSpace (c : ascii) : bool :=
  let n := nat_of_ascii c in
  (n =? 32)%nat || ((9 <=? n)%nat && (n <=? 13)%nat).

Fixpoint trimStart (s : string) : string :=
  match s with
  | EmptyString => EmptyString
  | String c s' => if isWhiteSpace c then trimStart s' else s
  end.

Fixpoint trimEnd (s : string) : string :=
  match s with
  | EmptyString => EmptyString
  | String c s' =>
      match trimEnd s' with
      | EmptyString => if isWhiteSpace c then EmptyString
                       else String c EmptyString
      | rest => String c rest
      end
  end.

Definition String_trim (s : string) : string := trimEnd (trimStart s).

(** A string that holds no line break. *)
Fixpoint singleLine (s : string) : bool :=
  match s with
  | EmptyString => true
  | String c s' => negb (Ascii.eqb c newline) && singleLine s'
  end.

(** ** The server *)

(** The state of the whole server: the state the backtest handler sees,
    the order in which the keys of [strategies] were inserted, the other
    fields of [MemStorage] that the routes below use, and whether
    [storage/ml_lr_model.joblib] exists. *)
Module Server.
Record t (T : Type) : Type := mk {
  state : State T;
  strategyOrder : list string;
  mt5Config : MT5Config.t T;
  trades : JsMap.t (Trade.t T);
  journalEntries : JsMap.t (JournalEntry.t T);
  tradingStatus : TradingStatus.t;
  ml_lr_model : bool
}.
Arguments mk {T}.
Arguments state {T}.
Arguments strategyOrder {T}.
Arguments mt5Config {T}.
Arguments trades {T}.
Arguments journalEntries {T}.
Arguments tradingStatus {T}.
Arguments ml_lr_model {T}.
End Server.

(** What a route answers: a JSON body, or a status with an error. *)
Inductive Reply (A : Type) : Type :=
| Ok (body : A)
| Fail (code : Z) (error : string).
Arguments Ok {A}.
Arguments Fail {A}.

Inductive Signal : Type := Buy | Sell | Hold.

Module SignalReply.
Record t (T : Type) : Type := mk {
  symbol : option string;
  rawSignal : Signal;
  decision : Signal;
  confidence : T;
  threshold : T;
  mlUsed : bool;
  skipped : bool;
  timestamp : Z
}.
Arguments mk {T}.
Arguments symbol {T}.
Arguments rawSignal {T}.
Arguments decision {T}.
Arguments confidence {T}.
Arguments threshold {T}.
Arguments mlUsed {T}.
Arguments skipped {T}.
Arguments timestamp {T}.
End SignalReply.

Module MLStatus.
Record t (T : Type) : Type := mk {
  modelTrained : bool;
  trainingDataAvailable : bool;
  barCount : Z;
  confidenceThreshold : T
}.
Arguments mk {T}.
Arguments modelTrained {T}.
Arguments trainingDataAvailable {T}.
Arguments barCount {T}.
Arguments confidenceThreshold {T}.
End MLStatus.

(** [Partial<MT5Config>] and [Partial<TradingStatus>]: the fields the
    routes pass. *)
Module MT5Update.
Record t (T : Type) : Type := mk {
  login : option string;
  password : option string;
  server : option string;
  connected : option bool;
  accountBalance : option T;
  accountEquity : option T;
  accountProfit : option T;
  lastConnected : option (option Z)
}.
Arguments mk {T}.
Arguments login {T}.
Arguments password {T}.
Arguments server {T}.
Arguments connected {T}.
Arguments accountBalance {T}.
Arguments accountEquity {T}.
Arguments accountProfit {T}.
Arguments lastConnected {T}.
End MT5Update.

Module TradingStatusUpdate.
Record t : Type := mk {
  isActive : option bool;
  activeStrategies : option (list string)
}.
End TradingStatusUpdate.

(** The body of [POST /api/trades/place], each field possibly absent. *)
Module PlaceOrder.
Record t (T : Type) : Type := mk {
  symbol : option string;
  type : option string;
  volume : option T
}.
Arguments mk {T}.
Arguments symbol {T}.
Arguments type {T}.
Arguments volume {T}.
End PlaceOrder.

Arguments Strategy.id {T}.
Arguments Strategy.description {T}.
Arguments Strategy.filename {T}.
Arguments Strategy.content {T}.
Arguments Strategy.isActive {T}.
Arguments Strategy.createdAt {T}.
Arguments Strategy.lastRun {T}.
Arguments Strategy.totalTrades {T}.
Arguments Strategy.winRate {T}.
Arguments Strategy.totalProfit {T}.

(* ===================================================================== *)
(** * 6c. The rest of the server: storage.ts and the other routes *)
(* ===================================================================== *)

Section Routes.

Context {T : Type} `{Number T}.

Variable entropy : nat -> T.
Variable Date_parse : string -> option Z.
Variable randomUUID : nat -> string.
Variable Date_now : Z.

(** The order the engine's sort leaves where the comparator of a listing
    is not consistent: the positions of the elements, by the time values
    compared. *)
Variable engineOrder : list (option Z) -> list nat.
Variable host : Host.t.

(** The text of [new Date(t).toISOString()]; of [x.toFixed(digits)]; of
    the [toFixed(5)] price a bar holds; and the external prediction
    process, by the records it is given: the confidence it reports,
    [None] when it fails, prints no JSON or reports no success. *)
Variable Date_text : Z -> string.
Variable toFixed : nat -> T -> string.
Variable fixed5Text : Z -> string.
Variable predict_signal : list (list (string * option string)) -> option T.

(** *** Shared effects *)

Definition setState (s : State T) (sv : Server.t T) : Server.t T :=
  Server.mk s (Server.strategyOrder sv) (Server.mt5Config sv)
            (Server.trades sv) (Server.journalEntries sv)
            (Server.tradingStatus sv) (Server.ml_lr_model sv).

(** [Math.random()]. *)
Definition random (sv : Server.t T) : T * Server.t T :=
  (entropy (drawn (Server.state sv)),
   setState (snd (Math_random entropy (Server.state sv))) sv).

(** [randomUUID()]. *)
Definition newUUID (sv : Server.t T) : string * Server.t T :=
  let s := Server.state sv in
  (randomUUID (uuids s),
   setState (mkState (drawn s) (strategies s) (backtestResults s)
                     (latest_bars_csv s) (S (uuids s))) sv).

(** [!x] for a number: 0 and NaN are falsy. *)
Definition falsyNumber (x : T) : bool :=
  negb ((x <? lit 0)%js || (x >? lit 0)%js).

(** *** MT5 configuration *)

Definition getMT5Config (sv : Server.t T) : MT5Config.t T :=
  Server.mt5Config sv.

(** [{ ...this.mt5Config, ...config }]. *)
Definition updateMT5Config (config : MT5Update.t T) (sv : Server.t T)
  : MT5Config.t T * Server.t T :=
  let old := Server.mt5Config sv in
  let new :=
    MT5Config.mk (MT5Config.id old)
      (default (MT5Config.login old) (MT5Update.login config))
      (default (MT5Config.password old) (MT5Update.password config))
      (default (MT5Config.server old) (MT5Update.server config))
      (default (MT5Config.connected old) (MT5Update.connected config))
      (default (MT5Config.accountBalance old) (MT5Update.accountBalance config))
      (default (MT5Config.accountEquity old) (MT5Update.accountEquity config))
      (default (MT5Config.accountProfit old) (MT5Update.accountProfit config))
      (default (MT5Config.lastConnected old) (MT5Update.lastConnected config)) in
  (new,
   Server.mk (Server.state sv) (Server.strategyOrder sv) new
             (Server.trades sv) (Server.journalEntries sv)
             (Server.tradingStatus sv) (Server.ml_lr_model sv)).

Definition insertMT5ConfigSchema (body : InsertMT5Config.t) : list string :=
  min1 "Login is required" (InsertMT5Config.login body)
  ++ min1 "Password is required" (InsertMT5Config.password body)
  ++ min1 "Server is required" (InsertMT5Config.server body).

(** [POST /api/mt5/connect]. *)
Definition mt5Connect (body : InsertMT5Config.t) (sv : Server.t T)
  : Reply (MT5Config.t T) * Server.t T :=
  match insertMT5ConfigSchema body with
  | issue :: issues => (Fail 400 (String.concat "; " (issue :: issues)), sv)
  | [] =>
      let '(r, sv) := random sv in
      let accountBalance := (lit 10000 + r * lit 5000)%js in
      let '(r, sv) := random sv in
      let accountEquity := (lit 10000 + r * lit 5000)%js in
      let '(r, sv) := random sv in
      let accountProfit := (r * lit 500 - lit 250)%js in
      let '(config, sv) :=
        updateMT5Config
          (MT5Update.mk (Some (InsertMT5Config.login body))
                        (Some (InsertMT5Config.password body))
                        (Some (InsertMT5Config.server body))
                        (Some true) (Some accountBalance) (Some accountEquity)
                        (Some accountProfit) (Some (Some Date_now))) sv in
      (Ok config, sv)
  end.

(** [POST /api/mt5/disconnect]. *)
Definition mt5Disconnect (sv : Server.t T) : Reply (MT5Config.t T) * Server.t T :=
  let '(config, sv) :=
    updateMT5Config
      (MT5Update.mk None None None (Some false) None None None None) sv in
  (Ok config, sv).

(** *** Strategies *)

(** [this.strategies.set(id, strategy)]: the map of the state, and the
    order of its keys. *)
Definition setStrategy (id : string) (strategy : Strategy.t T)
  (sv : Server.t T) : Server.t T :=
  let s := Server.state sv in
  Server.mk (mkState (drawn s) (<[id := strategy]> (strategies s))
                     (backtestResults s) (latest_bars_csv s) (uuids s))
            (match strategies s !! id with
             | Some _ => Server.strategyOrder sv
             | None => Server.strategyOrder sv ++ [id]
             end)
            (Server.mt5Config sv) (Server.trades sv)
            (Server.journalEntries sv) (Server.tradingStatus sv)
            (Server.ml_lr_model sv).

(** [Array.from(this.strategies.values())]. *)
Definition strategyValues (sv : Server.t T) : list (Strategy.t T) :=
  omap (fun id => strategies (Server.state sv) !! id) (Server.strategyOrder sv).

(** [getStrategies()]: the strategies, newest first. *)
Definition getStrategies (sv : Server.t T) : list (Strategy.t T) :=
  sortNewestFirst engineOrder
    (fun s => getTime Date_parse (Strategy.createdAt s))
    (strategyValues sv).

Definition getStrategy (id : string) (sv : Server.t T)
  : option (Strategy.t T) :=
  strategies (Server.state sv) !! id.

(** [createStrategy]: [description] has the schema's default. *)
Definition createStrategy (strategy : InsertStrategy.t) (sv : Server.t T)
  : Strategy.t T * Server.t T :=
  let '(id, sv) := newUUID sv in
  let newStrategy :=
    Strategy.mk id (InsertStrategy.name strategy)
      (default "" (InsertStrategy.description strategy))
      (InsertStrategy.filename strategy) (InsertStrategy.content strategy)
      false (Date_text Date_now) None 0 (lit 0) (lit 0) in
  (newStrategy, setStrategy id newStrategy sv).

(** [{ ...strategy, ...updates }]. *)
Definition applyStrategyUpdate (strategy : Strategy.t T)
  (updates : StrategyUpdate.t T) : Strategy.t T :=
  Strategy.mk
    (default (Strategy.id strategy) (StrategyUpdate.id updates))
    (default (Strategy.name strategy) (StrategyUpdate.name updates))
    (default (Strategy.description strategy) (StrategyUpdate.description updates))
    (default (Strategy.filename strategy) (StrategyUpdate.filename updates))
    (default (Strategy.content strategy) (StrategyUpdate.content updates))
    (default (Strategy.isActive strategy) (StrategyUpdate.isActive updates))
    (default (Strategy.createdAt strategy) (StrategyUpdate.createdAt updates))
    (default (Strategy.lastRun strategy) (StrategyUpdate.lastRun updates))
    (default (Strategy.totalTrades strategy) (StrategyUpdate.totalTrades updates))
    (default (Strategy.winRate strategy) (StrategyUpdate.winRate updates))
    (default (Strategy.totalProfit strategy) (StrategyUpdate.totalProfit updates)).

Definition updateStrategy (id : string) (updates : StrategyUpdate.t T)
  (sv : Server.t T) : option (Strategy.t T) * Server.t T :=
  match strategies (Server.state sv) !! id with
  | None => (None, sv)
  | Some strategy =>
      let updated := applyStrategyUpdate strategy updates in
      (Some updated, setStrategy id updated sv)
  end.

(** [this.strategies.delete(id)]: [false], and nothing removed, when the
    key is absent. *)
Definition deleteStrategy (id : string) (sv : Server.t T)
  : bool * Server.t T :=
  let s := Server.state sv in
  match strategies s !! id with
  | None => (false, sv)
  | Some _ =>
      (true,
       Server.mk (mkState (drawn s) (delete id (strategies s))
                          (backtestResults s) (latest_bars_csv s) (uuids s))
                 (List.filter (fun k => negb (String.eqb k id))
                              (Server.strategyOrder sv))
                 (Server.mt5Config sv) (Server.trades sv)
                 (Server.journalEntries sv) (Server.tradingStatus sv)
                 (Server.ml_lr_model sv))
  end.

Definition insertStrategySchema (body : InsertStrategy.t) : list string :=
  min1 "Strategy name is required" (InsertStrategy.name body)
  ++ min1 "Filename is required" (InsertStrategy.filename body)
  ++ min1 "Strategy content is required" (InsertStrategy.content body).

(** [POST /api/strategies], [GET], [PATCH] and [DELETE /api/strategies/:id]. *)
Definition postStrategy (body : InsertStrategy.t) (sv : Server.t T)
  : Reply (Strategy.t T) * Server.t T :=
  match insertStrategySchema body with
  | issue :: issues => (Fail 400 (String.concat "; " (issue :: issues)), sv)
  | [] => let '(strategy, sv) := createStrategy body sv in (Ok strategy, sv)
  end.

Definition getStrategyRoute (id : string) (sv : Server.t T)
  : Reply (Strategy.t T) :=
  match getStrategy id sv with
  | None => Fail 404 "Strategy not found"
  | Some strategy => Ok strategy
  end.

Definition patchStrategy (id : string) (body : StrategyUpdate.t T)
  (sv : Server.t T) : Reply (Strategy.t T) * Server.t T :=
  match updateStrategy id body sv with
  | (None, sv) => (Fail 404 "Strategy not found", sv)
  | (Some strategy, sv) => (Ok strategy, sv)
  end.

Definition deleteStrategyRoute (id : string) (sv : Server.t T)
  : Reply unit * Server.t T :=
  match deleteStrategy id sv with
  | (false, sv) => (Fail 404 "Strategy not found", sv)
  | (true, sv) => (Ok tt, sv)
  end.

(** [POST /api/backtests/run] on the whole server. *)
Definition postBacktest (body : RunBacktestInput.t T) (sv : Server.t T)
  : Response T * Server.t T :=
  let '(response, s) :=
    runBacktest entropy Date_parse randomUUID Date_now host body (Server.state sv) in
  (response, setState s sv).

(** *** Trades *)

Definition setTrades (trades : JsMap.t (Trade.t T)) (sv : Server.t T)
  : Server.t T :=
  Server.mk (Server.state sv) (Server.strategyOrder sv) (Server.mt5Config sv)
            trades (Server.journalEntries sv) (Server.tradingStatus sv)
            (Server.ml_lr_model sv).

Definition byOpenTime : Trade.t T -> Trade.t T -> Z :=
  newestFirst (fun t => Some (Trade.openTime t)).

Definition isOpen (t : Trade.t T) : bool :=
  match Trade.status t with OPEN => true | _ => false end.

Definition isClosed (t : Trade.t T) : bool :=
  match Trade.status t with CLOSED => true | _ => false end.

Definition getTrades (sv : Server.t T) : list (Trade.t T) :=
  Array_sort byOpenTime (JsMap.values (Server.trades sv)).

Definition getOpenTrades (sv : Server.t T) : list (Trade.t T) :=
  Array_sort byOpenTime (List.filter isOpen (JsMap.values (Server.trades sv))).

Definition getRecentTrades (limit : Z) (sv : Server.t T) : list (Trade.t T) :=
  slice0 limit (Array_sort byOpenTime (JsMap.values (Server.trades sv))).

(** [createTrade(trade)]: [trade] still lacks its [id]. *)
Definition createTrade (trade : string -> Trade.t T) (sv : Server.t T)
  : Trade.t T * Server.t T :=
  let '(id, sv) := newUUID sv in
  let newTrade := trade id in
  (newTrade, setTrades (JsMap.set id newTrade (Server.trades sv)) sv).

Definition closeTrade (id : string) (sv : Server.t T)
  : option (Trade.t T) * Server.t T :=
  match JsMap.get id (Server.trades sv) with
  | None => (None, sv)
  | Some trade =>
      let closed :=
        Trade.mk (Trade.id trade) (Trade.ticket trade) (Trade.symbol trade)
          (Trade.type trade) (Trade.volume trade) (Trade.openPrice trade)
          (Trade.currentPrice trade) (Trade.stopLoss trade)
          (Trade.takeProfit trade) (Trade.profit trade)
          (Trade.openTime trade) (Some Date_now) CLOSED
          (Trade.strategyId trade) (Trade.strategyName trade) in
      (Some closed, setTrades (JsMap.set id closed (Server.trades sv)) sv)
  end.

Definition falsyString (s : option string) : bool :=
  match s with
  | None => true
  | Some s => String.eqb s ""
  end.

(** [POST /api/trades/place]. *)
Definition placeTrade (body : PlaceOrder.t T) (sv : Server.t T)
  : Reply (Trade.t T) * Server.t T :=
  match PlaceOrder.symbol body, PlaceOrder.type body, PlaceOrder.volume body with
  | Some symbol, Some type, Some volume =>
      if String.eqb symbol "" || String.eqb type "" || falsyNumber volume
      then (Fail 400 "Missing required fields", sv)
      else if negb (MT5Config.connected (getMT5Config sv))
      then (Fail 400 "Not connected to MT5", sv)
      else
        let activeStrategy :=
          List.find (fun s => Strategy.isActive s) (getStrategies sv) in
        let isBuy := String.eqb type "BUY" in
        let '(r, sv) := random sv in
        let openPrice := (lit 1.0 + r * lit 0.1)%js in
        let '(r, sv) := random sv in
        let currentPrice := (openPrice + (r - lit 0.5) * lit 0.01)%js in
        let profit :=
          ((currentPrice - openPrice) * volume * lit 100000
           * (if isBuy then lit 1 else lit (-1)))%js in
        let '(r, sv) := random sv in
        let ticket := Math_floor (r * lit 1000000)%js in
        let '(trade, sv) :=
          createTrade
            (fun id =>
               Trade.mk id ticket symbol type volume openPrice currentPrice
                 (if isBuy then (openPrice - lit 0.005)%js
                  else (openPrice + lit 0.005)%js)
                 (if isBuy then (openPrice + lit 0.01)%js
                  else (openPrice - lit 0.01)%js)
                 profit Date_now None OPEN
                 (match activeStrategy with
                  | Some s => Strategy.id s
                  | None => ""
                  end)
                 (match activeStrategy with
                  | Some s => if String.eqb (Strategy.name s) "" then "Manual"
                              else Strategy.name s
                  | None => "Manual"
                  end)) sv in
        (Ok trade, sv)
  | _, _, _ => (Fail 400 "Missing required fields", sv)
  end.

(** [POST /api/trades/:id/close]. *)
Definition closeTradeRoute (id : string) (sv : Server.t T)
  : Reply (Trade.t T) * Server.t T :=
  match closeTrade id sv with
  | (None, sv) => (Fail 404 "Trade not found", sv)
  | (Some trade, sv) => (Ok trade, sv)
  end.

(** *** Journal *)

Definition createJournalEntry (entry : InsertJournalEntry.t T)
  (sv : Server.t T) : JournalEntry.t T * Server.t T :=
  let '(id, sv) := newUUID sv in
  let newEntry :=
    JournalEntry.mk id (InsertJournalEntry.tradeId entry)
      (InsertJournalEntry.type entry) (InsertJournalEntry.title entry)
      (InsertJournalEntry.content entry) (InsertJournalEntry.symbol entry)
      (InsertJournalEntry.profit entry) (InsertJournalEntry.tags entry)
      Date_now in
  (newEntry,
   Server.mk (Server.state sv) (Server.strategyOrder sv) (Server.mt5Config sv)
             (Server.trades sv)
             (JsMap.set id newEntry (Server.journalEntries sv))
             (Server.tradingStatus sv) (Server.ml_lr_model sv)).

(** *** Dashboard and trading status *)

Definition sumTradeProfit (ts : list (Trade.t T)) : T :=
  fold_left (fun sum t => (sum + Trade.profit t)%js) ts (lit 0).

Definition getDashboardStats (sv : Server.t T)
  : DashboardStats.t T * Server.t T :=
  let trades := JsMap.values (Server.trades sv) in
  let closedTrades := List.filter isClosed trades in
  let openTrades := List.filter isOpen trades in
  let activeStrategies :=
    List.filter (fun s => Strategy.isActive s) (strategyValues sv) in
  let totalProfit := sumTradeProfit closedTrades in
  let winningTrades :=
    length (List.filter (fun t => (Trade.profit t >? lit 0)%js) closedTrades) in
  let winRate :=
    if (0 <? length closedTrades)%nat
    then (ofInt (Z.of_nat winningTrades)
          / ofInt (Z.of_nat (length closedTrades)) * lit 100)%js
    else lit 0 in
  let '(r, sv') := random sv in
  (DashboardStats.mk
     (totalProfit + MT5Config.accountProfit (Server.mt5Config sv))%js
     winRate (length activeStrategies) (r * lit 5)%js (length trades)
     (length openTrades) (MT5Config.accountBalance (Server.mt5Config sv))
     (MT5Config.accountEquity (Server.mt5Config sv)),
   sv').

Definition getTradingStatus (sv : Server.t T) : TradingStatus.t :=
  let status := Server.tradingStatus sv in
  TradingStatus.mk (TradingStatus.isActive status)
    (TradingStatus.activeStrategies status) Date_now
    (TradingStatus.pendingOrders status)
    (Z.of_nat (length (getOpenTrades sv))).

Definition updateTradingStatus (status : TradingStatusUpdate.t)
  (sv : Server.t T) : TradingStatus.t * Server.t T :=
  let old := Server.tradingStatus sv in
  let new :=
    TradingStatus.mk
      (default (TradingStatus.isActive old) (TradingStatusUpdate.isActive status))
      (default (TradingStatus.activeStrategies old)
               (TradingStatusUpdate.activeStrategies status))
      Date_now (TradingStatus.pendingOrders old)
      (TradingStatus.openPositions old) in
  (new,
   Server.mk (Server.state sv) (Server.strategyOrder sv) (Server.mt5Config sv)
             (Server.trades sv) (Server.journalEntries sv) new
             (Server.ml_lr_model sv)).

Definition natText (n : nat) : string :=
  NilEmpty.string_of_uint (Nat.to_uint n).

(** [POST /api/trading/start]; [strategyIds] may be absent. *)
Definition tradingStart (strategyIds : option (list string)) (sv : Server.t T)
  : Reply TradingStatus.t * Server.t T :=
  let '(status, sv) :=
    updateTradingStatus
      (TradingStatusUpdate.mk (Some true) (Some (default [] strategyIds))) sv in
  let '(_, sv) :=
    createJournalEntry
      (InsertJournalEntry.mk None INSIGHT "Trading Engine Started"
         ("Live trading started with ML confidence filter enabled. Threshold: 55%. Active strategies: "
          ++ natText (match strategyIds with
                      | Some ids => length ids
                      | None => 0%nat
                      end))
         None None ["engine"; "ml"; "start"]) sv in
  (Ok status, sv).

(** [POST /api/trading/stop]. *)
Definition tradingStop (sv : Server.t T) : Reply TradingStatus.t * Server.t T :=
  let '(status, sv) :=
    updateTradingStatus (TradingStatusUpdate.mk (Some false) (Some [])) sv in
  (Ok status, sv).

(** *** The bar file and the prediction gate *)

(** [GET /api/ml/status]. *)
Definition mlStatus (sv : Server.t T) : MLStatus.t T :=
  let modelExists := Server.ml_lr_model sv in
  let barCount :=
    match latest_bars_csv (Server.state sv) with
    | Some rows =>
        Z.of_nat (length (String_split newline (csvContent Date_text fixed5Text rows))) - 1
    | None => 0
    end in
  MLStatus.mk modelExists
    (match latest_bars_csv (Server.state sv) with
     | Some _ => true
     | None => false
     end)
    barCount (lit 0.55).

Definition symbols : list string :=
  ["EURUSD"; "GBPUSD"; "USDJPY"; "AUDUSD"; "USDCHF"].

(** [l[i]] for an integer [i]. *)
Definition at_ {A} (l : list A) (i : Z) : option A :=
  if i <? 0 then None else nth_error l (Z.to_nat i).

Definition signalText (s : Signal) : string :=
  match s with Buy => "BUY" | Sell => "SELL" | Hold => "HOLD" end.

Definition signalTag (s : Signal) : string :=
  match s with Buy => "buy" | Sell => "sell" | Hold => "hold" end.

Definition isHold (s : Signal) : bool :=
  match s with Hold => true | _ => false end.

(** The records the prediction process is given: the last 100 lines of
    the trimmed file, each read against the fields of the first line. *)
Definition recentBars (rows : list Bar.t)
  : list (list (string * option string)) :=
  let lines := String_split newline (String_trim (csvContent Date_text fixed5Text rows)) in
  let headers :=
    String_split ","%char (match lines with line :: _ => line | [] => "" end) in
  let recentLines := lastN 100 lines in
  map (fun line =>
         let values := String_split ","%char line in
         map (fun '(i, h) => (h, nth_error values i))
             (combine (seq 0 (length headers)) headers))
      recentLines.

Definition optionText (s : option string) : string :=
  match s with Some s => s | None => "undefined" end.

(** [POST /api/trading/simulate-signal]. *)
Definition simulateSignal (sv : Server.t T)
  : Reply (SignalReply.t T) * Server.t T :=
  let tradingStatus := getTradingStatus sv in
  if negb (TradingStatus.isActive tradingStatus)
  then (Fail 400 "Trading is not active", sv)
  else
    let modelTrained := Server.ml_lr_model sv in
    let barsFile := latest_bars_csv (Server.state sv) in
    let '(r, sv) := random sv in
    let symbol :=
      at_ symbols (Math_floor (r * ofInt (Z.of_nat (length symbols)))%js) in
    let '(signalRaw, sv) := random sv in
    let signal :=
      if (signalRaw >? lit 0.6)%js then Buy
      else if (signalRaw <? lit 0.4)%js then Sell else Hold in
    let CONF_THRESHOLD : T := lit 0.55 in
    let '(confidence, mlUsed) :=
      match barsFile with
      | Some rows =>
          if modelTrained && negb (isHold signal)
          then match predict_signal (recentBars rows) with
               | Some confidence => (confidence, true)
               | None => (lit 0.5, false)
               end
          else (lit 0.5, false)
      | None => (lit 0.5, false)
      end in
    let percent := toFixed 1 (confidence * lit 100)%js in
    let skip :=
      negb (isHold signal) && mlUsed && (confidence <? CONF_THRESHOLD)%js in
    let sv :=
      if skip
      then snd (createJournalEntry
                  (InsertJournalEntry.mk None INSIGHT
                     "Skipped trade: low confidence"
                     ("Signal: " ++ signalText signal ++ " on "
                      ++ optionText symbol ++ " | ML Confidence: " ++ percent
                      ++ "% (below "
                      ++ toFixed 0 (CONF_THRESHOLD * lit 100)%js
                      ++ "% threshold) - Trade SKIPPED")
                     symbol None
                     ["ml"; "skip"; "confidence"; signalTag signal]) sv)
      else if negb (isHold signal)
      then snd (createJournalEntry
                  (InsertJournalEntry.mk None TRADE
                     ("Signal accepted: " ++ signalText signal)
                     ("Signal: " ++ signalText signal ++ " on "
                      ++ optionText symbol ++ " | ML Confidence: " ++ percent
                      ++ "%"
                      ++ (if (confidence >=? CONF_THRESHOLD)%js
                          then " (PASSED)" else "")
                      ++ " - Trade "
                      ++ (if mlUsed then "ACCEPTED" else "EXECUTED (no ML)"))
                     symbol None
                     ["ml"; "execute"; "confidence"; signalTag signal]) sv)
      else sv in
    (Ok (SignalReply.mk symbol signal (if skip then Hold else signal)
                        confidence CONF_THRESHOLD mlUsed skip Date_now),
     sv).

End Routes.

(* ===================================================================== *)
(** * 6d. Closed forms for the bar file *)
(* ===================================================================== *)

Section BarForms.

Context {T : Type} `{Number T}.
Variable entropy : nat -> T.

(** The bars of [n] iterations of the bar loop that starts at [time] with
    [price], at position [k] of the entropy sequence: each iteration
    consumes five draws and hands its close to the next. *)
Fixpoint barsAt (volatility : T) (time : Z) (price : T) (k n : nat)
  : list Bar.t :=
  match n with
  | O => []
  | S n' =>
      barAt entropy volatility time price k
      :: barsAt volatility (time + interval)
                (closeAt entropy volatility price k) (k + 5) n'
  end.

(** The number of iterations of [for (time = start; time < end; time +=
    interval)]. *)
Definition barCount (start end_ : Z) : nat :=
  Z.to_nat ((end_ - start + (interval - 1)) / interval).

(** The price [generateSimulatedBars] starts from. *)
Definition priceOf (symbol : string) : T :=
  if includes symbol "JPY" then lit 150.0 else lit 1.1000.

End BarForms.

(* ===================================================================== *)
(** * 6e. Sample inputs for the other routes *)
(* ===================================================================== *)

Module Live.

(** Renderings for the sample runs: a time value and a price are written
    by their digits, a percentage is not written out. *)
Definition Date_text (t : Z) : string := intText t.

Definition fixed5Text (n : Z) : string := intText n.

Definition toFixed {T} (digits : nat) (x : T) : string := "?".

(** An engine whose sort leaves a list in place where the comparator is
    not consistent. *)
Definition engineOrder (times : list (option Z)) : list nat :=
  seq 0 (length times).

(** A prediction process that reports a confidence of 0.4 whatever the
    bars. *)
Definition unsure {T} `{Number T} (bars : list (list (string * option string)))
  : option T := Some (lit 0.4).

(** Every draw 7/10. *)
Definition highs {T} `{Number T} (k : nat) : T := lit 0.7.

Definition account {T} `{Number T} (connected : bool) : MT5Config.t T :=
  MT5Config.mk "mt5" "1001" "secret" "Demo-Server" connected
               (lit 10000) (lit 10000) (lit 0) None.

(** A server with the strategy ["s1"], a connected account, trading
    active, a trained model and a bar file of one row; no trade and no
    journal entry yet. *)
Definition server {T} `{Number T} : Server.t T :=
  Server.mk
    (mkState 0 (strategies Sample.store) ∅
             (Some [Bar.mk 1704067200000 110000 110025 109975 110000 600 15 0])
             0)
    ["s1"%string] (account true) [] [] (TradingStatus.mk true [] 0 0 0) true.

Definition order {T} `{Number T} : PlaceOrder.t T :=
  PlaceOrder.mk (Some "EURUSD"%string) (Some "BUY"%string) (Some (lit 0.1)).

(** The order placed on the server, with every draw 1/2. *)
Definition placed {T} `{Number T} : Reply (Trade.t T) * Server.t T :=
  placeTrade Sample.halves Sample.Date_parse Sample.randomUUID Sample.Date_now
             engineOrder order server.

(** A second strategy, created a month after ["s1"] and marked
    active. *)
Definition newer {T} `{Number T} : Strategy.t T :=
  Strategy.mk "s2" "RSI Reversal" "" "rsi_reversal.py" "def run(): pass" true
              "2024-02-01" None 0 (lit 0) (lit 0).

(** The same server with both strategies, ["s1"] marked active too. *)
Definition desk {T} `{Number T} : Server.t T :=
  Server.mk
    (mkState 0
       (<["s2"%string := newer]>
          (<["s1"%string :=
               Strategy.mk "s1" "SMA Crossover" "" "sma.py" "def run(): pass"
                           true "2024-01-01T00:00:00.000Z" None 0 (lit 0)
                           (lit 0)]> ∅))
       ∅ None 0)
    ["s1"%string; "s2"%string] (account true) [] []
    (TradingStatus.mk true [] 0 0 0) true.

Definition newStrategy : InsertStrategy.t :=
  InsertStrategy.mk "RSI Reversal" None "rsi_reversal.py" "def run(): pass".

(** A patch that renames a strategy and gives it another [id]. *)
Definition rename {T} : StrategyUpdate.t T :=
  StrategyUpdate.mk (Some "s9"%string) (Some "SMA 10/20"%string) None None
                    None None None None None None None.

(** A signal on the server, with every draw 7/10 and the prediction
    process [unsure]. *)
Definition signal {T} `{Number T} : Reply (SignalReply.t T) * Server.t T :=
  simulateSignal highs Sample.randomUUID Sample.Date_now Date_text toFixed
                 fixed5Text unsure server.

End Live.

(* ===================================================================== *)
(** * 7. Facts *)
(* ===================================================================== *)

(** [lia] reads [/] and [mod] by a constant as Euclidean division. *)
Ltac Zify.zify_post_hook ::= Z.to_euclidean_division_equations.

(** ** Counting and lists *)

Lemma ceil3_S n :
  ceil3 (S n) = if Z.of_nat n mod 3 =? 0 then S (ceil3 n) else ceil3 n.
Proof.
  unfold ceil3. destruct (Z.eqb_spec (Z.of_nat n mod 3) 0) as [E|E]; lia.
Qed.

Lemma ceil3_multiple n : Z.of_nat n mod 3 = 0 -> (3 * ceil3 n = n)%nat.
Proof. unfold ceil3. lia. Qed.

Lemma firstn_seq (j n : nat) : (j <= n)%nat -> firstn j (seq 0 n) = seq 0 j.
Proof.
  intros Hj. replace n with (j + (n - j))%nat by lia.
  rewrite seq_app, firstn_app, length_seq, Nat.sub_diag, firstn_O, app_nil_r.
  rewrite firstn_all2 by (rewrite length_seq; lia). reflexivity.
Qed.

Lemma ceil3_spec n : (n <= 3 * ceil3 n < n + 3)%nat.
Proof. unfold ceil3. lia. Qed.

(** ** Exact rationals: floors *)

Lemma Qfloor_range (a b : Z) (x : Q) :
  (inject_Z a <= x)%Q -> (x < inject_Z b)%Q -> a <= Qfloor x < b.
Proof.
  intros Ha Hb. split.
  - rewrite <- (Qfloor_Z a). apply Qfloor_resp_le, Ha.
  - rewrite Zlt_Qlt. eapply Qle_lt_trans; [apply Qfloor_le | exact Hb].
Qed.

(** ** Time values and the entropy position *)

Lemma TimeClip_Some t t' : TimeClip t = Some t' -> t' = t /\ Z.abs t <= maxTimeValue.
Proof.
  unfold TimeClip. destruct (Z.leb_spec (Z.abs t) maxTimeValue); intros E;
    inversion E; subst; split; [reflexivity | assumption].
Qed.

Lemma TimeClip_range t : Z.abs t <= maxTimeValue -> TimeClip t = Some t.
Proof.
  intros Ht. unfold TimeClip. destruct (Z.leb_spec (Z.abs t) maxTimeValue); auto; lia.
Qed.

Lemma advance_advance {T} (a b : nat) (s : State T) :
  advance b (advance a s) = advance (a + b) s.
Proof. unfold advance; simpl. f_equal. lia. Qed.

Lemma advance_0 {T} (s : State T) : advance 0 s = s.
Proof. destruct s; unfold advance; simpl. f_equal. lia. Qed.

(** ** The two loops, for every number model *)

Section LoopFacts.

Context {T : Type} `{Number T}.
Variable entropy : nat -> T.
Variable Date_parse : string -> option Z.

Lemma Math_random_eq (s : State T) :
  Math_random entropy s = (Normal (entropy (drawn s)), advance 1 s).
Proof. unfold Math_random, advance. do 2 f_equal. lia. Qed.

Lemma getTime_range s t : getTime Date_parse s = Some t -> Z.abs t <= maxTimeValue.
Proof.
  unfold getTime. destruct (Date_parse s); [|discriminate].
  intros E. apply TimeClip_Some in E. destruct E; subst; auto.
Qed.

Lemma toISOString_Normal tv (s : State T) t s' :
  toISOString tv s = (Normal t, s') -> tv = Some t /\ s' = s /\ Z.abs t <= maxTimeValue.
Proof.
  unfold toISOString. destruct tv as [t0|]; [|discriminate].
  destruct (TimeClip t0) eqn:E; [|discriminate].
  apply TimeClip_Some in E. destruct E; subst.
  unfold ret. intros E; inversion E; subst; auto.
Qed.

(** An iteration of the trade loop that completes has consumed five draws
    and extended the ledger by the closed forms. *)
Lemma tradeStep_Normal symbol startDate d w i l s l' s' :
  drawn s = (d + 5 * i)%nat ->
  tradeStep entropy Date_parse symbol startDate w i l s = (Normal l', s') ->
  s' = advance 5 s /\
  l' = mkLedger (equity l + profitAt entropy d w i)%js
         (if Z.of_nat i mod 3 =? 0
          then equityCurve l ++ [(equity l + profitAt entropy d w i)%js]
          else equityCurve l)
         (trades l ++ [tradeAt entropy Date_parse symbol startDate d w i]).
Proof.
  intros Hd. unfold tradeStep, tradeAt, profitAt, startTime, tradeTime.
  replace (d + 5 * i + 1)%nat with (S (drawn s)) by lia.
  replace (d + 5 * i + 2)%nat with (S (S (drawn s))) by lia.
  replace (d + 5 * i + 3)%nat with (S (S (S (drawn s)))) by lia.
  replace (d + 5 * i + 4)%nat with (S (S (S (S (drawn s))))) by lia.
  rewrite <- Hd.
  destruct (getTime Date_parse startDate) as [t0|].
  2: { destruct (Z.of_nat i <? w); cbv [bind Math_random ret toISOString throw];
       discriminate. }
  destruct (Z.of_nat i <? w);
    cbv [bind Math_random ret];
    cbn [drawn strategies backtestResults latest_bars_csv uuids];
    match goal with |- context [toISOString ?a ?b] =>
      destruct (toISOString a b) as [[o|e] s1] eqn:E1; [|discriminate] end;
    apply toISOString_Normal in E1; destruct E1 as (E1 & -> & _);
    match goal with |- context [toISOString ?a ?b] =>
      destruct (toISOString a b) as [[c|e] s2] eqn:E2; [|discriminate] end;
    apply toISOString_Normal in E2; destruct E2 as (E2 & -> & _);
    injection E1 as <-; injection E2 as <-;
    intros E; injection E as <- <-;
    (split; [unfold advance; cbn; f_equal; lia | reflexivity]).
Qed.

Lemma balanceAfter_S (initialBalance : T) d w j :
  balanceAfter entropy initialBalance d w (S j)
  = (balanceAfter entropy initialBalance d w j + profitAt entropy d w j)%js.
Proof.
  unfold balanceAfter. rewrite seq_S, map_app, fold_left_app. reflexivity.
Qed.

Lemma ledgerAt_S symbol startDate (initialBalance : T) d w n :
  let l := ledgerAt entropy Date_parse symbol startDate initialBalance d w n in
  ledgerAt entropy Date_parse symbol startDate initialBalance d w (S n)
  = mkLedger (equity l + profitAt entropy d w n)%js
      (if Z.of_nat n mod 3 =? 0
       then equityCurve l ++ [(equity l + profitAt entropy d w n)%js]
       else equityCurve l)
      (trades l ++ [tradeAt entropy Date_parse symbol startDate d w n]).
Proof.
  unfold ledgerAt; cbn [equity equityCurve trades].
  rewrite balanceAfter_S, ceil3_S, (seq_S n), map_app. cbn [map].
  f_equal.
  destruct (Z.eqb_spec (Z.of_nat n mod 3) 0) as [E|E]; [|reflexivity].
  rewrite seq_S, map_app. cbn [map app Nat.add].
  rewrite (ceil3_multiple n E), Nat.add_1_r, balanceAfter_S. reflexivity.
Qed.

(** The trade loop, when it completes, leaves the ledger of the closed
    form. *)
Lemma forLoop_tradeStep symbol startDate initialBalance d w count :
  forall from s l' s',
    drawn s = (d + 5 * from)%nat ->
    forLoop count from (tradeStep entropy Date_parse symbol startDate w)
      (ledgerAt entropy Date_parse symbol startDate initialBalance d w from) s
    = (Normal l', s') ->
    s' = advance (5 * count) s /\
    l' = ledgerAt entropy Date_parse symbol startDate initialBalance d w
           (from + count).
Proof.
  induction count as [|count IH]; intros from s l' s' Hd.
  - cbn [forLoop]. unfold ret. intros E; injection E as <- <-.
    rewrite advance_0, Nat.add_0_r. auto.
  - cbn [forLoop]. unfold bind at 1.
    destruct (tradeStep _ _ _ _ _ _ _ _) as [[l1|e] s1] eqn:E1; [|discriminate].
    apply (tradeStep_Normal _ _ d) in E1; [|assumption].
    destruct E1 as (-> & ->).
    rewrite <- ledgerAt_S. intros E.
    apply IH in E; [|unfold advance; cbn; lia].
    destruct E as (-> & ->). rewrite advance_advance.
    split; f_equal; lia.
Qed.
(** An iteration of the bar loop at a valid time completes. *)
Lemma barStep_Normal volatility time price (s : State T) :
  Z.abs time <= maxTimeValue ->
  barStep entropy volatility time price s
  = (Normal (barAt entropy volatility time price (drawn s),
             closeAt entropy volatility price (drawn s)),
     advance 5 s).
Proof.
  intros Ht. unfold barStep, barAt, closeAt.
  cbv [bind Math_random ret toISOString].
  cbn [drawn strategies backtestResults latest_bars_csv uuids].
  rewrite (TimeClip_range _ Ht). unfold ret, advance.
  replace (drawn s + 1)%nat with (S (drawn s)) by lia.
  replace (drawn s + 2)%nat with (S (S (drawn s))) by lia.
  replace (drawn s + 3)%nat with (S (S (S (drawn s)))) by lia.
  replace (drawn s + 4)%nat with (S (S (S (S (drawn s))))) by lia.
  replace (drawn s + 5)%nat with (S (S (S (S (S (drawn s)))))) by lia.
  reflexivity.
Qed.

(** The bar loop completes: it pushes one bar per interval started before
    [end_], the first one at [time]. *)
Lemma barsLoop_Normal volatility end_ time price bars (s : State T) :
  - maxTimeValue <= time -> end_ <= maxTimeValue ->
  exists new s',
    barsLoop entropy volatility end_ time price bars s
    = (Normal (bars ++ new), s') /\
    length new = Z.to_nat ((end_ - time + (interval - 1)) / interval) /\
    Forall (fun b => exists t p k, b = barAt entropy volatility t p k) new /\
    match new with
    | [] => end_ <= time
    | b :: _ => time < end_ /\ b = barAt entropy volatility time price (drawn s)
    end.
Proof.
  funelim (barsLoop entropy volatility end_ time price bars s);
    intros Hlo Hhi.
  - exists [], s. rewrite app_nil_r. repeat split; auto.
    + cbn. unfold interval. lia.
    + lia.
  - rewrite barStep_Normal in Heq by lia. injection Heq as <- <- <-.
    destruct H0 as (new & s2 & E & Hlen & Hall & _);
      [unfold interval; lia | lia |].
    exists (barAt entropy volatility time price (drawn s) :: new), s2.
    rewrite E, <- app_assoc. repeat split; auto.
    + cbn [length]. rewrite Hlen. unfold interval in *. lia.
    + constructor; eauto.
  - rewrite barStep_Normal in Heq by lia. discriminate.
Qed.

Lemma generateSimulatedBars_Normal startDate endDate symbol (s : State T) :
  exists bars s',
    generateSimulatedBars entropy Date_parse startDate endDate symbol s
    = (Normal bars, s') /\
    Forall (fun b => exists t p k,
              b = barAt entropy (volatilityOf symbol) t p k) bars /\
    match getTime Date_parse startDate, getTime Date_parse endDate with
    | Some start, Some end_ =>
        length bars = Z.to_nat ((end_ - start + (interval - 1)) / interval) /\
        match bars with
        | [] => end_ <= start
        | b :: _ => start < end_ /\ Bar.time b = start
        end
    | _, _ => bars = []
    end.
Proof.
  unfold generateSimulatedBars.
  destruct (getTime Date_parse startDate) as [start|] eqn:Es.
  2: { exists [], s. auto. }
  destruct (getTime Date_parse endDate) as [end_|] eqn:Ee.
  2: { exists [], s. auto. }
  apply getTime_range in Es, Ee.
  match goal with |- context [barsLoop _ ?v ?e ?t ?p ?b ?s] =>
    destruct (barsLoop_Normal v e t p b s) as (new & s' & E & Hlen & Hall & Hhd)
  end; [lia | lia |].
  exists new, s'. rewrite E. cbn [app].
  split; [reflexivity|]. split; [exact Hall|]. split; [exact Hlen|].
  destruct new as [|b new]; [assumption|].
  destruct Hhd as (? & ->). split; [assumption | reflexivity].
Qed.
Lemma sumProfit_fold (ts : list (BacktestTrade.t T)) (a : T) :
  fold_left (fun sum t => (sum + BacktestTrade.profit t)%js) ts a
  = fold_left add (map BacktestTrade.profit ts) a.
Proof.
  revert a. induction ts as [|t ts IH]; intros a; cbn; [reflexivity | apply IH].
Qed.

Lemma profit_tradeAt symbol startDate d w (l : list nat) :
  map BacktestTrade.profit (map (tradeAt entropy Date_parse symbol startDate d w) l)
  = map (profitAt entropy d w) l.
Proof. rewrite map_map. reflexivity. Qed.

(** C3 (amended). Whatever the two dates, the bar synthesizer returns a
    bar sequence and raises no error; the sequence is non-empty exactly
    when both dates are valid and [startDate < endDate], so it is empty
    when [startDate >= endDate]. *)
Theorem generateSimulatedBars_never_fails startDate endDate symbol (s : State T) :
  exists bars s',
    generateSimulatedBars entropy Date_parse startDate endDate symbol s
    = (Normal bars, s') /\
    (bars <> [] <->
     exists start end_,
       getTime Date_parse startDate = Some start /\
       getTime Date_parse endDate = Some end_ /\ start < end_).
Proof.
  destruct (generateSimulatedBars_Normal startDate endDate symbol s)
    as (bars & s' & E & _ & Hshape).
  exists bars, s'. split; [exact E|].
  destruct (getTime Date_parse startDate) as [start|].
  2: { subst bars. split; [congruence | intros (? & ? & ? & _); discriminate]. }
  destruct (getTime Date_parse endDate) as [end_|].
  2: { subst bars. split; [congruence | intros (? & ? & _ & ? & _); discriminate]. }
  destruct Hshape as (_ & Hhd). destruct bars as [|b bars].
  - split; [congruence|]. intros (a & b & Ea & Eb & Hlt).
    injection Ea as <-. injection Eb as <-. lia.
  - destruct Hhd as (Hlt & _). split; [|congruence]. intros _. eauto.
Qed.

(** C2 (amended). When the date span is positive and smaller than one
    interval (5 minutes), the bar synthesizer returns exactly one bar,
    stamped [startDate], and raises no error. *)
Theorem generateSimulatedBars_short_span startDate endDate symbol (s : State T)
  (start end_ : Z) :
  getTime Date_parse startDate = Some start ->
  getTime Date_parse endDate = Some end_ ->
  0 < end_ - start < interval ->
  exists bar s',
    generateSimulatedBars entropy Date_parse startDate endDate symbol s
    = (Normal [bar], s') /\
    Bar.time bar = start.
Proof.
  intros Es Ee Hspan.
  destruct (generateSimulatedBars_Normal startDate endDate symbol s)
    as (bars & s' & E & _ & Hshape).
  rewrite Es, Ee in Hshape. destruct Hshape as (Hlen & Hhd).
  replace ((end_ - start + (interval - 1)) / interval) with 1 in Hlen
    by (unfold interval in *; lia).
  destruct bars as [|bar [|bar' bars]]; try discriminate Hlen.
  exists bar, s'. split; [exact E | apply Hhd].
Qed.

End LoopFacts.

(** ** The draws, in exact arithmetic *)

(** Reads the operations of [Number] at [Q]. *)
Ltac exact_arith :=
  cbn [add sub mul div neg lit num_lt num_ge Math_floor Math_abs Math_max
       Math_min toFixed5 ofInt Q_Number] in *.

Section ExactDraws.

Variable entropy : nat -> Q.
Hypothesis entropy_unit : forall k, (0 <= entropy k < 1)%Q.

Lemma drawnTotalTrades_range d : 20 <= drawnTotalTrades entropy d < 70.
Proof using entropy_unit.
  unfold drawnTotalTrades. exact_arith.
  pose proof (entropy_unit d) as Hd.
  assert (0 <= Qfloor (entropy d * 50) < 50);
    [apply Qfloor_range; [change (inject_Z 0) with 0%Q
                         |change (inject_Z 50) with 50%Q]; lra | lia].
Qed.

End ExactDraws.

(** ** The handler, for every number model *)

Section HandlerFacts.

Context {T : Type} `{Number T}.
Variable entropy : nat -> T.
Variable Date_parse : string -> option Z.
Variable randomUUID : nat -> string.
Variable Date_now : Z.
Variable host : Host.t.

(** What a 200 response carries, as closed forms of the draws. *)
Lemma runBacktest_Json body s result barsSaved barsPath s' :
  runBacktest entropy Date_parse randomUUID Date_now host body s
  = (Json result barsSaved barsPath, s') ->
  let l := runLedger entropy Date_parse body (drawn s) in
  runBacktestSchema body = [] /\
  BacktestResult.initialBalance result = RunBacktestInput.initialBalance body /\
  BacktestResult.totalTrades result = drawnTotalTrades entropy (drawn s) /\
  BacktestResult.winRate result = drawnWinRate entropy (drawn s) /\
  BacktestResult.winningTrades result = derivedWinningTrades entropy (drawn s) /\
  BacktestResult.losingTrades result
  = drawnTotalTrades entropy (drawn s) - derivedWinningTrades entropy (drawn s) /\
  BacktestResult.finalBalance result = equity l /\
  BacktestResult.totalProfit result = sumProfit (trades l) /\
  BacktestResult.equityCurve result = equityCurve l /\
  BacktestResult.trades result = trades l /\
  BacktestResult.profitFactor result
  = Math_abs
      (sumProfit (List.filter (fun t => (BacktestTrade.profit t >? lit 0)%js)
                              (trades l))
       / Math_max (lit 1)
           (Math_abs
              (sumProfit
                 (List.filter (fun t => (BacktestTrade.profit t <? lit 0)%js)
                              (trades l)))))%js.
Proof.
  unfold runBacktest, handler.
  destruct (runBacktestSchema body) as [|issue issues] eqn:Hschema.
  2: { unfold ret. intros E; discriminate. }
  unfold bind at 1. unfold storage_getStrategy at 1.
  destruct (strategies s !! RunBacktestInput.strategyId body) as [strategy|].
  2: { unfold ret. intros E; discriminate. }
  unfold bind at 1. rewrite Math_random_eq.
  unfold bind at 1. rewrite Math_random_eq.
  unfold bind at 1.
  change (mkLedger (RunBacktestInput.initialBalance body)
            [RunBacktestInput.initialBalance body] [])
    with (ledgerAt entropy Date_parse (RunBacktestInput.symbol body)
            (RunBacktestInput.startDate body)
            (RunBacktestInput.initialBalance body) (drawn s + 2)
            (derivedWinningTrades entropy (drawn s)) 0).
  change (Math_floor ((lit 45 + entropy (drawn (advance 1 s)) * lit 25)
                      / lit 100
                      * ofInt (Math_floor (entropy (drawn s) * lit 50) + 20))%js)
    with (derivedWinningTrades entropy (drawn s)).
  change (Math_floor (entropy (drawn s) * lit 50)%js + 20)
    with (drawnTotalTrades entropy (drawn s)).
  destruct (forLoop _ _ _ _ _) as [[l|e] s1] eqn:Hloop; [|discriminate].
  apply forLoop_tradeStep in Hloop; [|cbn; lia].
  destruct Hloop as (-> & ->).
  unfold bind at 1. rewrite Math_random_eq.
  unfold bind at 1.
  destruct (generateSimulatedBars _ _ _ _ _ _) as [[barsData|e] s2];
    [|discriminate].
  cbv [bind fs_mkdirSync csvText fs_writeFileSync Math_random
       storage_createBacktestResult ret throw].
  destruct (Host.writable host); [|discriminate].
  destruct (Z.of_nat _ <=? _); [|discriminate].
  intros E. injection E as <- _ _ _. cbn.
  repeat split; reflexivity.
Qed.

(** C8 (amended). A request that names a strategy absent from the store
    is answered with status 404 ("Strategy not found") when it passes the
    schema, and with status 400 and the schema's issues when it does not:
    the schema is checked before the store is read.  Either way the state
    is left exactly as it was: no backtest result is stored, the bar file
    is not written, no entropy is consumed. *)
Theorem runBacktest_unknown_strategy body (s : State T) :
  strategies s !! RunBacktestInput.strategyId body = None ->
  (runBacktestSchema body = [] ->
   runBacktest entropy Date_parse randomUUID Date_now host body s
   = (Status 404 "Strategy not found", s)) /\
  (runBacktestSchema body <> [] ->
   runBacktest entropy Date_parse randomUUID Date_now host body s
   = (Status 400 (String.concat "; " (runBacktestSchema body)), s)).
Proof.
  intros Hmissing. unfold runBacktest, handler. split.
  - intros Hschema. rewrite Hschema.
    unfold bind, storage_getStrategy. rewrite Hmissing. reflexivity.
  - intros Hschema. destruct (runBacktestSchema body) as [|issue issues];
      [congruence | reflexivity].
Qed.

(** C9. On a successful run the equity curve has [1 + ceil3 n] entries,
    where [n] is the number of trades ([ceil3 n] is the ceiling of [n/3]):
    the initial balance, then for each [k < ceil3 n] the running balance
    after trade index [3 k], that is after the first [3 k + 1] trades. *)
Theorem equityCurve_sampled_every_third body (s : State T) result barsSaved barsPath s' :
  runBacktest entropy Date_parse randomUUID Date_now host body s
  = (Json result barsSaved barsPath, s') ->
  let n := length (BacktestResult.trades result) in
  n = Z.to_nat (BacktestResult.totalTrades result) /\
  length (BacktestResult.equityCurve result) = (1 + ceil3 n)%nat /\
  (n <= 3 * ceil3 n < n + 3)%nat /\
  nth_error (BacktestResult.equityCurve result) 0
  = Some (BacktestResult.initialBalance result) /\
  forall k, (k < ceil3 n)%nat ->
    nth_error (BacktestResult.equityCurve result) (1 + k)
    = Some (fold_left (fun sum t => (sum + BacktestTrade.profit t)%js)
              (firstn (3 * k + 1) (BacktestResult.trades result))
              (BacktestResult.initialBalance result)).
Proof.
  intros Hrun. apply runBacktest_Json in Hrun.
  destruct Hrun as (_ & Hinit & Htotal & _ & _ & _ & _ & _ & Hcurve & Htrades & _).
  cbv zeta. rewrite Hcurve, Htrades, Hinit, Htotal.
  unfold runLedger, ledgerAt. cbn [equityCurve trades].
  set (n := Z.to_nat (drawnTotalTrades entropy (drawn s))).
  rewrite !length_map, !length_seq.
  split; [reflexivity|]. split; [cbn [length]; rewrite length_map, length_seq; reflexivity|].
  split; [apply ceil3_spec|]. split; [reflexivity|].
  intros k Hk. cbn [nth_error Nat.add].
  rewrite nth_error_map, nth_error_seq.
  destruct (Nat.ltb_spec k (ceil3 n)) as [_|]; [|lia]. cbn [option_map Nat.add].
  f_equal. rewrite sumProfit_fold, firstn_map, firstn_seq, profit_tradeAt.
  - reflexivity.
  - pose proof (ceil3_spec n). unfold ceil3 in *. lia.
Qed.




(** C4 (amended). On a successful run each trade is made of five draws of
    its own, in this order: the profit (from the first draw and the
    trade's index alone), the side, the open price, the close price and
    the volume.  Neither the side nor a price enters the profit. *)
Theorem profit_drawn_apart_from_prices body (s : State T) result barsSaved barsPath s' :
  runBacktest entropy Date_parse randomUUID Date_now host body s
  = (Json result barsSaved barsPath, s') ->
  forall i t,
    nth_error (BacktestResult.trades result) i = Some t ->
    let k := (drawn s + 2 + 5 * i)%nat in
    BacktestTrade.profit t
    = (if Z.of_nat i <? BacktestResult.winningTrades result
       then (entropy k * lit 200 + lit 50)%js
       else (- (entropy k * lit 150 + lit 30))%js) /\
    BacktestTrade.type t = (if (entropy (k + 1) >? lit 0.5)%js then BUY else SELL) /\
    BacktestTrade.openPrice t = (lit 1.0 + entropy (k + 2) * lit 0.1)%js /\
    BacktestTrade.closePrice t = (lit 1.0 + entropy (k + 3) * lit 0.1)%js /\
    BacktestTrade.volume t = (lit 0.1 + entropy (k + 4) * lit 0.4)%js.
Proof.
  intros Hrun i t. apply runBacktest_Json in Hrun.
  destruct Hrun as (_ & _ & _ & _ & Hwin & _ & _ & _ & _ & Htrades & _).
  rewrite Htrades, Hwin. unfold runLedger, ledgerAt. cbn [trades].
  rewrite nth_error_map, nth_error_seq.
  destruct (Nat.ltb_spec i (Z.to_nat (drawnTotalTrades entropy (drawn s))));
    [|discriminate].
  cbn [option_map Nat.add]. intros E. injection E as <-.
  repeat split; reflexivity.
Qed.

End HandlerFacts.



(* ===================================================================== *)
(** * 8. Concrete runs *)
(* ===================================================================== *)

Lemma halves_unit : forall k : nat, (0 <= Sample.halves (T:=Q) k < 1)%Q.
Proof. intros k. unfold Sample.halves, Qle, Qlt. simpl. lia. Qed.



(** C2 (counterexample). A span of one minute (60000 ms), less than the
    interval of five, yields one bar and not an empty sequence. *)
Lemma short_span_yields_a_bar :
  getTime Sample.Date_parse "2024-01-01" = Some 1704067200000 /\
  getTime Sample.Date_parse Sample.minuteLater = Some 1704067260000 /\
  fst (Sample.bars (T:=float) Sample.halves Sample.minuteLater)
  = Normal [Bar.mk 1704067200000 110000 110025 109975 110000 600 15 0] /\
  fst (Sample.bars (T:=Q) Sample.halves Sample.minuteLater)
  = Normal [Bar.mk 1704067200000 110000 110025 109975 110000 600 15 0].
Proof. repeat split; vm_compute; reflexivity. Qed.

(** C2 (witness): the one-minute span from 2024-01-01. *)
Lemma generateSimulatedBars_short_span_sample :
  exists bar s',
    Sample.bars (T:=float) Sample.halves Sample.minuteLater
    = (Normal [bar], s') /\
    Bar.time bar = 1704067200000.
Proof.
  apply (generateSimulatedBars_short_span Sample.halves Sample.Date_parse
           "2024-01-01" Sample.minuteLater "EURUSD" Sample.store
           1704067200000 1704067260000).
  - vm_compute. reflexivity.
  - vm_compute. reflexivity.
  - unfold interval. lia.
Defined.

(** C3 (counterexample). With [startDate = endDate] the call returns the
    empty sequence normally, state unchanged: no error is raised. *)
Lemma equal_dates_return_normally :
  getTime Sample.Date_parse "2024-01-01" = Some 1704067200000 /\
  Sample.bars (T:=float) Sample.halves "2024-01-01"
  = (Normal [], Sample.store).
Proof. split; vm_compute; reflexivity. Qed.

(** C4 (counterexample). Trade 0 of the run on [mixed] is a BUY with
    profit 150 that opens at 1.05 and closes at 1.025: the profit is
    positive and the move against the side.  So in binary64, and so in
    exact arithmetic. *)
Lemma profit_sign_against_direction :
  option_map (fun t => (Sample.tradeView t, profitMatchesDirection t))
    (Sample.tradeOf 0 (Sample.run (T:=float) Sample.mixed 10000%float))
  = Some (BUY, 15000000, 105000, 102500, false) /\
  option_map (fun t => (Sample.tradeView t, profitMatchesDirection t))
    (Sample.tradeOf 0 (Sample.run (T:=Q) Sample.mixed 10000%Q))
  = Some (BUY, 15000000, 105000, 102500, false).
Proof. split; vm_compute; reflexivity. Qed.

(** C4 (witness): trade 0 of the binary64 run on [mixed]. *)
Lemma profit_drawn_apart_from_prices_sample :
  exists r t,
    Sample.resultOf (Sample.run (T:=float) Sample.mixed 10000%float) = Some r /\
    nth_error (BacktestResult.trades r) 0 = Some t /\
    BacktestTrade.closePrice t = (lit 1.0 + Sample.mixed 5 * lit 0.1)%js.
Proof.
  eexists. eexists. split; [vm_compute; reflexivity|].
  split; [vm_compute; reflexivity|].
  refine (proj1 (proj2 (proj2 (proj2
            (profit_drawn_apart_from_prices Sample.mixed Sample.Date_parse
               Sample.randomUUID Sample.Date_now Sample.host
               (Sample.request "s1" "2024-01-01" Sample.minuteLater 10000%float)
               Sample.store _ _ _ _ _ 0%nat _ _))))).
  - vm_compute. reflexivity.
  - vm_compute. reflexivity.
Defined.


(** With every draw 1/3 and an initial balance of 10^4, 10^8 or 10^9 the
    binary64 run keeps [finalBalance] within 1e-6 of
    [initialBalance + totalProfit]. *)
Lemma finalBalance_within_tolerance_samples :
  map (fun initialBalance =>
         option_map
           (fun r => withinTolerance (BacktestResult.finalBalance r)
                       (BacktestResult.initialBalance r
                        + BacktestResult.totalProfit r)%js)
           (Sample.resultOf (Sample.run (T:=float) Sample.thirds initialBalance)))
      [10000%float; 100000000%float; 1000000000%float]
  = [Some true; Some true; Some true].
Proof. vm_compute. reflexivity. Qed.




(** C8 (counterexample). The store holds ["s1"] only; a request that
    names ["s2"] with an initial balance of 50 is answered with status
    400, not 404. *)
Lemma unknown_strategy_answered_400 :
  strategies (Sample.store (T:=float)) !! "s2"%string = None /\
  runBacktest (T:=float) Sample.halves Sample.Date_parse Sample.randomUUID
    Sample.Date_now Sample.host
    (Sample.request "s2" "2024-01-01" "2024-02-01" 50%float) Sample.store
  = (Status 400 "Minimum balance is 100", Sample.store).
Proof. split; vm_compute; reflexivity. Qed.

(** C8 (witness): the store holds ["s1"] only and the request names
    ["s2"]; it passes the schema with a balance of 10000 and fails it
    with a balance of 50. *)
Lemma runBacktest_unknown_strategy_sample :
  runBacktest (T:=float) Sample.halves Sample.Date_parse Sample.randomUUID
    Sample.Date_now Sample.host
    (Sample.request "s2" "2024-01-01" "2024-02-01" 10000%float) Sample.store
  = (Status 404 "Strategy not found", Sample.store) /\
  runBacktest (T:=float) Sample.halves Sample.Date_parse Sample.randomUUID
    Sample.Date_now Sample.host
    (Sample.request "s2" "2024-01-01" "2024-02-01" 50%float) Sample.store
  = (Status 400
       (String.concat "; "
          (runBacktestSchema
             (Sample.request "s2" "2024-01-01" "2024-02-01" 50%float))),
     Sample.store).
Proof.
  split.
  - apply runBacktest_unknown_strategy; vm_compute; reflexivity.
  - apply runBacktest_unknown_strategy; vm_compute; [reflexivity | discriminate].
Defined.

(** C9 (witness): the binary64 run with every draw 1/2. *)
Lemma equityCurve_sampled_every_third_sample :
  exists r,
    Sample.resultOf (Sample.run (T:=float) Sample.halves 10000%float) = Some r /\
    length (BacktestResult.equityCurve r)
    = (1 + ceil3 (length (BacktestResult.trades r)))%nat.
Proof.
  eexists. split; [vm_compute; reflexivity|].
  eapply (equityCurve_sampled_every_third Sample.halves Sample.Date_parse
            Sample.randomUUID Sample.Date_now Sample.host
            (Sample.request "s1" "2024-01-01" Sample.minuteLater 10000%float)
            Sample.store).
  vm_compute. reflexivity.
Defined.

(* ===================================================================== *)
(** * 9. The bar file and the stored result *)
(* ===================================================================== *)

Section BarFacts.

Context {T : Type} `{Number T}.
Variable entropy : nat -> T.
Variable Date_parse : string -> option Z.

Lemma barCount_0 start end_ : end_ <= start -> barCount start end_ = 0%nat.
Proof. unfold barCount, interval. intros. lia. Qed.

Lemma barCount_S start end_ :
  start < end_ -> barCount start end_ = S (barCount (start + interval) end_).
Proof. unfold barCount, interval. intros. lia. Qed.

(** The bar loop computes the closed form and consumes five draws per
    bar. *)
Lemma barsLoop_barsAt volatility end_ time price bars (s : State T) :
  - maxTimeValue <= time -> end_ <= maxTimeValue ->
  barsLoop entropy volatility end_ time price bars s
  = (Normal (bars ++ barsAt entropy volatility time price (drawn s)
                            (barCount time end_)),
     advance (5 * barCount time end_) s).
Proof.
  funelim (barsLoop entropy volatility end_ time price bars s);
    intros Hlo Hhi.
  - rewrite barCount_0 by lia. cbn [barsAt]. rewrite app_nil_r.
    change (5 * 0)%nat with 0%nat. rewrite advance_0. reflexivity.
  - rewrite barStep_Normal in Heq by lia. injection Heq as <- <- <-.
    rewrite H0 by (unfold interval; lia).
    rewrite (barCount_S time end_) by lia. cbn [barsAt].
    rewrite <- app_assoc, advance_advance. cbn [app drawn advance].
    repeat f_equal; lia.
  - rewrite barStep_Normal in Heq by lia. discriminate.
Qed.

Lemma generateSimulatedBars_barsAt startDate endDate symbol (s : State T)
  start end_ :
  getTime Date_parse startDate = Some start ->
  getTime Date_parse endDate = Some end_ ->
  generateSimulatedBars entropy Date_parse startDate endDate symbol s
  = (Normal (barsAt entropy (volatilityOf symbol) start (priceOf symbol)
                    (drawn s) (barCount start end_)),
     advance (5 * barCount start end_) s).
Proof.
  intros Es Ee. unfold generateSimulatedBars. rewrite Es, Ee.
  apply getTime_range in Es, Ee.
  rewrite barsLoop_barsAt by lia. reflexivity.
Qed.

(** Whatever the dates, the synthesizer only moves the entropy position. *)
Lemma generateSimulatedBars_advance startDate endDate symbol (s : State T) :
  exists bars,
    generateSimulatedBars entropy Date_parse startDate endDate symbol s
    = (Normal bars, advance (5 * length bars) s).
Proof.
  destruct (getTime Date_parse startDate) as [start|] eqn:Es.
  2: { exists []. unfold generateSimulatedBars. rewrite Es.
       change (5 * length [])%nat with 0%nat. rewrite advance_0. reflexivity. }
  destruct (getTime Date_parse endDate) as [end_|] eqn:Ee.
  2: { exists []. unfold generateSimulatedBars. rewrite Es, Ee.
       change (5 * length [])%nat with 0%nat. rewrite advance_0. reflexivity. }
  eexists. rewrite (generateSimulatedBars_barsAt _ _ _ _ _ _ Es Ee).
  f_equal. f_equal.
  assert (L : forall v t p k n, length (barsAt entropy v t p k n) = n).
  { intros v t p k n. revert t p k.
    induction n as [|n IH]; intros; cbn; [reflexivity | now rewrite IH]. }
  now rewrite L.
Qed.

Lemma barsAt_length volatility time price k n :
  length (barsAt entropy volatility time price k n) = n.
Proof.
  revert time price k.
  induction n as [|n IH]; intros; cbn; [reflexivity | now rewrite IH].
Qed.

Lemma barsAt_time volatility n : forall time price k j b,
  nth_error (barsAt entropy volatility time price k n) j = Some b ->
  Bar.time b = time + Z.of_nat j * interval /\ (j < n)%nat.
Proof.
  induction n as [|n IH]; intros time price k j b.
  - destruct j; discriminate.
  - destruct j as [|j]; cbn [barsAt nth_error].
    + intros E; injection E as <-. cbn. split; lia.
    + intros E. apply IH in E. destruct E as (-> & ?). split; lia.
Qed.

Lemma barsAt_chain volatility n : forall time price k j b b',
  nth_error (barsAt entropy volatility time price k n) j = Some b ->
  nth_error (barsAt entropy volatility time price k n) (S j) = Some b' ->
  Bar.open b' = Bar.close b.
Proof.
  induction n as [|n IH]; intros time price k j b b'.
  - destruct j; discriminate.
  - destruct j as [|j]; cbn [barsAt nth_error].
    + intros E; injection E as <-. destruct n; [discriminate|].
      cbn [barsAt nth_error]. intros E; injection E as <-. reflexivity.
    + apply IH.
Qed.

(** X1. When both dates are valid, the synthesizer returns one bar per
    five-minute interval started before [endDate]: bar [j] is stamped
    [startDate + j * 5 min], which is before [endDate], and the call
    consumed exactly five draws of entropy per bar and changed nothing
    else. *)
Theorem bars_stamped_every_five_minutes startDate endDate symbol (s : State T)
  bars s' start end_ :
  getTime Date_parse startDate = Some start ->
  getTime Date_parse endDate = Some end_ ->
  generateSimulatedBars entropy Date_parse startDate endDate symbol s
  = (Normal bars, s') ->
  length bars = barCount start end_ /\
  s' = advance (5 * length bars) s /\
  forall j b, nth_error bars j = Some b ->
    Bar.time b = start + Z.of_nat j * 300000 /\ Bar.time b < end_.
Proof.
  intros Es Ee. rewrite (generateSimulatedBars_barsAt _ _ _ _ _ _ Es Ee).
  intros E; injection E as <- <-. rewrite barsAt_length.
  split; [reflexivity|]. split; [reflexivity|].
  intros j b Hb. apply barsAt_time in Hb. destruct Hb as (-> & Hj).
  unfold barCount, interval in *. split; lia.
Qed.

(** X2. In the bars the synthesizer returns, every bar opens at the close
    of the bar before it, and the first bar opens at the starting price
    of the symbol (150 with "JPY" in the symbol, 1.1 otherwise). *)
Theorem bars_open_at_previous_close startDate endDate symbol (s : State T)
  bars s' :
  generateSimulatedBars entropy Date_parse startDate endDate symbol s
  = (Normal bars, s') ->
  (forall b, nth_error bars 0 = Some b ->
     Bar.open b = toFixed5 (priceOf (T:=T) symbol)) /\
  (forall j b b', nth_error bars j = Some b ->
     nth_error bars (S j) = Some b' -> Bar.open b' = Bar.close b).
Proof.
  destruct (getTime Date_parse startDate) as [start|] eqn:Es.
  2: { unfold generateSimulatedBars. rewrite Es. intros E; injection E as <- <-.
       split; intros; discriminate. }
  destruct (getTime Date_parse endDate) as [end_|] eqn:Ee.
  2: { unfold generateSimulatedBars. rewrite Es, Ee.
       intros E; injection E as <- <-. split; intros; discriminate. }
  rewrite (generateSimulatedBars_barsAt _ _ _ _ _ _ Es Ee).
  intros E; injection E as <- <-. split.
  - destruct (barCount start end_); [discriminate|].
    cbn [barsAt nth_error]. intros b E; injection E as <-. reflexivity.
  - apply barsAt_chain.
Qed.

End BarFacts.

Lemma nth_error_seq_Some (n : nat) : forall a i k,
  nth_error (seq a n) i = Some k -> k = (a + i)%nat /\ (i < n)%nat.
Proof.
  induction n as [|n IH]; intros a i k.
  - destruct i; discriminate.
  - destruct i as [|i]; cbn [seq nth_error].
    + intros E; injection E as <-. lia.
    + intros E. apply IH in E. lia.
Qed.

Section TradeLoopFacts.

Context {T : Type} `{Number T}.
Variable entropy : nat -> T.
Variable Date_parse : string -> option Z.

(** An iteration of the trade loop whose two dates are valid completes. *)
Lemma tradeStep_completes symbol startDate w i l (s : State T) start :
  getTime Date_parse startDate = Some start ->
  Z.abs (start + Z.of_nat i * 3600000 * 4) <= maxTimeValue ->
  Z.abs (start + Z.of_nat (i + 1) * 3600000 * 4) <= maxTimeValue ->
  exists l', tradeStep entropy Date_parse symbol startDate w i l s
             = (Normal l', advance 5 s).
Proof.
  intros Hstart H1 H2. unfold tradeStep, tradeTime. rewrite Hstart.
  destruct (Z.of_nat i <? w);
    cbv [bind Math_random ret toISOString];
    cbn [drawn strategies backtestResults latest_bars_csv uuids];
    rewrite (TimeClip_range _ H1), (TimeClip_range _ H2);
    cbv [ret]; eexists; f_equal; unfold advance; cbn; f_equal; lia.
Qed.

Lemma forLoop_completes symbol startDate w start count :
  getTime Date_parse startDate = Some start ->
  forall from l (s : State T),
    - maxTimeValue <= start ->
    start + Z.of_nat (from + count) * 3600000 * 4 <= maxTimeValue ->
    exists l', forLoop count from (tradeStep entropy Date_parse symbol startDate w)
                 l s = (Normal l', advance (5 * count) s).
Proof.
  intros Hstart. induction count as [|count IH]; intros from l s Hlo Hhi.
  - exists l. cbn [forLoop]. unfold ret.
    change (5 * 0)%nat with 0%nat. now rewrite advance_0.
  - cbn [forLoop]. unfold bind at 1.
    destruct (tradeStep_completes symbol startDate w from l s start Hstart)
      as (l1 & ->); [lia | lia |].
    destruct (IH (S from) l1 (advance 5 s)) as (l' & ->); [lia | lia |].
    exists l'. rewrite advance_advance. do 2 f_equal. lia.
Qed.

(** The first iteration of the trade loop throws when the start date is
    invalid, after its five draws. *)
Lemma tradeStep_invalid_date symbol startDate w i l (s : State T) :
  getTime Date_parse startDate = None ->
  tradeStep entropy Date_parse symbol startDate w i l s
  = (Throw RangeError, advance 5 s).
Proof.
  intros Hstart. unfold tradeStep, tradeTime. rewrite Hstart.
  destruct (Z.of_nat i <? w);
    cbv [bind Math_random ret toISOString throw];
    cbn [drawn strategies backtestResults latest_bars_csv uuids];
    f_equal; unfold advance; cbn; f_equal; lia.
Qed.

End TradeLoopFacts.

Section HandlerState.

Context {T : Type} `{Number T}.
Variable entropy : nat -> T.
Variable Date_parse : string -> option Z.
Variable randomUUID : nat -> string.
Variable Date_now : Z.
Variable host : Host.t.

(** The state a 200 response leaves, and what the response names. *)
Lemma runBacktest_Json_state body s result barsSaved barsPath s' :
  runBacktest entropy Date_parse randomUUID Date_now host body s
  = (Json result barsSaved barsPath, s') ->
  exists strategy rows,
    strategies s !! RunBacktestInput.strategyId body = Some strategy /\
    BacktestResult.strategyName result = Strategy.name strategy /\
    BacktestResult.strategyId result = RunBacktestInput.strategyId body /\
    BacktestResult.id result = randomUUID (uuids s) /\
    BacktestResult.createdAt result = Date_now /\
    barsPath = csvPath host /\ barsSaved = length rows /\
    Host.writable host = true /\
    Z.of_nat (String.length (csvContent (Host.Date_text host)
                                        (Host.fixed5Text host) rows))
    <= Host.maxStringLength host /\
    s' = mkState (drawn s
                  + (5 * Z.to_nat (drawnTotalTrades entropy (drawn s))
                     + 5 * length rows + 4))
                 (strategies s)
                 (<[randomUUID (uuids s) := result]> (backtestResults s))
                 (Some rows) (S (uuids s)).
Proof.
  unfold runBacktest, handler.
  destruct (runBacktestSchema body) as [|issue issues] eqn:Hschema.
  2: { unfold ret. intros E; discriminate. }
  unfold bind at 1. unfold storage_getStrategy at 1.
  destruct (strategies s !! RunBacktestInput.strategyId body) as [strategy|].
  2: { unfold ret. intros E; discriminate. }
  unfold bind at 1. rewrite Math_random_eq.
  unfold bind at 1. rewrite Math_random_eq.
  unfold bind at 1.
  change (mkLedger (RunBacktestInput.initialBalance body)
            [RunBacktestInput.initialBalance body] [])
    with (ledgerAt entropy Date_parse (RunBacktestInput.symbol body)
            (RunBacktestInput.startDate body)
            (RunBacktestInput.initialBalance body) (drawn s + 2)
            (derivedWinningTrades entropy (drawn s)) 0).
  change (Math_floor ((lit 45 + entropy (drawn (advance 1 s)) * lit 25)
                      / lit 100
                      * ofInt (Math_floor (entropy (drawn s) * lit 50) + 20))%js)
    with (derivedWinningTrades entropy (drawn s)).
  change (Math_floor (entropy (drawn s) * lit 50)%js + 20)
    with (drawnTotalTrades entropy (drawn s)).
  destruct (forLoop _ _ _ _ _) as [[l|e] s1] eqn:Hloop; [|discriminate].
  apply forLoop_tradeStep in Hloop; [|cbn; lia].
  destruct Hloop as (-> & ->).
  unfold bind at 1. rewrite Math_random_eq.
  unfold bind at 1.
  match goal with |- context [generateSimulatedBars _ _ ?a ?b ?c ?st] =>
    destruct (generateSimulatedBars_advance entropy Date_parse a b c st)
      as (rows & ->) end.
  cbv [bind fs_mkdirSync csvText fs_writeFileSync Math_random
       storage_createBacktestResult ret throw].
  destruct (Host.writable host); [|discriminate].
  destruct (Z.leb_spec (Z.of_nat (String.length
                          (csvContent (Host.Date_text host)
                                      (Host.fixed5Text host) rows)))
                       (Host.maxStringLength host)) as [Hfits|]; [|discriminate].
  cbn [drawn strategies backtestResults latest_bars_csv uuids advance].
  intros E. injection E as <- <- <- <-.
  exists strategy, rows. cbn.
  repeat split; try reflexivity; try assumption. f_equal. lia.
Qed.

(** X3. A successful run stores its result under the next identifier
    [randomUUID] hands out, beside the results already kept, stamps it
    with the current time and with the name of the stored strategy,
    leaves the strategies untouched, and replaces the bar file by
    [barsSaved] rows, whose text fits in a string; the path it reports is
    that of [storage/backtests/latest_bars.csv] under the working
    directory of the process, which is writable. *)
Theorem runBacktest_stores_result_and_bars body (s : State T) result barsSaved
  barsPath s' :
  runBacktest entropy Date_parse randomUUID Date_now host body s
  = (Json result barsSaved barsPath, s') ->
  BacktestResult.id result = randomUUID (uuids s) /\
  BacktestResult.createdAt result = Date_now /\
  backtestResults s' = <[BacktestResult.id result := result]> (backtestResults s) /\
  (exists strategy,
     strategies s !! RunBacktestInput.strategyId body = Some strategy /\
     BacktestResult.strategyName result = Strategy.name strategy) /\
  strategies s' = strategies s /\
  (exists rows,
     latest_bars_csv s' = Some rows /\ length rows = barsSaved /\
     Z.of_nat (String.length (csvContent (Host.Date_text host)
                                         (Host.fixed5Text host) rows))
     <= Host.maxStringLength host) /\
  Host.writable host = true /\
  barsPath
  = (if String.eqb (Host.cwd host) "/" then "/storage/backtests/latest_bars.csv"
     else Host.cwd host ++ "/storage/backtests/latest_bars.csv")%string.
Proof.
  intros E. apply runBacktest_Json_state in E.
  destruct E as (strategy & rows & Hs & Hn & _ & Hid & Hc & -> & -> & Hw & Hfits
                 & ->).
  cbn [backtestResults strategies latest_bars_csv]. rewrite Hid.
  repeat split; eauto.
Qed.

(** X4. On a successful run there is one trade per unit of [totalTrades];
    trade [i] is named [trade-i], carries the symbol of the request,
    opens [i] times four hours after the start date and closes four
    hours after it opens, which is when trade [i + 1] opens. *)
Theorem trades_four_hours_apart body (s : State T) result barsSaved barsPath s'
  start :
  runBacktest entropy Date_parse randomUUID Date_now host body s
  = (Json result barsSaved barsPath, s') ->
  getTime Date_parse (RunBacktestInput.startDate body) = Some start ->
  length (BacktestResult.trades result)
  = Z.to_nat (BacktestResult.totalTrades result) /\
  forall i t, nth_error (BacktestResult.trades result) i = Some t ->
    BacktestTrade.id t = tradeId i /\
    BacktestTrade.symbol t = RunBacktestInput.symbol body /\
    BacktestTrade.openTime t = start + Z.of_nat i * 14400000 /\
    BacktestTrade.closeTime t = BacktestTrade.openTime t + 14400000.
Proof.
  intros E Hstart. apply runBacktest_Json in E. cbv zeta in E.
  destruct E as (_ & _ & Ht & _ & _ & _ & _ & _ & _ & -> & _).
  rewrite Ht. unfold runLedger, ledgerAt. cbn [trades].
  split; [now rewrite length_map, length_seq|].
  intros i t Hi. rewrite nth_error_map in Hi.
  destruct (nth_error (seq 0 _) i) as [k|] eqn:Hk; [|discriminate].
  injection Hi as <-.
  apply nth_error_seq_Some in Hk. destruct Hk as (-> & _). cbn [Nat.add].
  unfold tradeAt, startTime. rewrite Hstart.
  cbn [BacktestTrade.id BacktestTrade.symbol BacktestTrade.openTime
       BacktestTrade.closeTime].
  repeat split; lia.
Qed.

(** X6. A request that passes the schema, names a stored strategy and
    starts at a valid date from which the drawn number of four-hour
    trades stays within the dates JavaScript can hold reaches the bar
    synthesizer, which returns its rows.  It is answered with a result,
    [barsSaved] the number of rows, when the storage directory is
    writable and the text of the bar file fits in a string; otherwise it
    is answered with status 500 and only draws of entropy are gone: no
    result is stored and the bar file is as it was. *)
Theorem runBacktest_succeeds body (s : State T) strategy start :
  runBacktestSchema body = [] ->
  strategies s !! RunBacktestInput.strategyId body = Some strategy ->
  getTime Date_parse (RunBacktestInput.startDate body) = Some start ->
  start + Z.max 0 (drawnTotalTrades entropy (drawn s)) * 14400000
  <= 8640000000000000 ->
  let reached :=
    advance (5 * Z.to_nat (drawnTotalTrades entropy (drawn s)) + 3) s in
  exists rows,
    generateSimulatedBars entropy Date_parse (RunBacktestInput.startDate body)
      (RunBacktestInput.endDate body) (RunBacktestInput.symbol body) reached
    = (Normal rows, advance (5 * length rows) reached) /\
    if Host.writable host
       && (Z.of_nat (String.length (csvContent (Host.Date_text host)
                                               (Host.fixed5Text host) rows))
           <=? Host.maxStringLength host)
    then exists result s',
           runBacktest entropy Date_parse randomUUID Date_now host body s
           = (Json result (length rows) (csvPath host), s')
    else runBacktest entropy Date_parse randomUUID Date_now host body s
         = (Status 500 "Failed to run backtest",
            advance (5 * length rows) reached).
Proof.
  intros Hschema Hs Hstart Hhi.
  remember (runBacktest entropy Date_parse randomUUID Date_now host body s)
    as answer eqn:E.
  unfold runBacktest, handler in E. rewrite Hschema in E.
  unfold bind at 1 in E. unfold storage_getStrategy at 1 in E. rewrite Hs in E.
  unfold bind at 1 in E. rewrite Math_random_eq in E.
  unfold bind at 1 in E. rewrite Math_random_eq in E.
  unfold bind at 1 in E.
  change (Math_floor (entropy (drawn s) * lit 50)%js + 20)
    with (drawnTotalTrades entropy (drawn s)) in E.
  pose proof (getTime_range _ _ _ Hstart) as Hr. unfold maxTimeValue in Hr.
  match type of E with context [forLoop ?c ?f (tradeStep _ _ ?sy ?sd ?w) ?l ?st] =>
    destruct (forLoop_completes entropy Date_parse sy sd w start c Hstart f l st)
      as (l' & El) end; [unfold maxTimeValue; lia | unfold maxTimeValue; lia |].
  rewrite El in E.
  unfold bind at 1 in E. rewrite Math_random_eq in E.
  unfold bind at 1 in E. rewrite !advance_advance in E.
  replace (1 + (1 + (5 * Z.to_nat (drawnTotalTrades entropy (drawn s)) + 1)))%nat
    with (5 * Z.to_nat (drawnTotalTrades entropy (drawn s)) + 3)%nat in E by lia.
  match type of E with context [generateSimulatedBars _ _ ?a ?b ?c ?st] =>
    destruct (generateSimulatedBars_advance entropy Date_parse a b c st)
      as (rows & Eb) end.
  rewrite Eb in E. cbv zeta. exists rows. split; [exact Eb|].
  cbv [bind fs_mkdirSync csvText fs_writeFileSync Math_random
       storage_createBacktestResult ret throw] in E.
  destruct (Host.writable host); cbn [andb]; [|exact E].
  destruct (Z.of_nat _ <=? _); [|exact E].
  do 2 eexists. exact E.
Qed.

End HandlerState.

Section ExactHandler.

Variable entropy : nat -> Q.
Variable Date_parse : string -> option Z.
Variable randomUUID : nat -> string.
Variable Date_now : Z.
Variable host : Host.t.
Hypothesis entropy_unit : forall k, (0 <= entropy k < 1)%Q.


End ExactHandler.

(* ===================================================================== *)
(** * 10. Maps in insertion order, sorted listings *)
(* ===================================================================== *)

Lemma JsMap_get_set_same {V} k (v : V) m :
  JsMap.get k (JsMap.set k v m) = Some v.
Proof.
  induction m as [|[k' v'] m IH]; cbn.
  - now rewrite String.eqb_refl.
  - destruct (String.eqb k' k) eqn:E; cbn.
    + now rewrite String.eqb_refl.
    + now rewrite E.
Qed.

Lemma JsMap_get_set_other {V} k k' (v : V) m :
  k' <> k -> JsMap.get k' (JsMap.set k v m) = JsMap.get k' m.
Proof.
  intros Hne. induction m as [|[k0 v0] m IH]; cbn.
  - destruct (String.eqb_spec k k'); congruence.
  - destruct (String.eqb_spec k0 k) as [->|]; cbn.
    + destruct (String.eqb_spec k k'); congruence.
    + destruct (String.eqb k0 k'); auto.
Qed.

Lemma JsMap_values_set_fresh {V} k (v : V) m :
  JsMap.get k m = None ->
  JsMap.values (JsMap.set k v m) = JsMap.values m ++ [v].
Proof.
  unfold JsMap.values. induction m as [|[k0 v0] m IH]; cbn; [reflexivity|].
  destruct (String.eqb k0 k); [discriminate|].
  intros E. cbn. now rewrite IH.
Qed.

Lemma JsMap_values_set_present {V} k (v old : V) m :
  JsMap.get k m = Some old ->
  exists l1 l2,
    JsMap.values m = l1 ++ old :: l2 /\
    JsMap.values (JsMap.set k v m) = l1 ++ v :: l2.
Proof.
  unfold JsMap.values. induction m as [|[k0 v0] m IH]; cbn; [discriminate|].
  destruct (String.eqb k0 k).
  - intros E; injection E as ->. exists [], (map snd m). auto.
  - intros E. destruct (IH E) as (l1 & l2 & E1 & E2).
    exists (v0 :: l1), l2. cbn. now rewrite E1, E2.
Qed.

Section SortFacts.

Context {A : Type}.

Lemma insertStable_Permutation cmp (x : A) l :
  Permutation (insertStable cmp x l) (x :: l).
Proof.
  induction l as [|y l IH]; cbn; [reflexivity|].
  destruct (0 <? cmp x y); [|reflexivity].
  rewrite IH. apply perm_swap.
Qed.

Lemma Array_sort_Permutation cmp (l : list A) :
  Permutation (Array_sort cmp l) l.
Proof.
  induction l as [|x l IH]; cbn; [reflexivity|].
  fold (Array_sort cmp l). rewrite insertStable_Permutation. now constructor.
Qed.

Lemma Array_sort_length cmp (l : list A) :
  length (Array_sort cmp l) = length l.
Proof. apply Permutation_length, Array_sort_Permutation. Qed.

(** Listings by a date that is always valid. *)
Variable f : A -> Z.

Lemma insertStable_sorted x l :
  StronglySorted (fun a b => f b <= f a) l ->
  StronglySorted (fun a b => f b <= f a)
    (insertStable (newestFirst (fun a => Some (f a))) x l).
Proof.
  induction l as [|y l IH]; intros Hs; cbn [insertStable].
  - repeat constructor.
  - apply StronglySorted_inv in Hs. destruct Hs as (Hs & Hy).
    unfold newestFirst at 1. destruct (Z.ltb_spec 0 (f y - f x)).
    + constructor; [auto|].
      eapply Permutation_Forall;
        [symmetry; apply insertStable_Permutation|].
      constructor; [lia | assumption].
    + constructor; [now constructor|].
      constructor; [lia|].
      eapply List.Forall_impl; [|exact Hy]. cbn. intros; lia.
Qed.

Lemma Array_sort_sorted (l : list A) :
  StronglySorted (fun a b => f b <= f a)
    (Array_sort (newestFirst (fun a => Some (f a))) l).
Proof.
  induction l as [|x l IH]; cbn; [constructor|].
  now apply insertStable_sorted.
Qed.

Lemma insertStable_head x l :
  Forall (fun y => f y <= f x) l ->
  insertStable (newestFirst (fun a => Some (f a))) x l = x :: l.
Proof.
  destruct l as [|y l]; [reflexivity|]. intros Hl.
  apply Forall_inv in Hl. cbn. unfold newestFirst.
  destruct (Z.ltb_spec 0 (f y - f x)); [lia | reflexivity].
Qed.

Lemma filter_insertStable (p : A -> bool) x l :
  StronglySorted (fun a b => f b <= f a) l ->
  List.filter p (insertStable (newestFirst (fun a => Some (f a))) x l)
  = if p x
    then insertStable (newestFirst (fun a => Some (f a))) x (List.filter p l)
    else List.filter p l.
Proof.
  induction l as [|y l IH]; intros Hs.
  - cbn. destruct (p x); reflexivity.
  - apply StronglySorted_inv in Hs. destruct Hs as (Hs & Hy).
    cbn [insertStable]. unfold newestFirst at 1.
    destruct (Z.ltb_spec 0 (f y - f x)) as [Hlt|Hge].
    + cbn [List.filter]. rewrite (IH Hs).
      destruct (p y) eqn:Py, (p x) eqn:Px; try reflexivity.
      cbn [insertStable]. unfold newestFirst at 2.
      destruct (Z.ltb_spec 0 (f y - f x)); [reflexivity | lia].
    + cbn [List.filter]. destruct (p x) eqn:Px; [|reflexivity].
      rewrite insertStable_head; [reflexivity|].
      change (Forall (fun y0 => f y0 <= f x) (List.filter p (y :: l))).
      apply List.Forall_forall. intros z Hz.
      apply List.filter_In in Hz. destruct Hz as ([<- | Hz] & _); [lia|].
      rewrite List.Forall_forall in Hy. specialize (Hy z Hz). cbn in Hy. lia.
Qed.

Lemma filter_Array_sort (p : A -> bool) (l : list A) :
  List.filter p (Array_sort (newestFirst (fun a => Some (f a))) l)
  = Array_sort (newestFirst (fun a => Some (f a))) (List.filter p l).
Proof.
  induction l as [|x l IH]; [reflexivity|].
  cbn [Array_sort fold_right].
  fold (Array_sort (newestFirst (fun a => Some (f a))) l).
  rewrite filter_insertStable by apply Array_sort_sorted.
  rewrite IH. cbn [List.filter]. destruct (p x); reflexivity.
Qed.

End SortFacts.

(** ** A listing is a rearrangement of what is stored *)

Lemma omap_nth_error_seq {A} (l1 l2 : list A) :
  omap (nth_error (l1 ++ l2)) (seq (length l1) (length l2)) = l2.
Proof.
  revert l1. induction l2 as [|x l2 IH]; intros l1; [reflexivity|].
  cbn [length seq omap list_omap].
  rewrite nth_error_app2 by lia. rewrite Nat.sub_diag. cbn [nth_error].
  f_equal.
  replace (l1 ++ x :: l2) with ((l1 ++ [x]) ++ l2) by now rewrite <- app_assoc.
  replace (S (length l1)) with (length (l1 ++ [x]))
    by (rewrite length_app; cbn; lia).
  apply IH.
Qed.

Lemma arrange_Permutation {A} (p : list nat) (l : list A) :
  Permutation (arrange p l) l.
Proof.
  unfold arrange. destruct (arrangement (length l) p) eqn:E; [|reflexivity].
  unfold arrangement in E. apply andb_prop in E. destruct E as (Hlen & Hall).
  apply Nat.eqb_eq in Hlen.
  assert (Hperm : Permutation (seq 0 (length l)) p).
  { apply NoDup_Permutation_bis;
      [apply seq_NoDup | rewrite length_seq; lia |].
    intros i Hi. rewrite forallb_forall in Hall. apply Hall in Hi.
    apply existsb_exists in Hi. destruct Hi as (j & Hj & Eij).
    apply Nat.eqb_eq in Eij. now subst. }
  rewrite <- Hperm. pose proof (omap_nth_error_seq [] l) as E.
  cbn [app length] in E. now rewrite E.
Qed.

Lemma sortNewestFirst_Permutation {A} engineOrder (time : A -> option Z) l :
  Permutation (sortNewestFirst engineOrder time l) l.
Proof.
  unfold sortNewestFirst. destruct (forallb (dated time) l).
  - apply Array_sort_Permutation.
  - apply arrange_Permutation.
Qed.

(** The sort reads the comparator on the elements of the list only. *)
Lemma insertStable_ext {A} (cmp1 cmp2 : A -> A -> Z) x l :
  (forall y, In y l -> cmp1 x y = cmp2 x y) ->
  insertStable cmp1 x l = insertStable cmp2 x l.
Proof.
  induction l as [|y l IH]; intros Hc; [reflexivity|]. cbn [insertStable].
  rewrite (Hc y) by now left.
  rewrite IH by (intros; apply Hc; now right). reflexivity.
Qed.

Lemma Array_sort_ext {A} (cmp1 cmp2 : A -> A -> Z) l :
  (forall x y, In x l -> In y l -> cmp1 x y = cmp2 x y) ->
  Array_sort cmp1 l = Array_sort cmp2 l.
Proof.
  induction l as [|x l IH]; intros Hc; [reflexivity|].
  cbn [Array_sort fold_right].
  fold (Array_sort cmp1 l). fold (Array_sort cmp2 l).
  rewrite IH by (intros; apply Hc; now right).
  apply insertStable_ext. intros y Hy. apply Hc; [now left | right].
  eapply Permutation_in; [apply Array_sort_Permutation | exact Hy].
Qed.

(** Where every element is dated the listing runs from the newest to the
    oldest. *)
Lemma sortNewestFirst_sorted {A} engineOrder (time : A -> option Z) l :
  forallb (dated time) l = true ->
  StronglySorted (fun a b => default 0 (time b) <= default 0 (time a))
    (sortNewestFirst engineOrder time l).
Proof.
  intros Hd. unfold sortNewestFirst. rewrite Hd.
  rewrite (Array_sort_ext _ (newestFirst (fun a => Some (default 0 (time a))))).
  - apply Array_sort_sorted.
  - intros x y Hx Hy. rewrite forallb_forall in Hd.
    pose proof (Hd x Hx) as Dx. pose proof (Hd y Hy) as Dy.
    unfold dated in Dx, Dy. unfold newestFirst.
    destruct (time x), (time y); try discriminate; reflexivity.
Qed.

Lemma find_first_of_sorted {A} (R : A -> A -> Prop) (p : A -> bool) l x :
  StronglySorted R l -> List.find p l = Some x ->
  forall y, In y l -> p y = true -> y = x \/ R x y.
Proof.
  induction l as [|a l IH]; intros Hs Hf y Hy Py; [contradiction|].
  apply StronglySorted_inv in Hs. destruct Hs as (Hs & Ha).
  cbn [List.find] in Hf. destruct (p a) eqn:Pa.
  - injection Hf as <-. destruct Hy as [->|Hy]; [now left|].
    right. rewrite List.Forall_forall in Ha. auto.
  - destruct Hy as [<-|Hy]; [congruence | eauto].
Qed.

(* ===================================================================== *)
(** * 11. Strategies and the MT5 connection *)
(* ===================================================================== *)

Lemma default_default {A} (a : A) (o : option A) :
  default (default a o) o = default a o.
Proof. destruct o; reflexivity. Qed.

Section StrategyFacts.

Context {T : Type} `{Number T}.
Variable entropy : nat -> T.
Variable Date_parse : string -> option Z.
Variable randomUUID : nat -> string.
Variable Date_now : Z.
Variable engineOrder : list (option Z) -> list nat.
Variable host : Host.t.
Variable Date_text : Z -> string.

(** A request that names a strategy absent from the store. *)
Lemma runBacktest_absent body (s : State T) :
  runBacktestSchema body = [] ->
  strategies s !! RunBacktestInput.strategyId body = None ->
  runBacktest entropy Date_parse randomUUID Date_now host body s
  = (Status 404 "Strategy not found", s).
Proof.
  intros Hschema Hmissing. unfold runBacktest, handler. rewrite Hschema.
  unfold bind, storage_getStrategy. rewrite Hmissing. reflexivity.
Qed.

Lemma setState_state (sv : Server.t T) : setState (Server.state sv) sv = sv.
Proof. destruct sv; reflexivity. Qed.

(** X7. A strategy posted with its three required fields is answered
    with the stored record: inactive, never run, without trades, its
    description defaulting to the empty string, under the next
    identifier [randomUUID] hands out.  It can be read back under that
    identifier, it is in the listing, and every other identifier reads
    as before. *)
Theorem postStrategy_round_trip body (sv : Server.t T) st sv' :
  postStrategy randomUUID Date_now Date_text body sv = (Ok st, sv') ->
  st = Strategy.mk (randomUUID (uuids (Server.state sv)))
         (InsertStrategy.name body)
         (default ""%string (InsertStrategy.description body))
         (InsertStrategy.filename body) (InsertStrategy.content body)
         false (Date_text Date_now) None 0 (lit 0) (lit 0) /\
  getStrategyRoute (Strategy.id st) sv' = Ok st /\
  (getStrategy (randomUUID (uuids (Server.state sv))) sv = None ->
   In st (getStrategies Date_parse engineOrder sv')) /\
  forall id, id <> Strategy.id st -> getStrategy id sv' = getStrategy id sv.
Proof.
  unfold postStrategy.
  destruct (insertStrategySchema body); [|discriminate].
  unfold createStrategy, newUUID, setStrategy, setState.
  cbn [Server.state Server.strategyOrder Server.mt5Config Server.trades
       Server.journalEntries Server.tradingStatus Server.ml_lr_model
       drawn strategies backtestResults latest_bars_csv uuids].
  intros E. injection E as <- <-.
  split; [reflexivity|].
  unfold getStrategyRoute, getStrategy.
  cbn [Strategy.id Server.state strategies].
  rewrite lookup_insert_eq. split; [reflexivity|]. split.
  - intros Hfresh. unfold getStrategy in Hfresh. unfold getStrategies.
    eapply Permutation_in; [symmetry; apply sortNewestFirst_Permutation|].
    unfold strategyValues. cbn [Server.state Server.strategyOrder strategies].
    apply list_elem_of_In, list_elem_of_omap.
    exists (randomUUID (uuids (Server.state sv))).
    rewrite lookup_insert_eq. split; [|reflexivity].
    rewrite Hfresh. apply list_elem_of_In, in_or_app. right. now left.
  - intros id Hne. now rewrite lookup_insert_ne by congruence.
Qed.


(** X9. A patch answers with the stored record overlaid with the fields
    of the body, and stores it under the identifier of the path even
    when the body carries another [id]: the record then names an
    identifier it cannot be read under, unless that one was in use. *)
Theorem patchStrategy_keeps_the_key id body (sv : Server.t T) st sv' :
  patchStrategy id body sv = (Ok st, sv') ->
  (exists old, getStrategy id sv = Some old /\
               st = applyStrategyUpdate old body) /\
  getStrategy id sv' = Some st /\
  (forall id', id' <> id -> getStrategy id' sv' = getStrategy id' sv) /\
  (forall new, StrategyUpdate.id body = Some new -> Strategy.id st = new).
Proof.
  unfold patchStrategy, updateStrategy, getStrategy.
  destruct (strategies (Server.state sv) !! id) as [old|] eqn:Hid;
    [|discriminate].
  intros E. injection E as <- <-.
  unfold setStrategy. cbn [Server.state strategies].
  split; [eauto|]. rewrite lookup_insert_eq. split; [reflexivity|]. split.
  - intros id' Hne. now rewrite lookup_insert_ne by congruence.
  - intros new Hnew. unfold applyStrategyUpdate. cbn [Strategy.id].
    now rewrite Hnew.
Qed.

(** X10. Sending the same patch a second time changes nothing: it is
    answered with the same record and leaves the server as the first
    patch left it. *)
Theorem patchStrategy_twice id body (sv : Server.t T) st sv' :
  patchStrategy id body sv = (Ok st, sv') ->
  patchStrategy id body sv' = (Ok st, sv').
Proof.
  unfold patchStrategy, updateStrategy.
  destruct (strategies (Server.state sv) !! id) as [old|] eqn:Hid;
    [|discriminate].
  intros E. injection E as <- <-.
  unfold setStrategy at 1 3. cbn [Server.state strategies].
  rewrite lookup_insert_eq, Hid.
  assert (Hidem : applyStrategyUpdate (applyStrategyUpdate old body) body
                  = applyStrategyUpdate old body).
  { unfold applyStrategyUpdate.
    cbn [Strategy.id Strategy.name Strategy.description Strategy.filename
         Strategy.content Strategy.isActive Strategy.createdAt
         Strategy.lastRun Strategy.totalTrades Strategy.winRate
         Strategy.totalProfit].
    now rewrite !default_default. }
  rewrite Hidem. f_equal.
  unfold setStrategy.
  cbn [Server.state Server.strategyOrder Server.mt5Config Server.trades
       Server.journalEntries Server.tradingStatus Server.ml_lr_model
       drawn strategies backtestResults latest_bars_csv uuids].
  rewrite lookup_insert_eq, insert_insert_eq, ?Hid. reflexivity.
Qed.

End StrategyFacts.

(* ===================================================================== *)
(** * 12. Live trades *)
(* ===================================================================== *)

Lemma StronglySorted_app_Forall {A} (R : A -> A -> Prop) (l1 l2 : list A) :
  StronglySorted R (l1 ++ l2) ->
  Forall (fun a => Forall (R a) l2) l1.
Proof.
  induction l1 as [|a l1 IH]; cbn; intros Hs; [constructor|].
  apply StronglySorted_inv in Hs. destruct Hs as (Hs & Ha).
  constructor; [|auto].
  apply List.Forall_app in Ha. tauto.
Qed.

Section ListingFacts.

Context {T : Type}.
Variable Date_now : Z.

(** X11. The trade listing holds every stored trade once and runs from
    the newest opening time to the oldest. *)
Theorem getTrades_newest_first (sv : Server.t T) :
  Permutation (getTrades sv) (JsMap.values (Server.trades sv)) /\
  StronglySorted (fun a b => Trade.openTime b <= Trade.openTime a)
                 (getTrades sv).
Proof.
  split; [apply Array_sort_Permutation|].
  apply (Array_sort_sorted Trade.openTime).
Qed.

(** X12. The listing of open trades is the full listing with the trades
    that are not open left out, in the same order. *)
Theorem getOpenTrades_filters_getTrades (sv : Server.t T) :
  getOpenTrades sv
  = List.filter isOpen (getTrades sv).
Proof.
  unfold getOpenTrades, getTrades. symmetry.
  apply (filter_Array_sort Trade.openTime).
Qed.

(** X13. For a limit that is not negative, the recent trades are the
    first [limit] entries of the full listing, all of it when it is
    shorter, and no trade left out opened later than one of them. *)
Theorem getRecentTrades_are_the_newest limit (sv : Server.t T) :
  0 <= limit ->
  exists older,
    getTrades sv = getRecentTrades limit sv ++ older /\
    length (getRecentTrades limit sv)
    = Nat.min (Z.to_nat limit) (length (JsMap.values (Server.trades sv))) /\
    Forall (fun a =>
              Forall (fun b => Trade.openTime b <= Trade.openTime a) older)
           (getRecentTrades limit sv).
Proof.
  intros Hlimit. unfold getRecentTrades, slice0.
  destruct (Z.ltb_spec limit 0); [lia|].
  fold (getTrades sv).
  exists (skipn (Z.to_nat limit) (getTrades sv)).
  split; [now rewrite firstn_skipn|]. split.
  - rewrite length_firstn. unfold getTrades. now rewrite Array_sort_length.
  - apply StronglySorted_app_Forall. rewrite firstn_skipn.
    apply (Array_sort_sorted Trade.openTime).
Qed.

Lemma getOpenTrades_length (sv : Server.t T) :
  length (getOpenTrades sv)
  = length (List.filter isOpen (JsMap.values (Server.trades sv))).
Proof. unfold getOpenTrades. apply Array_sort_length. Qed.

(** X14. Closing a stored trade, whatever its status, answers with the
    trade marked CLOSED and stamped with the current time, its other
    fields as they were, and stores it under the same identifier.  No
    trade is added or removed, the other trades are untouched, and when
    the trade was open there is one open position less. *)
Theorem closeTrade_marks_closed id (sv : Server.t T) t :
  JsMap.get id (Server.trades sv) = Some t ->
  exists sv',
    let closed :=
      Trade.mk (Trade.id t) (Trade.ticket t) (Trade.symbol t) (Trade.type t)
        (Trade.volume t) (Trade.openPrice t) (Trade.currentPrice t)
        (Trade.stopLoss t) (Trade.takeProfit t) (Trade.profit t)
        (Trade.openTime t) (Some Date_now) CLOSED (Trade.strategyId t)
        (Trade.strategyName t) in
    closeTradeRoute Date_now id sv = (Ok closed, sv') /\
    JsMap.get id (Server.trades sv') = Some closed /\
    (forall id', id' <> id ->
       JsMap.get id' (Server.trades sv') = JsMap.get id' (Server.trades sv)) /\
    length (getTrades sv') = length (getTrades sv) /\
    (Trade.status t = OPEN ->
     S (length (getOpenTrades sv')) = length (getOpenTrades sv)).
Proof.
  intros Hid. unfold closeTradeRoute, closeTrade. rewrite Hid.
  eexists. cbv zeta. split; [reflexivity|].
  unfold setTrades. cbn [Server.trades].
  split; [apply JsMap_get_set_same|].
  split; [intros id' Hne; now apply JsMap_get_set_other|].
  match goal with |- context [JsMap.set id ?c _] =>
    destruct (JsMap_values_set_present id c t _ Hid) as (l1 & l2 & E1 & E2)
  end.
  split.
  - unfold getTrades. rewrite !Array_sort_length. cbn [Server.trades].
    rewrite E1, E2, !length_app. reflexivity.
  - intros Hopen. rewrite !getOpenTrades_length. cbn [Server.trades].
    assert (Ht : isOpen t = true) by (unfold isOpen; now rewrite Hopen).
    rewrite E1, E2, !List.filter_app, !length_app. cbn [List.filter].
    rewrite Ht. cbn [isOpen Trade.status length]. lia.
Qed.

End ListingFacts.

Section OrderFacts.

Context {T : Type} `{Number T}.
Variable entropy : nat -> T.
Variable Date_parse : string -> option Z.
Variable randomUUID : nat -> string.
Variable Date_now : Z.
Variable engineOrder : list (option Z) -> list nat.

(** What an accepted order leaves: the trade, by the three draws it
    consumes, and the server. *)
Lemma placeTrade_Ok body (sv : Server.t T) t sv' :
  placeTrade entropy Date_parse randomUUID Date_now engineOrder body sv = (Ok t, sv') ->
  exists symbol type volume,
    body = PlaceOrder.mk (Some symbol) (Some type) (Some volume) /\
    symbol <> ""%string /\ type <> ""%string /\
    falsyNumber volume = false /\
    MT5Config.connected (Server.mt5Config sv) = true /\
    let s := Server.state sv in
    let activeStrategy :=
      List.find (fun st => Strategy.isActive st) (getStrategies Date_parse engineOrder sv) in
    let isBuy := String.eqb type "BUY" in
    let openPrice := (lit 1.0 + entropy (drawn s) * lit 0.1)%js in
    let currentPrice :=
      (openPrice + (entropy (S (drawn s)) - lit 0.5) * lit 0.01)%js in
    t = Trade.mk (randomUUID (uuids s))
          (Math_floor (entropy (S (S (drawn s))) * lit 1000000)%js)
          symbol type volume openPrice currentPrice
          (if isBuy then (openPrice - lit 0.005)%js
           else (openPrice + lit 0.005)%js)
          (if isBuy then (openPrice + lit 0.01)%js
           else (openPrice - lit 0.01)%js)
          ((currentPrice - openPrice) * volume * lit 100000
           * (if isBuy then lit 1 else lit (-1)))%js
          Date_now None OPEN
          (match activeStrategy with
           | Some st => Strategy.id st
           | None => ""%string
           end)
          (match activeStrategy with
           | Some st => if String.eqb (Strategy.name st) "" then "Manual"%string
                        else Strategy.name st
           | None => "Manual"%string
           end) /\
    sv' = Server.mk
            (mkState (S (S (S (drawn s)))) (strategies s) (backtestResults s)
                     (latest_bars_csv s) (S (uuids s)))
            (Server.strategyOrder sv) (Server.mt5Config sv)
            (JsMap.set (randomUUID (uuids s)) t (Server.trades sv))
            (Server.journalEntries sv) (Server.tradingStatus sv)
            (Server.ml_lr_model sv).
Proof.
  unfold placeTrade. destruct body as [[symbol|] [type|] [volume|]];
    cbn [PlaceOrder.symbol PlaceOrder.type PlaceOrder.volume];
    try discriminate.
  destruct (String.eqb_spec symbol "") as [|Hs]; [discriminate|].
  destruct (String.eqb_spec type "") as [|Ht]; [discriminate|].
  destruct (falsyNumber volume) eqn:Hv; [discriminate|].
  cbn [orb]. unfold getMT5Config.
  destruct (MT5Config.connected (Server.mt5Config sv)) eqn:Hc;
    [|discriminate].
  cbn [negb].
  unfold random, createTrade, newUUID, setTrades, setState, Math_random.
  cbn [fst snd Server.state Server.strategyOrder Server.mt5Config Server.trades
       Server.journalEntries Server.tradingStatus Server.ml_lr_model
       drawn strategies backtestResults latest_bars_csv uuids].
  intros E. injection E as <- <-.
  exists symbol, type, volume. cbv zeta.
  repeat split; auto.
Qed.

(** An order with its three fields is accepted on a connected account. *)
Lemma placeTrade_complete symbol type volume (sv : Server.t T) :
  symbol <> ""%string -> type <> ""%string -> falsyNumber volume = false ->
  MT5Config.connected (Server.mt5Config sv) = true ->
  exists t sv',
    placeTrade entropy Date_parse randomUUID Date_now engineOrder
               (PlaceOrder.mk (Some symbol) (Some type) (Some volume)) sv
    = (Ok t, sv').
Proof.
  intros Hs Ht Hv Hc. unfold placeTrade, getMT5Config.
  cbn [PlaceOrder.symbol PlaceOrder.type PlaceOrder.volume].
  destruct (String.eqb_spec symbol ""); [contradiction|].
  destruct (String.eqb_spec type ""); [contradiction|].
  rewrite Hv, Hc. cbn [orb negb].
  unfold random, createTrade, newUUID. cbn [fst snd]. eauto.
Qed.

(** X15. An order is accepted exactly when it carries a symbol and a
    type that are not empty and a volume that is neither 0 nor NaN, and
    the MT5 account is connected; the type is not checked further. *)
Theorem placeTrade_accepts_iff body (sv : Server.t T) :
  (exists t sv',
     placeTrade entropy Date_parse randomUUID Date_now engineOrder body sv = (Ok t, sv'))
  <->
  (exists symbol type volume,
     body = PlaceOrder.mk (Some symbol) (Some type) (Some volume) /\
     symbol <> ""%string /\ type <> ""%string /\
     falsyNumber volume = false) /\
  MT5Config.connected (getMT5Config sv) = true.
Proof.
  split.
  - intros (t & sv' & E). apply placeTrade_Ok in E.
    destruct E as (symbol & type & volume & -> & Hs & Ht & Hv & Hc & _).
    split; [|exact Hc]. exists symbol, type, volume. auto.
  - intros ((symbol & type & volume & -> & Hs & Ht & Hv) & Hc).
    now apply placeTrade_complete.
Qed.

(** X16. An order that is refused is answered with status 400, either
    for missing fields or, those being present, because the account is
    not connected, and leaves the server exactly as it was: no entropy
    is consumed and no trade is stored. *)
Theorem placeTrade_refusal_changes_nothing body (sv : Server.t T) code error sv' :
  placeTrade entropy Date_parse randomUUID Date_now engineOrder body sv
  = (Fail code error, sv') ->
  sv' = sv /\ code = 400 /\
  (error = "Missing required fields"%string \/
   error = "Not connected to MT5"%string /\
   MT5Config.connected (getMT5Config sv) = false).
Proof.
  unfold placeTrade. destruct body as [[symbol|] [type|] [volume|]];
    cbn [PlaceOrder.symbol PlaceOrder.type PlaceOrder.volume];
    try (intros E; injection E as <- <- <-; auto).
  destruct (_ || _ || _); [intros E; injection E as <- <- <-; auto|].
  destruct (MT5Config.connected (getMT5Config sv)) eqn:Hc; cbn [negb].
  - unfold random, createTrade, newUUID. cbn. discriminate.
  - intros E; injection E as <- <- <-; auto.
Qed.

(** X17. An accepted order is stored as an open trade without a close
    time, stamped with the current time, under the identifier it is
    answered with; when that identifier was not in use the trade is in
    the listing of open trades and there is one open position more. *)
Theorem placeTrade_is_listed_open body (sv : Server.t T) t sv' :
  placeTrade entropy Date_parse randomUUID Date_now engineOrder body sv = (Ok t, sv') ->
  Trade.status t = OPEN /\ Trade.closeTime t = None /\
  Trade.openTime t = Date_now /\
  JsMap.get (Trade.id t) (Server.trades sv') = Some t /\
  (JsMap.get (Trade.id t) (Server.trades sv) = None ->
   In t (getOpenTrades sv') /\
   TradingStatus.openPositions (getTradingStatus Date_now sv')
   = TradingStatus.openPositions (getTradingStatus Date_now sv) + 1).
Proof.
  intros E. apply placeTrade_Ok in E.
  destruct E as (symbol & type & volume & _ & _ & _ & _ & _ & E).
  cbv zeta in E. destruct E as (Et & ->).
  assert (Hid : Trade.id t = randomUUID (uuids (Server.state sv)))
    by (rewrite Et; reflexivity).
  assert (Hst : Trade.status t = OPEN) by (rewrite Et; reflexivity).
  split; [exact Hst|].
  split; [rewrite Et; reflexivity|]. split; [rewrite Et; reflexivity|].
  cbn [Server.trades]. rewrite Hid.
  split; [apply JsMap_get_set_same|].
  intros Hfresh.
  assert (Hopen : List.filter isOpen
                    (JsMap.values
                       (JsMap.set (randomUUID (uuids (Server.state sv))) t
                                  (Server.trades sv)))
                  = List.filter isOpen (JsMap.values (Server.trades sv)) ++ [t]).
  { rewrite JsMap_values_set_fresh by assumption.
    rewrite List.filter_app. cbn [List.filter]. unfold isOpen at 2.
    now rewrite Hst. }
  split.
  - unfold getOpenTrades.
    eapply Permutation_in; [symmetry; apply Array_sort_Permutation|].
    cbn [Server.trades]. rewrite Hopen. apply in_or_app. right. now left.
  - unfold getTradingStatus. cbn [TradingStatus.openPositions].
    rewrite !getOpenTrades_length. cbn [Server.trades].
    rewrite Hopen, length_app. cbn [length]. lia.
Qed.

(** X18. An accepted order is attributed to the first strategy of the
    listing [getStrategies] that is marked active, by its identifier and
    its name ("Manual" if the name is empty); that strategy is stored,
    and where the creation date of every stored strategy parses no
    active stored strategy is newer.  When no stored strategy is active
    the order is attributed to no strategy, under the name "Manual". *)
Theorem placeTrade_attribution body (sv : Server.t T) t sv' :
  placeTrade entropy Date_parse randomUUID Date_now engineOrder body sv = (Ok t, sv') ->
  let created := fun st => getTime Date_parse (Strategy.createdAt st) in
  match List.find (fun st => Strategy.isActive st)
                  (getStrategies Date_parse engineOrder sv) with
  | Some st =>
      (exists id, getStrategy id sv = Some st) /\
      Strategy.isActive st = true /\
      Trade.strategyId t = Strategy.id st /\
      Trade.strategyName t
      = (if String.eqb (Strategy.name st) "" then "Manual"%string
         else Strategy.name st) /\
      (forallb (dated created) (strategyValues sv) = true ->
       forall st',
         In st' (strategyValues sv) -> Strategy.isActive st' = true ->
         exists time time',
           created st = Some time /\ created st' = Some time' /\ time' <= time)
  | None =>
      Forall (fun st => Strategy.isActive st = false) (strategyValues sv) /\
      Trade.strategyId t = ""%string /\ Trade.strategyName t = "Manual"%string
  end.
Proof.
  intros E. apply placeTrade_Ok in E.
  destruct E as (symbol & type & volume & _ & _ & _ & _ & _ & E).
  cbv zeta in E. destruct E as (-> & _).
  cbn [Trade.strategyId Trade.strategyName]. cbv zeta.
  destruct (List.find _ _) as [st|] eqn:Hfind.
  - pose proof (List.find_some _ _ Hfind) as (Hin & Hact).
    unfold getStrategies in Hin.
    eapply Permutation_in in Hin; [|apply sortNewestFirst_Permutation].
    split.
    { apply list_elem_of_In, list_elem_of_omap in Hin.
      destruct Hin as (id & _ & Hid). now exists id. }
    split; [exact Hact|]. split; [reflexivity|]. split; [reflexivity|].
    intros Hdated st' Hin' Hact'.
    pose proof (sortNewestFirst_sorted engineOrder _ _ Hdated) as Hsorted.
    rewrite forallb_forall in Hdated.
    pose proof (Hdated st Hin) as Dst. pose proof (Hdated st' Hin') as Dst'.
    unfold dated in Dst, Dst'.
    destruct (getTime Date_parse (Strategy.createdAt st)) as [time|] eqn:Et;
      [|discriminate].
    destruct (getTime Date_parse (Strategy.createdAt st')) as [time'|] eqn:Et';
      [|discriminate].
    exists time, time'. split; [reflexivity|]. split; [reflexivity|].
    destruct (find_first_of_sorted _ _ _ _ Hsorted Hfind st') as [->|Hle].
    + eapply Permutation_in; [symmetry; apply sortNewestFirst_Permutation|].
      exact Hin'.
    + exact Hact'.
    + rewrite Et in Et'. injection Et' as <-. lia.
    + cbv beta in Hle. rewrite Et, Et' in Hle. exact Hle.
  - split; [|auto]. apply List.Forall_forall. intros st Hin.
    eapply List.find_none in Hfind.
    + exact Hfind.
    + unfold getStrategies.
      eapply Permutation_in; [symmetry; apply sortNewestFirst_Permutation|].
      exact Hin.
Qed.

(** X20. An accepted order consumes three draws: the first gives the
    opening price [1.0 + u * 0.1], the second the current price, the
    opening price plus [(u - 0.5) * 0.01], the third the ticket
    [floor (u * 1000000)].  Its profit is the price move times the
    volume times 100000, negated unless the type is "BUY".  A "BUY" has
    its stop 0.005 below and its target 0.01 above the opening price; an
    order of any other type has its stop 0.005 above and its target 0.01
    below. *)
Theorem placeTrade_prices body (sv : Server.t T) t sv' :
  placeTrade entropy Date_parse randomUUID Date_now engineOrder body sv = (Ok t, sv') ->
  let d := drawn (Server.state sv) in
  Trade.openPrice t = (lit 1.0 + entropy d * lit 0.1)%js /\
  Trade.currentPrice t
  = (Trade.openPrice t + (entropy (S d) - lit 0.5) * lit 0.01)%js /\
  Trade.ticket t = Math_floor (entropy (S (S d)) * lit 1000000)%js /\
  Trade.profit t
  = ((Trade.currentPrice t - Trade.openPrice t) * Trade.volume t * lit 100000
     * (if String.eqb (Trade.type t) "BUY" then lit 1 else lit (-1)))%js /\
  (Trade.type t = "BUY"%string ->
   Trade.stopLoss t = (Trade.openPrice t - lit 0.005)%js /\
   Trade.takeProfit t = (Trade.openPrice t + lit 0.01)%js) /\
  (Trade.type t <> "BUY"%string ->
   Trade.stopLoss t = (Trade.openPrice t + lit 0.005)%js /\
   Trade.takeProfit t = (Trade.openPrice t - lit 0.01)%js) /\
  drawn (Server.state sv') = (d + 3)%nat.
Proof.
  intros E. apply placeTrade_Ok in E.
  destruct E as (symbol & type & volume & _ & _ & _ & _ & _ & E).
  cbv zeta in E. destruct E as (-> & ->).
  cbn [Trade.openPrice Trade.currentPrice Trade.ticket Trade.type
       Trade.stopLoss Trade.takeProfit Trade.profit Trade.volume
       Server.state drawn].
  repeat split; try reflexivity; try lia;
    destruct (String.eqb_spec type "BUY"); intros; try contradiction;
    reflexivity.
Qed.

End OrderFacts.

(* ===================================================================== *)
(** * 13. The MT5 connection, order prices and the dashboard *)
(* ===================================================================== *)

Section ConnectionFacts.

Context {T : Type} `{Number T}.
Variable entropy : nat -> T.
Variable Date_parse : string -> option Z.
Variable randomUUID : nat -> string.
Variable Date_now : Z.
Variable engineOrder : list (option Z) -> list nat.

(** X19. Orders follow the connection: after a disconnect every order is
    refused with status 400 and the server stays as the disconnect left
    it; after a connect with a login, a password and a server that are
    not empty, an order with its three fields is accepted.  A connect
    with an empty field is refused with status 400 and changes
    nothing. *)
Theorem orders_follow_the_connection config body (sv : Server.t T) :
  (exists error,
     placeTrade entropy Date_parse randomUUID Date_now engineOrder body
                (snd (mt5Disconnect sv))
     = (Fail 400 error, snd (mt5Disconnect sv))) /\
  (insertMT5ConfigSchema config = [] ->
   forall symbol type volume,
     body = PlaceOrder.mk (Some symbol) (Some type) (Some volume) ->
     symbol <> ""%string -> type <> ""%string -> falsyNumber volume = false ->
     exists t sv',
       placeTrade entropy Date_parse randomUUID Date_now engineOrder body
                  (snd (mt5Connect entropy Date_now config sv))
       = (Ok t, sv')) /\
  (insertMT5ConfigSchema config <> [] ->
   exists error, mt5Connect entropy Date_now config sv = (Fail 400 error, sv)).
Proof.
  split; [|split].
  - unfold mt5Disconnect, updateMT5Config, placeTrade, getMT5Config.
    cbn [snd Server.mt5Config MT5Config.connected MT5Update.connected default
         negb].
    destruct (PlaceOrder.symbol body), (PlaceOrder.type body),
      (PlaceOrder.volume body); eauto.
    destruct (_ || _ || _); eauto.
  - intros Hschema symbol type volume -> Hs Ht Hv.
    apply placeTrade_complete; try assumption.
    unfold mt5Connect. rewrite Hschema. reflexivity.
  - intros Hschema. unfold mt5Connect.
    destruct (insertMT5ConfigSchema config); [contradiction | eauto].
Qed.

End ConnectionFacts.

(* ===================================================================== *)
(** * 14. The dashboard *)
(* ===================================================================== *)

(** The open and the closed trades are apart. *)
Lemma open_and_closed_apart {T} (l : list (Trade.t T)) :
  (length (List.filter isOpen l) + length (List.filter isClosed l)
   <= length l)%nat.
Proof.
  induction l as [|t l IH]; [reflexivity|].
  cbn [List.filter]. unfold isOpen at 1, isClosed at 1.
  destruct (Trade.status t); cbn [length]; lia.
Qed.

Section DashboardFacts.

Context {T : Type} `{Number T}.
Variable entropy : nat -> T.
Variable Date_parse : string -> option Z.
Variable randomUUID : nat -> string.
Variable Date_now : Z.
Variable engineOrder : list (option Z) -> list nat.

(** X22. An accepted order, stored under an identifier that was not in
    use, counts on the dashboard as one more trade and one more open
    position; the total profit and the win rate, which read closed
    trades only, and the account figures stay as they were. *)
Theorem dashboard_counts_an_order_as_open body (sv : Server.t T) t sv' :
  placeTrade entropy Date_parse randomUUID Date_now engineOrder body sv = (Ok t, sv') ->
  JsMap.get (Trade.id t) (Server.trades sv) = None ->
  let before := fst (getDashboardStats entropy sv) in
  let after := fst (getDashboardStats entropy sv') in
  DashboardStats.totalTrades after = S (DashboardStats.totalTrades before) /\
  DashboardStats.openPositions after = S (DashboardStats.openPositions before) /\
  DashboardStats.totalProfit after = DashboardStats.totalProfit before /\
  DashboardStats.winRate after = DashboardStats.winRate before /\
  DashboardStats.activeStrategies after = DashboardStats.activeStrategies before /\
  DashboardStats.accountBalance after = DashboardStats.accountBalance before /\
  DashboardStats.accountEquity after = DashboardStats.accountEquity before.
Proof.
  intros E. apply placeTrade_Ok in E.
  destruct E as (symbol & type & volume & _ & _ & _ & _ & _ & E).
  cbv zeta in E. destruct E as (Et & ->).
  assert (Hid : Trade.id t = randomUUID (uuids (Server.state sv)))
    by (rewrite Et; reflexivity).
  assert (Hst : Trade.status t = OPEN) by (rewrite Et; reflexivity).
  rewrite Hid. intros Hfresh. clear Et.
  unfold getDashboardStats, random, strategyValues.
  cbn [fst Server.trades Server.state Server.mt5Config Server.strategyOrder
       strategies DashboardStats.totalTrades DashboardStats.openPositions
       DashboardStats.totalProfit DashboardStats.winRate
       DashboardStats.activeStrategies DashboardStats.accountBalance
       DashboardStats.accountEquity].
  rewrite JsMap_values_set_fresh by assumption.
  assert (Ho : isOpen t = true) by (unfold isOpen; now rewrite Hst).
  assert (Hc : isClosed t = false) by (unfold isClosed; now rewrite Hst).
  rewrite !List.filter_app. cbn [List.filter].
  rewrite Ho, Hc, !app_nil_r, !length_app. cbn [length].
  repeat split; try reflexivity; lia.
Qed.

End DashboardFacts.

Section ClosedTradeFacts.

Context {T : Type} `{Number T}.
Variable entropy : nat -> T.
Variable Date_now : Z.

(** X23. The dashboard's win rate is the share of the closed trades
    whose profit is positive, in percent, and is 0 when no trade is
    closed; the open trades do not enter it.  The drawdown it shows is a
    fresh draw times 5, and its open positions and the closed trades
    together are at most its number of trades. *)
Theorem dashboard_winRate_counts_closed_trades (sv : Server.t T) :
  let stats := fst (getDashboardStats entropy sv) in
  let trades := JsMap.values (Server.trades sv) in
  let closed := List.filter isClosed trades in
  let winning :=
    List.filter (fun t => (Trade.profit t >? lit 0)%js) closed in
  (closed = [] -> DashboardStats.winRate stats = lit 0) /\
  (closed <> [] ->
   DashboardStats.winRate stats
   = (ofInt (Z.of_nat (length winning)) / ofInt (Z.of_nat (length closed))
      * lit 100)%js) /\
  (length winning <= length closed)%nat /\
  DashboardStats.currentDrawdown stats
  = (entropy (drawn (Server.state sv)) * lit 5)%js /\
  DashboardStats.totalTrades stats = length trades /\
  (DashboardStats.openPositions stats + length closed
   <= DashboardStats.totalTrades stats)%nat /\
  drawn (Server.state (snd (getDashboardStats entropy sv)))
  = S (drawn (Server.state sv)).
Proof.
  cbv zeta. unfold getDashboardStats, random, setState, Math_random.
  cbn [fst snd DashboardStats.winRate DashboardStats.currentDrawdown
       DashboardStats.openPositions DashboardStats.totalTrades
       Server.state drawn].
  set (closed := List.filter isClosed (JsMap.values (Server.trades sv))).
  split; [intros ->; reflexivity|].
  split.
  { intros Hne. destruct closed as [|c closed']; [contradiction | reflexivity]. }
  split; [apply List.filter_length_le|].
  split; [reflexivity|]. split; [reflexivity|].
  split; [apply open_and_closed_apart | reflexivity].
Qed.

(** X24. Closing an open trade puts it, with its profit unchanged, among
    the closed trades the dashboard sums, at the place it has in the
    store: the total profit, which was the sum over the closed trades
    plus the account's profit, is afterwards the sum with this trade
    among them.  One open position turns into none and the number of
    trades stays the same. *)
Theorem closing_realises_the_profit id (sv : Server.t T) t sv' answer :
  JsMap.get id (Server.trades sv) = Some t ->
  Trade.status t = OPEN ->
  closeTradeRoute Date_now id sv = (answer, sv') ->
  let before := fst (getDashboardStats entropy sv) in
  let after := fst (getDashboardStats entropy sv') in
  exists closed l1 l2,
    answer = Ok closed /\
    Trade.status closed = CLOSED /\ Trade.profit closed = Trade.profit t /\
    List.filter isClosed (JsMap.values (Server.trades sv)) = l1 ++ l2 /\
    List.filter isClosed (JsMap.values (Server.trades sv')) = l1 ++ closed :: l2 /\
    DashboardStats.totalProfit before
    = (sumTradeProfit (l1 ++ l2)
       + MT5Config.accountProfit (Server.mt5Config sv))%js /\
    DashboardStats.totalProfit after
    = (sumTradeProfit (l1 ++ closed :: l2)
       + MT5Config.accountProfit (Server.mt5Config sv))%js /\
    S (DashboardStats.openPositions after) = DashboardStats.openPositions before /\
    DashboardStats.totalTrades after = DashboardStats.totalTrades before.
Proof.
  intros Hid Hopen. unfold closeTradeRoute, closeTrade. rewrite Hid.
  intros E. injection E as <- <-. cbv zeta.
  unfold getDashboardStats, random, setTrades.
  cbn [fst Server.trades Server.mt5Config DashboardStats.totalProfit
       DashboardStats.openPositions DashboardStats.totalTrades].
  match goal with |- context [JsMap.set id ?c _] =>
    destruct (JsMap_values_set_present id c t _ Hid) as (l1 & l2 & E1 & E2)
  end.
  rewrite E1, E2, !List.filter_app, !length_app. cbn [List.filter length].
  assert (Ho : isOpen t = true) by (unfold isOpen; now rewrite Hopen).
  assert (Hc : isClosed t = false) by (unfold isClosed; now rewrite Hopen).
  rewrite Ho, Hc. cbn [isOpen isClosed Trade.status length].
  eexists. exists (List.filter isClosed l1), (List.filter isClosed l2).
  split; [reflexivity|]. split; [reflexivity|]. split; [reflexivity|].
  split; [reflexivity|]. split; [reflexivity|]. split; [reflexivity|].
  split; [reflexivity|]. rewrite ?length_app. split; lia.
Qed.

End ClosedTradeFacts.

(* ===================================================================== *)
(** * 15. Signals and the confidence gate *)
(* ===================================================================== *)

Section SignalFacts.

Context {T : Type} `{Number T}.
Variable entropy : nat -> T.
Variable randomUUID : nat -> string.
Variable Date_now : Z.
Variable Date_text : Z -> string.
Variable toFixed : nat -> T -> string.
Variable fixed5Text : Z -> string.
Variable predict_signal : list (list (string * option string)) -> option T.

(** What an answered signal carries, by the two draws it consumes and
    the answer of the prediction process, and what it leaves. *)
Lemma simulateSignal_Ok (sv : Server.t T) reply sv' :
  simulateSignal entropy randomUUID Date_now Date_text toFixed fixed5Text
                 predict_signal sv = (Ok reply, sv') ->
  let s := Server.state sv in
  let signal :=
    if (entropy (S (drawn s)) >? lit 0.6)%js then Buy
    else if (entropy (S (drawn s)) <? lit 0.4)%js then Sell else Hold in
  let prediction :=
    match latest_bars_csv s with
    | Some rows =>
        if Server.ml_lr_model sv && negb (isHold signal)
        then predict_signal (recentBars Date_text fixed5Text rows)
        else None
    | None => None
    end in
  let confidence := default (lit 0.5) prediction in
  let mlUsed := match prediction with Some _ => true | None => false end in
  let skip :=
    negb (isHold signal) && mlUsed && (confidence <? lit 0.55)%js in
  let symbol := at_ symbols (Math_floor (entropy (drawn s) * ofInt 5)%js) in
  TradingStatus.isActive (Server.tradingStatus sv) = true /\
  reply = SignalReply.mk symbol signal (if skip then Hold else signal)
            confidence (lit 0.55) mlUsed skip Date_now /\
  Server.state sv'
  = mkState (S (S (drawn s))) (strategies s) (backtestResults s)
            (latest_bars_csv s)
            (if isHold signal then uuids s else S (uuids s)) /\
  Server.strategyOrder sv' = Server.strategyOrder sv /\
  Server.mt5Config sv' = Server.mt5Config sv /\
  Server.trades sv' = Server.trades sv /\
  Server.tradingStatus sv' = Server.tradingStatus sv /\
  Server.ml_lr_model sv' = Server.ml_lr_model sv /\
  if isHold signal
  then Server.journalEntries sv' = Server.journalEntries sv
  else exists title content tags,
         Server.journalEntries sv'
         = JsMap.set (randomUUID (uuids s))
             (JournalEntry.mk (randomUUID (uuids s)) None
                (if skip then INSIGHT else TRADE) title content symbol None
                tags Date_now)
             (Server.journalEntries sv) /\
         title = if skip then "Skipped trade: low confidence"%string
                 else ("Signal accepted: " ++ signalText signal)%string.
Proof.
  unfold simulateSignal, getTradingStatus. cbn [TradingStatus.isActive].
  destruct (TradingStatus.isActive (Server.tradingStatus sv)); [|discriminate].
  cbn [negb]. unfold random, setState, Math_random.
  cbn [fst snd Server.state Server.strategyOrder Server.mt5Config Server.trades
       Server.journalEntries Server.tradingStatus Server.ml_lr_model
       drawn strategies backtestResults latest_bars_csv uuids length symbols].
  change (ofInt (Z.of_nat 5)) with (ofInt 5).
  cbv zeta.
  set (signal := if (entropy (S (drawn (Server.state sv))) >? lit 0.6)%js
                 then Buy
                 else if (entropy (S (drawn (Server.state sv))) <? lit 0.4)%js
                      then Sell else Hold).
  destruct (latest_bars_csv (Server.state sv)) as [rows|];
    destruct (Server.ml_lr_model sv);
    destruct signal eqn:Hsignal; cbn [andb negb isHold];
    try destruct (predict_signal _) as [c|];
    cbn [default from_option id andb negb isHold];
    try destruct (c <? lit 0.55)%js eqn:Hc;
    cbn [andb negb isHold];
    unfold createJournalEntry, newUUID, setState;
    cbn [fst snd Server.state Server.strategyOrder Server.mt5Config
         Server.trades Server.journalEntries Server.tradingStatus
         Server.ml_lr_model drawn strategies backtestResults latest_bars_csv
         uuids InsertJournalEntry.tradeId InsertJournalEntry.type
         InsertJournalEntry.title InsertJournalEntry.content
         InsertJournalEntry.symbol InsertJournalEntry.profit
         InsertJournalEntry.tags];
    intros E; injection E as <- <-;
    cbn [Server.state Server.strategyOrder Server.mt5Config
         Server.trades Server.journalEntries Server.tradingStatus
         Server.ml_lr_model];
    repeat (split; [reflexivity|]);
    try reflexivity;
    do 3 eexists; split; reflexivity.
Qed.

(** X25. The confidence gate: an answered signal is skipped exactly
    when it is a BUY or a SELL, the prediction was used and its
    confidence is below the threshold of 0.55; the decision is then
    HOLD and otherwise the raw signal.  So no BUY or SELL is decided on
    a confidence the model put below the threshold.  Whatever the
    decision, no trade is stored. *)
Theorem simulateSignal_confidence_gate (sv : Server.t T) reply sv' :
  simulateSignal entropy randomUUID Date_now Date_text toFixed fixed5Text
                 predict_signal sv = (Ok reply, sv') ->
  SignalReply.threshold reply = lit 0.55 /\
  (SignalReply.skipped reply = true <->
   SignalReply.rawSignal reply <> Hold /\
   SignalReply.mlUsed reply = true /\
   (SignalReply.confidence reply <? SignalReply.threshold reply)%js = true) /\
  SignalReply.decision reply
  = (if SignalReply.skipped reply then Hold else SignalReply.rawSignal reply) /\
  Server.trades sv' = Server.trades sv.
Proof.
  intros E. apply simulateSignal_Ok in E. cbv zeta in E.
  destruct E as (_ & -> & _ & _ & _ & Htrades & _).
  cbn [SignalReply.threshold SignalReply.skipped SignalReply.rawSignal
       SignalReply.mlUsed SignalReply.confidence SignalReply.decision].
  split; [reflexivity|]. split; [|split; [reflexivity | exact Htrades]].
  rewrite !andb_true_iff, negb_true_iff.
  destruct (if (entropy _ >? lit 0.6)%js then _ else _);
    cbn [isHold]; intuition congruence.
Qed.

(** X26. The prediction is used exactly when the model file exists, the
    bar file exists, the raw signal is a BUY or a SELL and the
    prediction process, given the recent rows of the bar file, reports a
    confidence, which is then the confidence of the answer.  When it is
    not used the confidence is 0.5, nothing is skipped and the raw
    signal is the decision. *)
Theorem simulateSignal_uses_the_model_iff (sv : Server.t T) reply sv' :
  simulateSignal entropy randomUUID Date_now Date_text toFixed fixed5Text
                 predict_signal sv = (Ok reply, sv') ->
  (SignalReply.mlUsed reply = true <->
   Server.ml_lr_model sv = true /\
   SignalReply.rawSignal reply <> Hold /\
   exists rows,
     latest_bars_csv (Server.state sv) = Some rows /\
     predict_signal (recentBars Date_text fixed5Text rows)
     = Some (SignalReply.confidence reply)) /\
  (SignalReply.mlUsed reply = false ->
   SignalReply.confidence reply = lit 0.5 /\
   SignalReply.skipped reply = false /\
   SignalReply.decision reply = SignalReply.rawSignal reply).
Proof.
  intros E. apply simulateSignal_Ok in E. cbv zeta in E.
  destruct E as (_ & -> & _).
  cbn [SignalReply.threshold SignalReply.skipped SignalReply.rawSignal
       SignalReply.mlUsed SignalReply.confidence SignalReply.decision].
  set (signal := if (entropy _ >? lit 0.6)%js then _ else _).
  destruct (latest_bars_csv (Server.state sv)) as [rows|] eqn:Hcsv;
    [destruct (Server.ml_lr_model sv) eqn:Hmodel;
     [destruct signal eqn:Hsignal;
      [destruct (predict_signal (recentBars Date_text fixed5Text rows))
         as [c|] eqn:Hp
      |destruct (predict_signal (recentBars Date_text fixed5Text rows))
         as [c|] eqn:Hp
      |]|]|];
    cbn [default from_option id andb negb isHold].
  all: split; [split|].
  all: try (intros Hm; discriminate Hm).
  all: try (intros _; split; [reflexivity|]; split; [discriminate|];
            exists rows; split; [reflexivity | exact Hp]).
  all: try (intros _; reflexivity).
  all: try (intros (Hm & Hs & rows' & Er & Ep);
            first [discriminate Hm | discriminate Er | congruence
                  | injection Er as <-; rewrite Hp in Ep; discriminate Ep]).
  all: try (intros _; repeat split; try reflexivity;
            destruct signal; reflexivity).
Qed.

(** X27. An answered HOLD writes nothing to the journal.  An answered
    BUY or SELL writes one entry, under the next identifier [randomUUID]
    hands out and stamped with the current time: an INSIGHT titled
    "Skipped trade: low confidence" when the signal is skipped, a TRADE
    titled "Signal accepted: " and the signal otherwise; it carries the
    symbol of the answer and neither a trade nor a profit. *)
Theorem simulateSignal_journal (sv : Server.t T) reply sv' :
  simulateSignal entropy randomUUID Date_now Date_text toFixed fixed5Text
                 predict_signal sv = (Ok reply, sv') ->
  (SignalReply.rawSignal reply = Hold ->
   Server.journalEntries sv' = Server.journalEntries sv) /\
  (SignalReply.rawSignal reply <> Hold ->
   exists entry,
     Server.journalEntries sv'
     = JsMap.set (randomUUID (uuids (Server.state sv))) entry
                 (Server.journalEntries sv) /\
     JournalEntry.id entry = randomUUID (uuids (Server.state sv)) /\
     JournalEntry.type entry
     = (if SignalReply.skipped reply then INSIGHT else TRADE) /\
     JournalEntry.title entry
     = (if SignalReply.skipped reply
        then "Skipped trade: low confidence"%string
        else ("Signal accepted: "
              ++ signalText (SignalReply.rawSignal reply))%string) /\
     JournalEntry.symbol entry = SignalReply.symbol reply /\
     JournalEntry.tradeId entry = None /\
     JournalEntry.profit entry = None /\
     JournalEntry.createdAt entry = Date_now).
Proof.
  intros E. apply simulateSignal_Ok in E. cbv zeta in E.
  destruct E as (_ & -> & _ & _ & _ & _ & _ & _ & Hj).
  cbn [SignalReply.skipped SignalReply.rawSignal SignalReply.symbol].
  set (signal := if (entropy _ >? lit 0.6)%js then _ else _) in *.
  destruct signal; cbn [isHold] in Hj.
  3: { split; [auto | congruence]. }
  all: split; [discriminate|]; intros _;
    destruct Hj as (title & content & tags & -> & ->);
    eexists; split; [reflexivity|]; cbn; repeat split; reflexivity.
Qed.

(** While trading is active a signal is answered. *)
Lemma simulateSignal_active (sv : Server.t T) :
  TradingStatus.isActive (Server.tradingStatus sv) = true ->
  exists reply sv',
    simulateSignal entropy randomUUID Date_now Date_text toFixed fixed5Text
                   predict_signal sv = (Ok reply, sv').
Proof.
  intros Hactive. unfold simulateSignal, getTradingStatus.
  cbn [TradingStatus.isActive]. rewrite Hactive. cbn [negb].
  unfold random. cbn [fst snd].
  match goal with |- context [let '(c, m) := ?p in _] => destruct p end.
  eauto.
Qed.

(** X28. Signals need active trading: once trading is stopped a signal
    is refused with status 400 and nothing changes, no draw is consumed;
    once trading is started, with or without strategies, a signal is
    answered. *)
Theorem signals_need_active_trading strategyIds (sv : Server.t T) :
  simulateSignal entropy randomUUID Date_now Date_text toFixed fixed5Text
                 predict_signal (snd (tradingStop Date_now sv))
  = (Fail 400 "Trading is not active", snd (tradingStop Date_now sv)) /\
  exists reply sv',
    simulateSignal entropy randomUUID Date_now Date_text toFixed fixed5Text
                   predict_signal
                   (snd (tradingStart randomUUID Date_now strategyIds sv))
    = (Ok reply, sv').
Proof.
  split.
  - unfold simulateSignal, getTradingStatus. reflexivity.
  - apply simulateSignal_active. reflexivity.
Qed.

End SignalFacts.

(* ===================================================================== *)
(** * 16. The bar file as text *)
(* ===================================================================== *)

Lemma String_split_nonempty sep s : String_split sep s <> [].
Proof.
  destruct s as [|c s]; cbn [String_split]; [discriminate|].
  destruct (Ascii.eqb c sep); [discriminate|].
  destruct (String_split sep s); discriminate.
Qed.

Lemma String_split_cons_length sep c s :
  Ascii.eqb c sep = false ->
  length (String_split sep (String c s)) = length (String_split sep s).
Proof.
  intros E. cbn [String_split]. rewrite E.
  pose proof (String_split_nonempty sep s).
  destruct (String_split sep s); [contradiction | reflexivity].
Qed.

(** A separator in a string adds the pieces on its two sides. *)
Lemma String_split_append sep s1 s2 :
  length (String_split sep (s1 ++ String sep s2))
  = (length (String_split sep s1) + length (String_split sep s2))%nat.
Proof.
  induction s1 as [|c s1 IH].
  - change (EmptyString ++ String sep s2)%string with (String sep s2).
    cbn [String_split]. rewrite Ascii.eqb_refl. reflexivity.
  - change (String c s1 ++ String sep s2)%string
      with (String c (s1 ++ String sep s2)).
    destruct (Ascii.eqb c sep) eqn:E.
    + cbn [String_split]. rewrite E. cbn [length]. now rewrite IH.
    + rewrite !String_split_cons_length by assumption. exact IH.
Qed.

(** A string without line break. *)
Lemma String_split_single s :
  singleLine s = true -> length (String_split newline s) = 1%nat.
Proof.
  induction s as [|c s IH]; [reflexivity|].
  cbn [singleLine]. rewrite andb_true_iff, negb_true_iff.
  intros (Hc & Hs). rewrite String_split_cons_length by assumption. auto.
Qed.

Lemma singleLine_append s1 s2 :
  singleLine (s1 ++ s2) = singleLine s1 && singleLine s2.
Proof.
  induction s1 as [|c s1 IH]; [reflexivity|].
  change (String c s1 ++ s2)%string with (String c (s1 ++ s2)).
  cbn [singleLine]. rewrite IH. now rewrite andb_assoc.
Qed.

Lemma singleLine_concat sep l :
  singleLine sep = true -> Forall (fun s => singleLine s = true) l ->
  singleLine (String.concat sep l) = true.
Proof.
  intros Hsep. induction 1 as [|s l Hs Hl IH]; [reflexivity|].
  destruct l as [|s' l]; [exact Hs|].
  change (String.concat sep (s :: s' :: l))
    with (s ++ sep ++ String.concat sep (s' :: l))%string.
  now rewrite !singleLine_append, Hs, Hsep, IH.
Qed.

Lemma singleLine_uint d : singleLine (NilEmpty.string_of_uint d) = true.
Proof. induction d; cbn; auto. Qed.

Lemma singleLine_intText n : singleLine (intText n) = true.
Proof.
  unfold intText, NilZero.string_of_int, NilZero.string_of_uint.
  destruct (Z.to_int n) as [d|d]; destruct d; cbn; auto using singleLine_uint.
Qed.

(** The lines of [rows.join("\n")]: one per row, and one for no row. *)
Lemma String_split_join (rows : list string) :
  Forall (fun s => singleLine s = true) rows ->
  length (String_split newline (String.concat (String newline EmptyString) rows))
  = Nat.max 1 (length rows).
Proof.
  induction 1 as [|s l Hs Hl IH]; [reflexivity|].
  destruct l as [|s' l]; [cbn [String.concat length]; now apply String_split_single|].
  change (String.concat (String newline EmptyString) (s :: s' :: l))
    with (s ++ String newline (String.concat (String newline EmptyString) (s' :: l)))%string.
  rewrite String_split_append, IH, String_split_single by assumption.
  cbn [length]. lia.
Qed.

Lemma String_split_sep_length sep s :
  length (String_split sep (String sep s)) = S (length (String_split sep s)).
Proof. cbn [String_split]. now rewrite Ascii.eqb_refl. Qed.

Lemma String_split_line s1 s2 :
  singleLine s1 = true ->
  String_split newline (s1 ++ String newline s2) = s1 :: String_split newline s2.
Proof.
  induction s1 as [|c s1 IH].
  - intros _. change (EmptyString ++ String newline s2)%string
      with (String newline s2). reflexivity.
  - change (String c s1 ++ String newline s2)%string
      with (String c (s1 ++ String newline s2)).
    cbn [singleLine]. rewrite andb_true_iff, negb_true_iff.
    intros (Hc & Hs). cbn [String_split]. rewrite Hc, (IH Hs). reflexivity.
Qed.

Lemma String_split_whole s :
  singleLine s = true -> String_split newline s = [s].
Proof.
  induction s as [|c s IH]; [reflexivity|].
  cbn [singleLine]. rewrite andb_true_iff, negb_true_iff.
  intros (Hc & Hs). cbn [String_split]. rewrite Hc, (IH Hs). reflexivity.
Qed.

Lemma append_empty_r s : (s ++ EmptyString)%string = s.
Proof.
  induction s as [|c s IH]; [reflexivity|].
  change (String c s ++ EmptyString)%string with (String c (s ++ EmptyString)).
  now rewrite IH.
Qed.

(** [trimEnd] leaves a prefix without white space in place. *)
Lemma trimEnd_prefix p s :
  forallb (fun c => negb (isWhiteSpace c)) (list_ascii_of_string p) = true ->
  trimEnd (p ++ s) = (p ++ trimEnd s)%string.
Proof.
  induction p as [|c p IH]; [reflexivity|].
  cbn [list_ascii_of_string forallb]. rewrite andb_true_iff, negb_true_iff.
  intros (Hc & Hp).
  change (String c p ++ s)%string with (String c (p ++ s)).
  change (String c p ++ trimEnd s)%string with (String c (p ++ trimEnd s)).
  cbn [trimEnd]. rewrite (IH Hp), Hc.
  destruct (p ++ trimEnd s)%string; reflexivity.
Qed.

(** Trimming the end of a text does not add lines. *)
Lemma String_split_trimEnd s :
  (length (String_split newline (trimEnd s))
   <= length (String_split newline s))%nat.
Proof.
  induction s as [|c s IH]; [reflexivity|].
  pose proof (String_split_nonempty newline s) as Hne.
  assert (Hpos : (1 <= length (String_split newline s))%nat)
    by (destruct (String_split newline s); [contradiction | cbn; lia]).
  cbn [trimEnd]. destruct (trimEnd s) as [|c' rest] eqn:Et.
  - destruct (isWhiteSpace c) eqn:Hw.
    + destruct (Ascii.eqb_spec c newline) as [->|Hc].
      * rewrite String_split_sep_length. cbn [String_split length]. lia.
      * apply Ascii.eqb_neq in Hc.
        rewrite (String_split_cons_length newline c s Hc).
        cbn [String_split length]. lia.
    + destruct (Ascii.eqb_spec c newline) as [->|Hc]; [discriminate Hw|].
      apply Ascii.eqb_neq in Hc.
      rewrite !String_split_cons_length by assumption. exact IH.
  - rewrite <- Et in IH |- *.
    destruct (Ascii.eqb_spec c newline) as [->|Hc].
    + rewrite !String_split_sep_length. lia.
    + apply Ascii.eqb_neq in Hc.
      rewrite !String_split_cons_length by assumption. exact IH.
Qed.

Section BarFileFacts.

Context {T : Type} `{Number T}.
Variable Date_text : Z -> string.
Variable fixed5Text : Z -> string.
Hypothesis Date_text_line : forall t, singleLine (Date_text t) = true.
Hypothesis fixed5Text_line : forall n, singleLine (fixed5Text n) = true.

Lemma singleLine_csvRow bar :
  singleLine (csvRow Date_text fixed5Text bar) = true.
Proof using Date_text_line fixed5Text_line.
  unfold csvRow. apply singleLine_concat; [reflexivity|].
  repeat constructor; auto using singleLine_intText.
Qed.

Lemma csvContent_lines rows :
  length (String_split newline (csvContent Date_text fixed5Text rows))
  = S (Nat.max 1 (length rows)).
Proof using Date_text_line fixed5Text_line.
  unfold csvContent.
  change (String.append csvHeader ?body)
    with (String.append "time,open,high,low,close,tick_volume,spread,real_volume"
                        (String newline body)).
  rewrite String_split_append, String_split_join.
  - rewrite length_map. reflexivity.
  - apply List.Forall_forall. intros s Hs. apply in_map_iff in Hs.
    destruct Hs as (bar & <- & _). apply singleLine_csvRow.
Qed.

(** X29. The bar count of the ML status is the number of rows of the
    bar file when it has some, where the dates and prices are rendered
    without line break; for a file without rows it is 1, the empty line
    after the header being counted, and without a file it is 0. *)
Theorem mlStatus_barCount (sv : Server.t T) :
  MLStatus.confidenceThreshold (mlStatus Date_text fixed5Text sv) = lit 0.55 /\
  match latest_bars_csv (Server.state sv) with
  | Some rows =>
      MLStatus.trainingDataAvailable (mlStatus Date_text fixed5Text sv) = true /\
      MLStatus.barCount (mlStatus Date_text fixed5Text sv)
      = Z.of_nat (Nat.max 1 (length rows))
  | None =>
      MLStatus.trainingDataAvailable (mlStatus Date_text fixed5Text sv) = false /\
      MLStatus.barCount (mlStatus Date_text fixed5Text sv) = 0
  end.
Proof using Date_text_line fixed5Text_line.
  unfold mlStatus.
  cbn [MLStatus.confidenceThreshold MLStatus.trainingDataAvailable
       MLStatus.barCount].
  split; [reflexivity|].
  destruct (latest_bars_csv (Server.state sv)) as [rows|]; [|auto].
  split; [reflexivity|]. rewrite csvContent_lines. lia.
Qed.

(** X30. While the bar file has fewer than 100 rows, the first record
    handed to the prediction process is not a bar but the header line
    of the file read against itself: each field holds its own name. *)
Theorem recentBars_start_with_the_header rows :
  (length rows < 100)%nat ->
  hd_error (recentBars Date_text fixed5Text rows)
  = Some [("time", Some "time"); ("open", Some "open");
          ("high", Some "high"); ("low", Some "low");
          ("close", Some "close"); ("tick_volume", Some "tick_volume");
          ("spread", Some "spread"); ("real_volume", Some "real_volume")]%string.
Proof using Date_text_line fixed5Text_line.
  intros Hrows.
  pose proof (csvContent_lines rows) as Hlines.
  unfold recentBars. cbv zeta. revert Hlines. unfold csvContent.
  set (body := String.concat _ _).
  change (String.append csvHeader body)
    with (String "t"
            (String.append "ime,open,high,low,close,tick_volume,spread,real_volume"
                           (String newline body))).
  intros Hlines. unfold String_trim. cbn [trimStart].
  change (isWhiteSpace "t") with false. cbv iota.
  pose proof (String_split_trimEnd
                (String "t"
                   (String.append
                      "ime,open,high,low,close,tick_volume,spread,real_volume"
                      (String newline body)))) as Hle.
  change (String "t"
            (String.append "ime,open,high,low,close,tick_volume,spread,real_volume"
               (String newline body)))
    with (String.append "time,open,high,low,close,tick_volume,spread,real_volume"
            (String newline body)) in *.
  rewrite trimEnd_prefix in * by reflexivity.
  set (lines := String_split newline (_ ++ trimEnd _)%string) in *.
  assert (Hhd : exists more,
             lines = "time,open,high,low,close,tick_volume,spread,real_volume"%string
                     :: more).
  { subst lines. destruct (trimEnd (String newline body)) as [|c rest] eqn:Et.
    - rewrite append_empty_r. eexists. apply String_split_whole. reflexivity.
    - assert (c = newline) as ->.
      { cbn [trimEnd] in Et. destruct (trimEnd body); [discriminate Et|].
        now injection Et. }
      eexists. apply String_split_line. reflexivity. }
  destruct Hhd as (more & Hhd).
  assert (Hlast : lastN 100 lines = lines).
  { unfold lastN. replace (length lines - 100)%nat with 0%nat by lia.
    reflexivity. }
  rewrite Hlast, Hhd. reflexivity.
Qed.

End BarFileFacts.

(* ===================================================================== *)
(** * 17. Concrete runs of the other routes *)
(* ===================================================================== *)

(** X1 (witness): the one-minute span from 2024-01-01 yields one bar. *)
Lemma bars_stamped_every_five_minutes_sample :
  exists bars s',
    Sample.bars (T:=Q) Sample.halves Sample.minuteLater = (Normal bars, s') /\
    length bars = barCount 1704067200000 1704067260000.
Proof.
  do 2 eexists. split; [vm_compute; reflexivity|].
  refine (proj1 (bars_stamped_every_five_minutes Sample.halves
                   Sample.Date_parse "2024-01-01" Sample.minuteLater "EURUSD"
                   Sample.store _ _ 1704067200000 1704067260000 _ _ _));
    vm_compute; reflexivity.
Defined.

(** X2 (witness): the one-minute span on USDJPY, in binary64. *)
Lemma bars_open_at_previous_close_sample :
  exists bars s',
    generateSimulatedBars (T:=float) Sample.mixed Sample.Date_parse
      "2024-01-01" "2024-01-01T00:01:00.000Z" "USDJPY" Sample.store
    = (Normal bars, s') /\
    forall b, nth_error bars 0 = Some b -> Bar.open b = 15000000.
Proof.
  do 2 eexists. split; [vm_compute; reflexivity|].
  refine (proj1 (bars_open_at_previous_close Sample.mixed Sample.Date_parse
                   "2024-01-01" "2024-01-01T00:01:00.000Z" "USDJPY"
                   Sample.store _ _ _)).
  vm_compute. reflexivity.
Defined.

(** X3 (witness): the binary64 run with every draw 1/2. *)
Lemma runBacktest_stores_result_and_bars_sample :
  exists result barsSaved barsPath s',
    Sample.run (T:=float) Sample.halves 10000%float
    = (Json result barsSaved barsPath, s') /\
    BacktestResult.id result = "uuid-0"%string.
Proof.
  do 4 eexists. split; [vm_compute; reflexivity|].
  refine (proj1 (runBacktest_stores_result_and_bars Sample.halves
                   Sample.Date_parse Sample.randomUUID Sample.Date_now
                   Sample.host
                   (Sample.request "s1" "2024-01-01" Sample.minuteLater
                                   10000%float)
                   Sample.store _ _ _ _ _)).
  vm_compute. reflexivity.
Defined.

(** X4 (witness): the binary64 run with every draw 1/2 has 45 trades. *)
Lemma trades_four_hours_apart_sample :
  exists result barsSaved barsPath s',
    Sample.run (T:=float) Sample.halves 10000%float
    = (Json result barsSaved barsPath, s') /\
    length (BacktestResult.trades result)
    = Z.to_nat (BacktestResult.totalTrades result).
Proof.
  do 4 eexists. split; [vm_compute; reflexivity|].
  refine (proj1 (trades_four_hours_apart Sample.halves Sample.Date_parse
                   Sample.randomUUID Sample.Date_now Sample.host
                   (Sample.request "s1" "2024-01-01" Sample.minuteLater
                                   10000%float)
                   Sample.store _ _ _ _ 1704067200000 _ _));
    vm_compute; reflexivity.
Defined.


(** X6 (witness): the binary64 run from 2024-01-01 to one minute later,
    whose bar file has one row, and the same run where the file system
    cannot be written to. *)
Lemma runBacktest_succeeds_sample :
  (exists result s',
     runBacktest (T:=float) Sample.halves Sample.Date_parse Sample.randomUUID
       Sample.Date_now Sample.host
       (Sample.request "s1" "2024-01-01" Sample.minuteLater 10000%float)
       Sample.store
     = (Json result 1 "/home/runner/workspace/storage/backtests/latest_bars.csv",
        s')) /\
  runBacktest (T:=float) Sample.halves Sample.Date_parse Sample.randomUUID
    Sample.Date_now Sample.readOnly
    (Sample.request "s1" "2024-01-01" Sample.minuteLater 10000%float)
    Sample.store
  = (Status 500 "Failed to run backtest", advance 233 Sample.store).
Proof.
  split.
  - destruct (runBacktest_succeeds (T:=float) Sample.halves Sample.Date_parse
                Sample.randomUUID Sample.Date_now Sample.host
                (Sample.request "s1" "2024-01-01" Sample.minuteLater 10000%float)
                Sample.store Sample.strategy 1704067200000)
      as (rows & Ebars & Hrun).
    + vm_compute. reflexivity.
    + vm_compute. reflexivity.
    + vm_compute. reflexivity.
    + vm_compute. discriminate.
    + vm_compute in Ebars. injection Ebars as <-.
      vm_compute in Hrun. vm_compute. exact Hrun.
  - destruct (runBacktest_succeeds (T:=float) Sample.halves Sample.Date_parse
                Sample.randomUUID Sample.Date_now Sample.readOnly
                (Sample.request "s1" "2024-01-01" Sample.minuteLater 10000%float)
                Sample.store Sample.strategy 1704067200000)
      as (rows & Ebars & Hrun).
    + vm_compute. reflexivity.
    + vm_compute. reflexivity.
    + vm_compute. reflexivity.
    + vm_compute. discriminate.
    + vm_compute in Ebars. injection Ebars as <-.
      vm_compute in Hrun. vm_compute. exact Hrun.
Defined.

(** X7 (witness): a second strategy posted to the sample server. *)
Lemma postStrategy_round_trip_sample :
  exists st sv',
    postStrategy (T:=float) Sample.randomUUID Sample.Date_now Live.Date_text
                 Live.newStrategy Live.server = (Ok st, sv') /\
    getStrategyRoute (Strategy.id st) sv' = Ok st.
Proof.
  do 2 eexists. split; [vm_compute; reflexivity|].
  refine (proj1 (proj2 (postStrategy_round_trip Sample.Date_parse
                          Sample.randomUUID Sample.Date_now Live.engineOrder
                          Live.Date_text
                          Live.newStrategy Live.server _ _ _))).
  vm_compute. reflexivity.
Defined.


(** X9 (witness): the strategy ["s1"] patched with the identifier
    ["s9"]. *)
Lemma patchStrategy_keeps_the_key_sample :
  exists st sv',
    patchStrategy (T:=float) "s1" Live.rename Live.server = (Ok st, sv') /\
    getStrategy "s1" sv' = Some st.
Proof.
  do 2 eexists. split; [vm_compute; reflexivity|].
  refine (proj1 (proj2 (patchStrategy_keeps_the_key "s1" Live.rename
                          Live.server _ _ _))).
  vm_compute. reflexivity.
Defined.

(** X10 (witness): the same patch sent twice. *)
Lemma patchStrategy_twice_sample :
  exists st sv',
    patchStrategy (T:=float) "s1" Live.rename Live.server = (Ok st, sv') /\
    patchStrategy "s1" Live.rename sv' = (Ok st, sv').
Proof.
  do 2 eexists. split; [vm_compute; reflexivity|].
  apply (patchStrategy_twice "s1" Live.rename Live.server).
  vm_compute. reflexivity.
Defined.

(** X13 (witness): the ten most recent trades after one order. *)
Lemma getRecentTrades_are_the_newest_sample :
  exists older,
    getTrades (snd (Live.placed (T:=float)))
    = getRecentTrades 10 (snd Live.placed) ++ older.
Proof.
  destruct (getRecentTrades_are_the_newest 10 (snd (Live.placed (T:=float))))
    as (older & E & _); [lia|].
  exists older. exact E.
Defined.

(** X14 (witness): the order placed on the sample server, closed. *)
Lemma closeTrade_marks_closed_sample :
  exists t sv',
    JsMap.get "uuid-0" (Server.trades (snd (Live.placed (T:=float)))) = Some t /\
    JsMap.get "uuid-0" (Server.trades sv')
    = Some (Trade.mk (Trade.id t) (Trade.ticket t) (Trade.symbol t)
              (Trade.type t) (Trade.volume t) (Trade.openPrice t)
              (Trade.currentPrice t) (Trade.stopLoss t) (Trade.takeProfit t)
              (Trade.profit t) (Trade.openTime t) (Some Sample.Date_now)
              CLOSED (Trade.strategyId t) (Trade.strategyName t)).
Proof.
  assert (H : {t | JsMap.get "uuid-0"
                     (Server.trades (snd (Live.placed (T:=float)))) = Some t})
    by (eexists; vm_compute; reflexivity).
  destruct H as (t & Ht).
  destruct (closeTrade_marks_closed Sample.Date_now "uuid-0"
              (snd Live.placed) t Ht) as (sv' & _ & Hget & _).
  exists t, sv'. split; [exact Ht | exact Hget].
Defined.

(** X16 (witness): an order without a volume. *)
Lemma placeTrade_refusal_changes_nothing_sample :
  exists code error sv',
    placeTrade (T:=float) Sample.halves Sample.Date_parse Sample.randomUUID
      Sample.Date_now Live.engineOrder
      (PlaceOrder.mk (Some "EURUSD"%string) (Some "BUY"%string) None)
      Live.server = (Fail code error, sv') /\
    sv' = Live.server.
Proof.
  do 3 eexists. split; [vm_compute; reflexivity|].
  refine (proj1 (placeTrade_refusal_changes_nothing Sample.halves
                   Sample.Date_parse Sample.randomUUID Sample.Date_now
                   Live.engineOrder
                   (PlaceOrder.mk (Some "EURUSD"%string) (Some "BUY"%string) None)
                   Live.server _ _ _ _)).
  vm_compute. reflexivity.
Defined.

(** X17 (witness): the order placed on the sample server. *)
Lemma placeTrade_is_listed_open_sample :
  exists t sv',
    Live.placed (T:=float) = (Ok t, sv') /\ Trade.status t = OPEN.
Proof.
  do 2 eexists. split; [vm_compute; reflexivity|].
  refine (proj1 (placeTrade_is_listed_open Sample.halves Sample.Date_parse
                   Sample.randomUUID Sample.Date_now Live.engineOrder
                   Live.order Live.server _ _ _)).
  vm_compute. reflexivity.
Defined.

(** X18 (witness): on the server whose two strategies are active the
    order goes to the newer one, ["s2"]; on the server whose one strategy
    is not active it goes to none. *)
Lemma placeTrade_attribution_sample :
  (exists t sv',
     placeTrade (T:=float) Sample.halves Sample.Date_parse Sample.randomUUID
       Sample.Date_now Live.engineOrder Live.order Live.desk = (Ok t, sv') /\
     Trade.strategyId t = "s2"%string /\
     Trade.strategyName t = "RSI Reversal"%string) /\
  (exists t sv',
     Live.placed (T:=float) = (Ok t, sv') /\
     Trade.strategyId t = ""%string /\ Trade.strategyName t = "Manual"%string).
Proof.
  split.
  - do 2 eexists. split; [vm_compute; reflexivity|].
    eassert (P : _).
    { eapply (placeTrade_attribution (T:=float) Sample.halves Sample.Date_parse
                Sample.randomUUID Sample.Date_now Live.engineOrder Live.order
                Live.desk).
      vm_compute. reflexivity. }
    cbv zeta in P.
    assert (F : List.find (fun st => Strategy.isActive st)
                  (getStrategies (T:=float) Sample.Date_parse Live.engineOrder
                     Live.desk)
                = Some Live.newer) by (vm_compute; reflexivity).
    rewrite F in P. destruct P as (_ & _ & Hid & Hname & _).
    split; [exact Hid | exact Hname].
  - do 2 eexists. split; [vm_compute; reflexivity|].
    eassert (P : _).
    { eapply (placeTrade_attribution (T:=float) Sample.halves Sample.Date_parse
                Sample.randomUUID Sample.Date_now Live.engineOrder Live.order
                Live.server).
      vm_compute. reflexivity. }
    cbv zeta in P.
    assert (F : List.find (fun st => Strategy.isActive st)
                  (getStrategies (T:=float) Sample.Date_parse Live.engineOrder
                     Live.server)
                = None) by (vm_compute; reflexivity).
    rewrite F in P. destruct P as (_ & Hid & Hname).
    split; [exact Hid | exact Hname].
Defined.

(** X20 (witness): the order placed on the sample server, in binary64. *)
Lemma placeTrade_prices_sample :
  exists t sv',
    Live.placed (T:=float) = (Ok t, sv') /\
    Trade.openPrice t = (lit 1.0 + Sample.halves 0 * lit 0.1)%js.
Proof.
  do 2 eexists. split; [vm_compute; reflexivity|].
  refine (proj1 (placeTrade_prices Sample.halves Sample.Date_parse
                   Sample.randomUUID Sample.Date_now Live.engineOrder
                   Live.order Live.server _ _ _)).
  vm_compute. reflexivity.
Defined.

(** X22 (witness): the dashboard before and after the sample order. *)
Lemma dashboard_counts_an_order_as_open_sample :
  exists t sv',
    Live.placed (T:=float) = (Ok t, sv') /\
    DashboardStats.totalTrades (fst (getDashboardStats Sample.halves sv'))
    = S (DashboardStats.totalTrades
           (fst (getDashboardStats Sample.halves Live.server))).
Proof.
  do 2 eexists. split; [vm_compute; reflexivity|].
  refine (proj1 (dashboard_counts_an_order_as_open Sample.halves
                   Sample.Date_parse Sample.randomUUID Sample.Date_now
                   Live.engineOrder Live.order Live.server _ _ _ _)).
  - vm_compute. reflexivity.
  - vm_compute. reflexivity.
Defined.

(** X23 (witness): the sample order, closed; with every draw 1/2 its
    profit is 0, so the one closed trade is no win. *)
Lemma dashboard_winRate_counts_closed_trades_sample :
  DashboardStats.winRate
    (fst (getDashboardStats (T:=float) Sample.halves
            (snd (closeTradeRoute Sample.Date_now "uuid-0" (snd Live.placed)))))
  = (ofInt 0 / ofInt 1 * lit 100)%js.
Proof.
  refine (proj1 (proj2 (dashboard_winRate_counts_closed_trades Sample.halves _))
                _).
  vm_compute. discriminate.
Defined.

(** X24 (witness): the sample order, closed, in binary64. *)
Lemma closing_realises_the_profit_sample :
  exists t closed,
    JsMap.get "uuid-0" (Server.trades (snd (Live.placed (T:=float)))) = Some t /\
    fst (closeTradeRoute Sample.Date_now "uuid-0" (snd Live.placed)) = Ok closed /\
    Trade.profit closed = Trade.profit t.
Proof.
  assert (H : {t | JsMap.get "uuid-0"
                     (Server.trades (snd (Live.placed (T:=float)))) = Some t})
    by (eexists; vm_compute; reflexivity).
  destruct H as (t & Ht).
  assert (Hopen : Trade.status t = OPEN).
  { pose proof Ht as Ht'. vm_compute in Ht'. injection Ht' as <-. reflexivity. }
  destruct (closing_realises_the_profit Sample.halves Sample.Date_now "uuid-0"
              (snd Live.placed) t _ _ Ht Hopen (surjective_pairing _))
    as (closed & l1 & l2 & Ea & _ & Ep & _).
  exists t, closed. auto.
Defined.

(** X25 (witness): a BUY drawn on the sample server, which the
    prediction process rates at 0.4: it is skipped. *)
Lemma simulateSignal_confidence_gate_sample :
  exists reply sv',
    Live.signal (T:=float) = (Ok reply, sv') /\
    SignalReply.threshold reply = lit 0.55.
Proof.
  do 2 eexists. split; [vm_compute; reflexivity|].
  refine (proj1 (simulateSignal_confidence_gate Live.highs Sample.randomUUID
                   Sample.Date_now Live.Date_text Live.toFixed Live.fixed5Text
                   Live.unsure Live.server _ _ _)).
  vm_compute. reflexivity.
Defined.

(** X26 (witness): the same signal. *)
Lemma simulateSignal_uses_the_model_iff_sample :
  exists reply sv',
    Live.signal (T:=float) = (Ok reply, sv') /\
    (SignalReply.mlUsed reply = false ->
     SignalReply.confidence reply = lit 0.5 /\
     SignalReply.skipped reply = false /\
     SignalReply.decision reply = SignalReply.rawSignal reply).
Proof.
  do 2 eexists. split; [vm_compute; reflexivity|].
  refine (proj2 (simulateSignal_uses_the_model_iff Live.highs
                   Sample.randomUUID Sample.Date_now Live.Date_text
                   Live.toFixed Live.fixed5Text Live.unsure Live.server
                   _ _ _)).
  vm_compute. reflexivity.
Defined.

(** X27 (witness): the same signal. *)
Lemma simulateSignal_journal_sample :
  exists reply sv',
    Live.signal (T:=float) = (Ok reply, sv') /\
    (SignalReply.rawSignal reply = Hold ->
     Server.journalEntries sv' = Server.journalEntries Live.server).
Proof.
  do 2 eexists. split; [vm_compute; reflexivity|].
  refine (proj1 (simulateSignal_journal Live.highs Sample.randomUUID
                   Sample.Date_now Live.Date_text Live.toFixed
                   Live.fixed5Text Live.unsure Live.server _ _ _)).
  vm_compute. reflexivity.
Defined.

(** X29 (witness): the sample server's bar file has one row. *)
Lemma mlStatus_barCount_sample :
  MLStatus.confidenceThreshold
    (mlStatus (T:=float) Live.Date_text Live.fixed5Text Live.server)
  = lit 0.55.
Proof.
  exact (proj1 (mlStatus_barCount Live.Date_text Live.fixed5Text
                  singleLine_intText singleLine_intText Live.server)).
Defined.

(** X30 (witness): the one-row bar file of the sample server. *)
Lemma recentBars_start_with_the_header_sample :
  hd_error
    (recentBars Live.Date_text Live.fixed5Text
       [Bar.mk 1704067200000 110000 110025 109975 110000 600 15 0])
  = Some [("time", Some "time"); ("open", Some "open");
          ("high", Some "high"); ("low", Some "low");
          ("close", Some "close"); ("tick_volume", Some "tick_volume");
          ("spread", Some "spread"); ("real_volume", Some "real_volume")]%string.
Proof.
  apply (recentBars_start_with_the_header Live.Date_text Live.fixed5Text
           singleLine_intText singleLine_intText).
  cbn. lia.
Defined.
